(** * kai-backend: ledger and term-deposit consistency engine

    A shallow embedding of the Mongoose models and controllers that move
    money: [models/Account.js], [models/Transaction.js],
    [models/RecurringDeposit.js], [models/RDInstallment.js],
    [models/FixedDeposit.js], [controllers/transactionController.js],
    [deactivateAccount] of [controllers/accountController.js], and the
    controllers that create recurring and fixed deposits.

    Conventions of the embedding

    - A JavaScript [Number] is a rational ([Q]); [Math.round], [Math.floor],
      [Math.min] and [Math.pow] are the exact functions. The code computes
      in IEEE 754 binary64, so a statement over [Q] speaks for the code only
      where rounding cannot change it; [Binary64] has the checks of
      [canTransact] on binary64 numbers.
    - A [Date] is its epoch value in milliseconds ([Z]); calendar fields are
      read in UTC ([Binary64] reads them in the time zone of the process).
    - [save()] validates first: every path of a new document and every
      loaded path of a stored one, required paths included. The pre-save
      hook of the schema runs after the validators, and the write comes
      last.
    - A Mongoose document is the record of its schema paths together with the
      bookkeeping Mongoose keeps beside it: the session it is bound to, the
      [isNew] flag and the set of modified paths.
    - The database is a finite map per collection, keyed by the unique
      business identifier, plus the write set of the open session
      transaction: [commitTransaction] applies the write set, while
      [abortTransaction] drops it.
    - [async] methods are computations in a state and exception monad; the
      state is the receiver ([this]) and the world. *)

From Stdlib Require Import ZArith QArith Qround Qpower Lqa Lia List Bool Floats.
From stdpp Require Import base option strings gmap fin_maps pretty.

Open Scope string_scope.

(** ** Numbers *)

Definition Qltb (x y : Q) : bool := negb (Qle_bool y x).
Definition Qgtb (x y : Q) : bool := Qltb y x.
Definition Qgeb (x y : Q) : bool := Qle_bool y x.

(** [Math.round]: the nearest integer, halves towards plus infinity. *)
Definition Math_round (x : Q) : Q := inject_Z (Qfloor (x + (1 # 2))).
Definition Math_floor (x : Q) : Q := inject_Z (Qfloor x).
Definition Math_min (x y : Q) : Q := if Qle_bool x y then x else y.
Definition Math_max (x y : Q) : Q := if Qle_bool x y then y else x.
(** [Math.pow] at an integral exponent. *)
Definition Math_pow (x : Q) (n : Z) : Q := Qpower x n.

(** ** Dates (UTC) *)

Module Date.

Local Open Scope Z_scope.

Definition msPerDay : Z := 1000 * 60 * 60 * 24.

(** Proleptic Gregorian calendar: day number since 1970-01-01 of a civil
    date (month 1..12) and back. *)
Definition days_from_civil (y m d : Z) : Z :=
  let y := if m <=? 2 then y - 1 else y in
  let era := y / 400 in
  let yoe := y - era * 400 in
  let doy := (153 * (if 2 <? m then m - 3 else m + 9) + 2) / 5 + d - 1 in
  let doe := yoe * 365 + yoe / 4 - yoe / 100 + doy in
  era * 146097 + doe - 719468.

Definition civil_from_days (z : Z) : Z * Z * Z :=
  let z := z + 719468 in
  let era := z / 146097 in
  let doe := z - era * 146097 in
  let yoe := (doe - doe / 1460 + doe / 36524 - doe / 146096) / 365 in
  let y := yoe + era * 400 in
  let doy := doe - (365 * yoe + yoe / 4 - yoe / 100) in
  let mp := (5 * doy + 2) / 153 in
  let d := doy - (153 * mp + 2) / 5 + 1 in
  let m := if mp <? 10 then mp + 3 else mp - 9 in
  (if m <=? 2 then y + 1 else y, m, d).

Definition getFullYear (t : Z) : Z := (civil_from_days (t / msPerDay)).1.1.
(** Months count from 0, as in JavaScript. *)
Definition getMonth (t : Z) : Z := (civil_from_days (t / msPerDay)).1.2 - 1.
Definition getDate (t : Z) : Z := (civil_from_days (t / msPerDay)).2.

(** [new Date(year, month, day)]: midnight of that day; a month outside
    0..11 or a day outside the month carries over. *)
Definition make (y m d : Z) : Z :=
  (days_from_civil (y + m / 12) (m mod 12 + 1) 1 + (d - 1)) * msPerDay.

(** [d.setMonth(d.getMonth() + k)], keeping the time of day. *)
Definition addMonths (t k : Z) : Z :=
  make (getFullYear t) (getMonth t + k) (getDate t) + t mod msPerDay.

End Date.

(** ** Outcomes of a call, and the monad of methods *)

Inductive outcome (A : Type) : Type :=
| Returned (a : A)
| Thrown (message : string)
| Hangs.
Arguments Returned {A} a.
Arguments Thrown {A} message.
Arguments Hangs {A}.

Definition M (St A : Type) : Type := St -> St * outcome A.

Definition ret {St A} (a : A) : M St A := fun s => (s, Returned a).
Definition throw {St A} (message : string) : M St A :=
  fun s => (s, Thrown message).
Definition hang {St A} : M St A := fun s => (s, Hangs).
Definition bind {St A B} (m : M St A) (k : A -> M St B) : M St B :=
  fun s =>
    match m s with
    | (s', Returned a) => k a s'
    | (s', Thrown e) => (s', Thrown e)
    | (s', Hangs) => (s', Hangs)
    end.
(** [try { m } catch (error) { handler(error.message) }] *)
Definition try_catch {St A} (m : M St A) (handler : string -> M St A) : M St A :=
  fun s =>
    match m s with
    | (s', Thrown e) => handler e s'
    | r => r
    end.
Definition gets {St A} (f : St -> A) : M St A := fun s => (s, Returned (f s)).
Definition modify {St} (f : St -> St) : M St unit := fun s => (f s, Returned tt).

Notation "'let!' x ':=' m 'in' k" := (bind m (fun x => k))
  (at level 10, x name, m at level 100, k at level 200).
Notation "m ';;' k" := (bind m (fun _ => k))
  (at level 100, k at level 200, right associativity).

Definition when {St} (b : bool) (m : M St unit) : M St unit :=
  if b then m else ret tt.

(** Run a computation on one component of a larger state. *)
Definition zoom {St T A} (get : St -> T) (set : T -> St -> St) (m : M T A)
  : M St A :=
  fun s => let '(t, r) := m (get s) in (set t s, r).

(** ** Schemas *)

(** [models/Account.js], the schema paths. *)
Module Account.

Inductive accountType_enum := savings | current.
Inductive freezeReason_enum :=
  none | suspicious_activity | customer_request | admin_action | legal_hold.
Inductive status_enum := inactive | frozen | active.

Record t := mk
  { accountNumber : string;
    userId : string;
    accountType : accountType_enum;
    balance : Q;
    minimumBalance : Q;
    overdraftLimit : Q;
    interestRate : Q;
    lastInterestCalculated : Z;
    isActive : bool;
    freezeReason : freezeReason_enum;
    dailyTransactionLimit : Q;
    monthlyTransactionLimit : Q;
    todayTransactionAmount : Q;
    monthTransactionAmount : Q;
    lastTransactionReset : Z;
    lastMonthlyReset : Z }.

Definition set_balance (v : Q) (a : t) : t :=
  mk (accountNumber a) (userId a) (accountType a) v (minimumBalance a)
     (overdraftLimit a) (interestRate a) (lastInterestCalculated a)
     (isActive a) (freezeReason a) (dailyTransactionLimit a)
     (monthlyTransactionLimit a) (todayTransactionAmount a)
     (monthTransactionAmount a) (lastTransactionReset a) (lastMonthlyReset a).
Definition set_isActive (v : bool) (a : t) : t :=
  mk (accountNumber a) (userId a) (accountType a) (balance a)
     (minimumBalance a) (overdraftLimit a) (interestRate a)
     (lastInterestCalculated a) v (freezeReason a) (dailyTransactionLimit a)
     (monthlyTransactionLimit a) (todayTransactionAmount a)
     (monthTransactionAmount a) (lastTransactionReset a) (lastMonthlyReset a).
Definition set_freezeReason (v : freezeReason_enum) (a : t) : t :=
  mk (accountNumber a) (userId a) (accountType a) (balance a)
     (minimumBalance a) (overdraftLimit a) (interestRate a)
     (lastInterestCalculated a) (isActive a) v (dailyTransactionLimit a)
     (monthlyTransactionLimit a) (todayTransactionAmount a)
     (monthTransactionAmount a) (lastTransactionReset a) (lastMonthlyReset a).
Definition set_todayTransactionAmount (v : Q) (a : t) : t :=
  mk (accountNumber a) (userId a) (accountType a) (balance a)
     (minimumBalance a) (overdraftLimit a) (interestRate a)
     (lastInterestCalculated a) (isActive a) (freezeReason a)
     (dailyTransactionLimit a) (monthlyTransactionLimit a) v
     (monthTransactionAmount a) (lastTransactionReset a) (lastMonthlyReset a).
Definition set_monthTransactionAmount (v : Q) (a : t) : t :=
  mk (accountNumber a) (userId a) (accountType a) (balance a)
     (minimumBalance a) (overdraftLimit a) (interestRate a)
     (lastInterestCalculated a) (isActive a) (freezeReason a)
     (dailyTransactionLimit a) (monthlyTransactionLimit a)
     (todayTransactionAmount a) v (lastTransactionReset a)
     (lastMonthlyReset a).
Definition set_lastTransactionReset (v : Z) (a : t) : t :=
  mk (accountNumber a) (userId a) (accountType a) (balance a)
     (minimumBalance a) (overdraftLimit a) (interestRate a)
     (lastInterestCalculated a) (isActive a) (freezeReason a)
     (dailyTransactionLimit a) (monthlyTransactionLimit a)
     (todayTransactionAmount a) (monthTransactionAmount a) v
     (lastMonthlyReset a).
Definition set_lastMonthlyReset (v : Z) (a : t) : t :=
  mk (accountNumber a) (userId a) (accountType a) (balance a)
     (minimumBalance a) (overdraftLimit a) (interestRate a)
     (lastInterestCalculated a) (isActive a) (freezeReason a)
     (dailyTransactionLimit a) (monthlyTransactionLimit a)
     (todayTransactionAmount a) (monthTransactionAmount a)
     (lastTransactionReset a) v.

(** The [status] virtual. *)
Definition status (a : t) : status_enum :=
  if negb (isActive a) then inactive
  else match freezeReason a with
       | none => active
       | _ => frozen
       end.

(** The [availableBalance] virtual. *)
Definition availableBalance (a : t) : Q :=
  match accountType a with
  | current => (balance a + overdraftLimit a)%Q
  | savings => balance a
  end.

End Account.

(** [models/Transaction.js], the schema paths ([metadata] left out). *)
Module Transaction.

Inductive transactionType_enum :=
  transfer | deposit | withdrawal | fd_deposit | fd_maturity | rd_deposit
| rd_maturity | interest_credit | fee_debit | penalty_debit | reversal.
Inductive status_enum := pending | completed | failed | reversed.

Record fees_t := mkFees { transactionFee : Q; gst : Q; totalFees : Q }.
Record balances_t := mkBalances
  { fromAccountBalance : option Q; toAccountBalance : option Q }.

Record t := mk
  { transactionId : string;  (* empty until generated *)
    fromAccountId : option string;
    toAccountId : option string;
    fromAccountNumber : option string;
    toAccountNumber : option string;
    amount : Q;
    transactionType : transactionType_enum;
    description : string;
    status : status_enum;
    reference : option string;
    fees : fees_t;
    balances : balances_t;
    processedAt : option Z;
    failureReason : option string;
    reversalTransactionId : option string }.

Definition set_transactionId (v : string) (x : t) : t :=
  mk v (fromAccountId x) (toAccountId x) (fromAccountNumber x)
     (toAccountNumber x) (amount x) (transactionType x) (description x)
     (status x) (reference x) (fees x) (balances x) (processedAt x)
     (failureReason x) (reversalTransactionId x).
Definition set_fromAccountNumber (v : option string) (x : t) : t :=
  mk (transactionId x) (fromAccountId x) (toAccountId x) v
     (toAccountNumber x) (amount x) (transactionType x) (description x)
     (status x) (reference x) (fees x) (balances x) (processedAt x)
     (failureReason x) (reversalTransactionId x).
Definition set_toAccountNumber (v : option string) (x : t) : t :=
  mk (transactionId x) (fromAccountId x) (toAccountId x)
     (fromAccountNumber x) v (amount x) (transactionType x) (description x)
     (status x) (reference x) (fees x) (balances x) (processedAt x)
     (failureReason x) (reversalTransactionId x).
Definition set_status (v : status_enum) (x : t) : t :=
  mk (transactionId x) (fromAccountId x) (toAccountId x)
     (fromAccountNumber x) (toAccountNumber x) (amount x)
     (transactionType x) (description x) v (reference x) (fees x)
     (balances x) (processedAt x) (failureReason x)
     (reversalTransactionId x).
Definition set_fees (v : fees_t) (x : t) : t :=
  mk (transactionId x) (fromAccountId x) (toAccountId x)
     (fromAccountNumber x) (toAccountNumber x) (amount x)
     (transactionType x) (description x) (status x) (reference x) v
     (balances x) (processedAt x) (failureReason x)
     (reversalTransactionId x).
Definition set_balances (v : balances_t) (x : t) : t :=
  mk (transactionId x) (fromAccountId x) (toAccountId x)
     (fromAccountNumber x) (toAccountNumber x) (amount x)
     (transactionType x) (description x) (status x) (reference x) (fees x)
     v (processedAt x) (failureReason x) (reversalTransactionId x).
Definition set_processedAt (v : option Z) (x : t) : t :=
  mk (transactionId x) (fromAccountId x) (toAccountId x)
     (fromAccountNumber x) (toAccountNumber x) (amount x)
     (transactionType x) (description x) (status x) (reference x) (fees x)
     (balances x) v (failureReason x) (reversalTransactionId x).
Definition set_failureReason (v : option string) (x : t) : t :=
  mk (transactionId x) (fromAccountId x) (toAccountId x)
     (fromAccountNumber x) (toAccountNumber x) (amount x)
     (transactionType x) (description x) (status x) (reference x) (fees x)
     (balances x) (processedAt x) v (reversalTransactionId x).
Definition set_reversalTransactionId (v : option string) (x : t) : t :=
  mk (transactionId x) (fromAccountId x) (toAccountId x)
     (fromAccountNumber x) (toAccountNumber x) (amount x)
     (transactionType x) (description x) (status x) (reference x) (fees x)
     (balances x) (processedAt x) (failureReason x) v.

(** [new Transaction({...})]: the schema defaults for the paths the caller
    leaves out. *)
Definition new (fromId toId fromNumber toNumber : option string) (amt : Q)
    (type : transactionType_enum) (descr : string) (ref : option string)
    (st : status_enum) (processed : option Z) : t :=
  mk "" fromId toId fromNumber toNumber amt type descr st ref
     (mkFees 0 0 0) (mkBalances None None) processed None None.

End Transaction.

(** [models/RecurringDeposit.js], the schema paths ([nominee] left out). *)
Module RecurringDeposit.

Inductive status_enum := active | matured | closed | defaulted.

Record autoDebit_t := mkAutoDebit
  { enabled : bool;
    failureCount : Z;
    lastFailureDate : option Z;
    lastFailureReason : option string }.
Record maturityDetails_t := mkMaturityDetails
  { processedDate : Z;
    creditedAccountId : string;
    transactionId : string;
    totalInterestEarned : Q }.
Record closureDetails_t := mkClosureDetails
  { closureDate : Z; reason : string; penaltyApplied : Q; netAmount : Q }.

Record t := mk
  { rdNumber : string;
    userId : string;
    fromAccountId : string;
    monthlyAmount : Q;
    interestRate : Q;
    tenure : Z;
    totalDeposited : Q;
    maturityAmount : Q;
    startDate : Z;
    maturityDate : Z;
    nextDueDate : Z;
    status : status_enum;
    installmentsPaid : Z;
    installmentsMissed : Z;
    penaltyAmount : Q;
    autoDebit : autoDebit_t;
    maturityDetails : option maturityDetails_t;
    closureDetails : option closureDetails_t }.

Definition set_totalDeposited (v : Q) (r : t) : t :=
  mk (rdNumber r) (userId r) (fromAccountId r) (monthlyAmount r)
     (interestRate r) (tenure r) v (maturityAmount r) (startDate r)
     (maturityDate r) (nextDueDate r) (status r) (installmentsPaid r)
     (installmentsMissed r) (penaltyAmount r) (autoDebit r)
     (maturityDetails r) (closureDetails r).
Definition set_nextDueDate (v : Z) (r : t) : t :=
  mk (rdNumber r) (userId r) (fromAccountId r) (monthlyAmount r)
     (interestRate r) (tenure r) (totalDeposited r) (maturityAmount r)
     (startDate r) (maturityDate r) v (status r) (installmentsPaid r)
     (installmentsMissed r) (penaltyAmount r) (autoDebit r)
     (maturityDetails r) (closureDetails r).
Definition set_status (v : status_enum) (r : t) : t :=
  mk (rdNumber r) (userId r) (fromAccountId r) (monthlyAmount r)
     (interestRate r) (tenure r) (totalDeposited r) (maturityAmount r)
     (startDate r) (maturityDate r) (nextDueDate r) v (installmentsPaid r)
     (installmentsMissed r) (penaltyAmount r) (autoDebit r)
     (maturityDetails r) (closureDetails r).
Definition set_installmentsPaid (v : Z) (r : t) : t :=
  mk (rdNumber r) (userId r) (fromAccountId r) (monthlyAmount r)
     (interestRate r) (tenure r) (totalDeposited r) (maturityAmount r)
     (startDate r) (maturityDate r) (nextDueDate r) (status r) v
     (installmentsMissed r) (penaltyAmount r) (autoDebit r)
     (maturityDetails r) (closureDetails r).
Definition set_penaltyAmount (v : Q) (r : t) : t :=
  mk (rdNumber r) (userId r) (fromAccountId r) (monthlyAmount r)
     (interestRate r) (tenure r) (totalDeposited r) (maturityAmount r)
     (startDate r) (maturityDate r) (nextDueDate r) (status r)
     (installmentsPaid r) (installmentsMissed r) v (autoDebit r)
     (maturityDetails r) (closureDetails r).
Definition set_autoDebit (v : autoDebit_t) (r : t) : t :=
  mk (rdNumber r) (userId r) (fromAccountId r) (monthlyAmount r)
     (interestRate r) (tenure r) (totalDeposited r) (maturityAmount r)
     (startDate r) (maturityDate r) (nextDueDate r) (status r)
     (installmentsPaid r) (installmentsMissed r) (penaltyAmount r) v
     (maturityDetails r) (closureDetails r).
Definition set_maturityDetails (v : option maturityDetails_t) (r : t) : t :=
  mk (rdNumber r) (userId r) (fromAccountId r) (monthlyAmount r)
     (interestRate r) (tenure r) (totalDeposited r) (maturityAmount r)
     (startDate r) (maturityDate r) (nextDueDate r) (status r)
     (installmentsPaid r) (installmentsMissed r) (penaltyAmount r)
     (autoDebit r) v (closureDetails r).
Definition set_closureDetails (v : option closureDetails_t) (r : t) : t :=
  mk (rdNumber r) (userId r) (fromAccountId r) (monthlyAmount r)
     (interestRate r) (tenure r) (totalDeposited r) (maturityAmount r)
     (startDate r) (maturityDate r) (nextDueDate r) (status r)
     (installmentsPaid r) (installmentsMissed r) (penaltyAmount r)
     (autoDebit r) (maturityDetails r) v.

(** The nested paths of [autoDebit]. *)
Definition set_failureCount (v : Z) (r : t) : t :=
  set_autoDebit
    (mkAutoDebit (enabled (autoDebit r)) v (lastFailureDate (autoDebit r))
       (lastFailureReason (autoDebit r))) r.
Definition set_lastFailureDate (v : option Z) (r : t) : t :=
  set_autoDebit
    (mkAutoDebit (enabled (autoDebit r)) (failureCount (autoDebit r)) v
       (lastFailureReason (autoDebit r))) r.
Definition set_lastFailureReason (v : option string) (r : t) : t :=
  set_autoDebit
    (mkAutoDebit (enabled (autoDebit r)) (failureCount (autoDebit r))
       (lastFailureDate (autoDebit r)) v) r.

(** The [formattedRdNumber] virtual. *)
Definition formattedRdNumber (r : t) : string := "RD-" ++ rdNumber r.

End RecurringDeposit.

(** [models/RDInstallment.js], the schema paths ([paymentMethod] and [notes]
    left out). *)
Module RDInstallment.

Inductive status_enum := pending | paid | overdue | defaulted.

Record t := mk
  { rdId : string;
    installmentNumber : Z;
    amount : Q;
    penaltyAmount : Q;
    totalAmount : Q;
    dueDate : Z;
    paidDate : option Z;
    status : status_enum;
    transactionId : option string }.

Definition set_totalAmount (v : Q) (i : t) : t :=
  mk (rdId i) (installmentNumber i) (amount i) (penaltyAmount i) v
     (dueDate i) (paidDate i) (status i) (transactionId i).

End RDInstallment.

(** [models/FixedDeposit.js], the schema paths that creation touches. *)
Module FixedDeposit.

Inductive status_enum := active | matured | closed | premature_closed.
Inductive interestPayoutMode_enum :=
  cumulative | monthly | quarterly | half_yearly | yearly.

Record t := mk
  { fdNumber : string;  (* empty until generated *)
    userId : string;
    fromAccountId : string;
    principalAmount : Q;
    interestRate : Q;
    tenure : Z;
    maturityAmount : option Q;
    startDate : Z;
    maturityDate : option Z;
    status : status_enum;
    interestPayoutMode : interestPayoutMode_enum;
    payoutAccountId : option string;
    totalInterestPaid : Q;
    lastInterestPayoutDate : option Z }.

Definition set_fdNumber (v : string) (f : t) : t :=
  mk v (userId f) (fromAccountId f) (principalAmount f) (interestRate f)
     (tenure f) (maturityAmount f) (startDate f) (maturityDate f) (status f)
     (interestPayoutMode f) (payoutAccountId f) (totalInterestPaid f)
     (lastInterestPayoutDate f).
Definition set_maturityAmount (v : option Q) (f : t) : t :=
  mk (fdNumber f) (userId f) (fromAccountId f) (principalAmount f)
     (interestRate f) (tenure f) v (startDate f) (maturityDate f) (status f)
     (interestPayoutMode f) (payoutAccountId f) (totalInterestPaid f)
     (lastInterestPayoutDate f).
Definition set_maturityDate (v : option Z) (f : t) : t :=
  mk (fdNumber f) (userId f) (fromAccountId f) (principalAmount f)
     (interestRate f) (tenure f) (maturityAmount f) (startDate f) v
     (status f) (interestPayoutMode f) (payoutAccountId f)
     (totalInterestPaid f) (lastInterestPayoutDate f).
Definition set_totalInterestPaid (v : Q) (f : t) : t :=
  mk (fdNumber f) (userId f) (fromAccountId f) (principalAmount f)
     (interestRate f) (tenure f) (maturityAmount f) (startDate f)
     (maturityDate f) (status f) (interestPayoutMode f) (payoutAccountId f)
     v (lastInterestPayoutDate f).
Definition set_lastInterestPayoutDate (v : option Z) (f : t) : t :=
  mk (fdNumber f) (userId f) (fromAccountId f) (principalAmount f)
     (interestRate f) (tenure f) (maturityAmount f) (startDate f)
     (maturityDate f) (status f) (interestPayoutMode f) (payoutAccountId f)
     (totalInterestPaid f) v.

(** The [formattedFdNumber] virtual. *)
Definition formattedFdNumber (f : t) : string := "FD-" ++ fdNumber f.

End FixedDeposit.

(** ** Documents, the database and the world *)

(** A Mongoose document: the schema paths and the bookkeeping beside them. *)
Record Doc (A : Type) : Type := mkDoc
  { this : A;
    session : bool;           (* [$session()]: bound to the request session *)
    isNew : bool;
    modifiedPaths : list string }.
Arguments mkDoc {A} this session isNew modifiedPaths.
Arguments this {A} d.
Arguments session {A} d.
Arguments isNew {A} d.
Arguments modifiedPaths {A} d.

(** [new Model({...})]: every path the caller sets counts as modified. *)
Definition new_doc {A} (x : A) (paths : list string) : Doc A :=
  mkDoc x false true paths.
(** A document a query returns. *)
Definition loaded_doc {A} (x : A) (in_session : bool) : Doc A :=
  mkDoc x in_session false [].

Definition isModified {A} (path : string) (d : Doc A) : bool :=
  bool_decide (path ∈ modifiedPaths d).

(** The collections. *)
Record Store := mkStore
  { accounts : gmap string Account.t;
    transactions : gmap string Transaction.t;
    recurringDeposits : gmap string RecurringDeposit.t;
    installments : gmap (string * Z) RDInstallment.t;
    fixedDeposits : gmap string FixedDeposit.t }.

Definition empty_store : Store := mkStore ∅ ∅ ∅ ∅ ∅.

(** Left-biased overlay of a write set on a store. *)
Definition overlay (writes base : Store) : Store :=
  mkStore (accounts writes ∪ accounts base)
          (transactions writes ∪ transactions base)
          (recurringDeposits writes ∪ recurringDeposits base)
          (installments writes ∪ installments base)
          (fixedDeposits writes ∪ fixedDeposits base).

(** What a request can observe and change outside its own variables.
    - [committed]: the database as every reader sees it;
    - [uncommitted]: the write set of the session transaction in progress;
    - [clock]: the wall clock, which stands still during one request;
    - [faults]: the storage layer's answer to the coming writes, one flag per
      write, [true] for a write that is refused; past the end of the list
      every write goes through;
    - [random]: the coming values of [Math.random()]. *)
Record World := mkWorld
  { committed : Store;
    uncommitted : Store;
    clock : Z;
    faults : list bool;
    random : list Q }.

Definition set_committed (v : Store) (w : World) : World :=
  mkWorld v (uncommitted w) (clock w) (faults w) (random w).
Definition set_uncommitted (v : Store) (w : World) : World :=
  mkWorld (committed w) v (clock w) (faults w) (random w).
Definition set_clock (v : Z) (w : World) : World :=
  mkWorld (committed w) (uncommitted w) v (faults w) (random w).
Definition set_faults (v : list bool) (w : World) : World :=
  mkWorld (committed w) (uncommitted w) (clock w) v (random w).
Definition set_random (v : list Q) (w : World) : World :=
  mkWorld (committed w) (uncommitted w) (clock w) (faults w) v.

(** What a query bound to the session reads. *)
Definition session_view (w : World) : Store := overlay (uncommitted w) (committed w).

(** [session.commitTransaction()] and [session.abortTransaction()]. *)
Definition commitTransaction : M World unit :=
  modify (fun w => set_uncommitted empty_store (set_committed (session_view w) w)).
Definition abortTransaction : M World unit :=
  modify (set_uncommitted empty_store).
(** [session.startTransaction()] on a session just started. *)
Definition startTransaction : M World unit :=
  modify (set_uncommitted empty_store).

(** One write to storage, inside the session transaction or directly. *)
Definition storage_write (in_session : bool) (f : Store -> Store) : M World unit :=
  fun w =>
    let w' := set_faults (tail (faults w)) w in
    match faults w with
    | true :: _ => (w', Thrown "storage write failed")
    | _ =>
        (if in_session then set_uncommitted (f (uncommitted w')) w'
         else set_committed (f (committed w')) w',
         Returned tt)
    end.

(** Methods run on a receiver in a world. *)
Definition Method (A R : Type) : Type := M (Doc A * World) R.

Definition in_world {A R} (m : M World R) : Method A R :=
  zoom snd (fun w s => (s.1, w)) m.
Definition on_this {A R} (m : M (Doc A) R) : Method A R :=
  zoom fst (fun d s => (d, s.2)) m.

Definition get_this {A} : Method A A := gets (fun s => this s.1).
Definition self {A} : Method A (Doc A) := gets fst.
(** [new Date()] *)
Definition new_Date {A} : Method A Z := gets (fun s => clock s.2).

(** [this.path = v] *)
Definition assign {A} (path : string) (f : A -> A) : Method A unit :=
  modify (fun s =>
    (mkDoc (f (this s.1)) (session s.1) (isNew s.1) (path :: modifiedPaths s.1),
     s.2)).

(** The tail of every [save()]: the write, after which the document is
    neither new nor modified. *)
Definition persist {A} (f : A -> Store -> Store) : Method A unit :=
  let! d := self in
  in_world (storage_write (session d) (f (this d))) ;;
  modify (fun s => (mkDoc (this s.1) (session s.1) false [], s.2)).

(** [doc.save({ session })] binds the document to the session first. *)
Definition bind_session {A} : Method A unit :=
  modify (fun s =>
    (mkDoc (this s.1) true (isNew s.1) (modifiedPaths s.1), s.2)).

(** Call a method on a document held in a variable. *)
Definition call {A R} (d : Doc A) (m : Method A R) : M World (Doc A * R) :=
  fun w =>
    match m (d, w) with
    | ((d', w'), Returned r) => (w', Returned (d', r))
    | ((_, w'), Thrown e) => (w', Thrown e)
    | ((_, w'), Hangs) => (w', Hangs)
    end.

(** The message of the [ValidationError] of a model: the errors of the
    failing paths, one after the other. *)
Definition validation_failed (model : string) (errors : list string) : string :=
  model ++ " validation failed: " ++ String.concat ", " errors.

(** ** [models/Account.js]: the methods *)
Module accountSchema.

Import Account.

(** The validators of the [balance] path, in the order of the schema. *)
Definition validate_balance (a : Account.t) : option string :=
  if Qltb (balance a) 0 then Some "Balance cannot be negative"
  else
    let ok :=
      match accountType a with
      | savings => Qgeb (balance a) (minimumBalance a)
      | current => Qgeb (balance a) (- overdraftLimit a)
      end in
    if ok then None else Some "Balance is below minimum required balance".

(** The write of an account document. *)
Definition put (a : Account.t) (store : Store) : Store :=
  mkStore (<[accountNumber a := a]> (accounts store))
          (transactions store) (recurringDeposits store)
          (installments store) (fixedDeposits store).

(** [this.save()]: Mongoose validates every path of the document, modified
    or loaded, then runs the pre-save hook, then writes. Of the paths with a
    validator only [balance] is written by the modelled code; the others
    ([accountNumber], [userId], [accountType], [interestRate],
    [freezeReason]) are taken to pass. The pre-save hook only acts on a new
    document without an account number, which no document of a query is. *)
Definition save : Method Account.t unit :=
  let! a := get_this in
  match validate_balance a with
  | Some message => throw ("Account validation failed: balance: " ++ message)
  | None =>
      persist put
  end.

Record canTransact_result := mkCanTransact
  { allowed : bool; reason : option string }.

Definition canTransact (amount : Q) : Method Account.t canTransact_result :=
  let! now := new_Date in
  let today :=
    Date.make (Date.getFullYear now) (Date.getMonth now) (Date.getDate now) in
  let thisMonth := Date.make (Date.getFullYear now) (Date.getMonth now) 1 in
  (* Reset daily limit if it's a new day *)
  let! a := get_this in
  when (lastTransactionReset a <? today)%Z
    (assign "todayTransactionAmount" (set_todayTransactionAmount 0) ;;
     assign "lastTransactionReset" (set_lastTransactionReset now)) ;;
  (* Reset monthly limit if it's a new month *)
  let! a := get_this in
  when (lastMonthlyReset a <? thisMonth)%Z
    (assign "monthTransactionAmount" (set_monthTransactionAmount 0) ;;
     assign "lastMonthlyReset" (set_lastMonthlyReset now)) ;;
  let! a := get_this in
  if Qgtb (todayTransactionAmount a + amount) (dailyTransactionLimit a) then
    ret (mkCanTransact false (Some "Daily transaction limit exceeded"))
  else if Qgtb (monthTransactionAmount a + amount) (monthlyTransactionLimit a) then
    ret (mkCanTransact false (Some "Monthly transaction limit exceeded"))
  else
    match accountType a with
    | savings =>
        if Qltb (balance a - amount) (minimumBalance a) then
          ret (mkCanTransact false
                 (Some "Insufficient balance. Minimum balance requirement not met"))
        else ret (mkCanTransact true None)
    | current =>
        if Qltb (balance a - amount) (- overdraftLimit a) then
          ret (mkCanTransact false (Some "Overdraft limit exceeded"))
        else ret (mkCanTransact true None)
    end.

Definition updateTransactionAmounts (amount : Q) : Method Account.t unit :=
  let! a := get_this in
  assign "todayTransactionAmount"
    (set_todayTransactionAmount (todayTransactionAmount a + amount)) ;;
  let! a := get_this in
  assign "monthTransactionAmount"
    (set_monthTransactionAmount (monthTransactionAmount a + amount)) ;;
  save.

(** What [credit] and [debit] return ([message] left out). *)
Record movement_result := mkMovement { success : bool; newBalance : Q }.

Definition credit (amount : Q) : Method Account.t movement_result :=
  if Qle_bool amount 0 then throw "Credit amount must be positive"
  else
    let! a := get_this in
    assign "balance" (set_balance (balance a + amount)) ;;
    save ;;
    let! a := get_this in
    ret (mkMovement true (balance a)).

Definition debit (amount : Q) : Method Account.t movement_result :=
  if Qle_bool amount 0 then throw "Debit amount must be positive"
  else
    (* Check if transaction is allowed *)
    let! check := canTransact amount in
    if negb (allowed check) then throw (default "" (reason check))
    else
      let! a := get_this in
      assign "balance" (set_balance (balance a - amount)) ;;
      updateTransactionAmounts amount ;;
      let! a := get_this in
      ret (mkMovement true (balance a)).

Definition freeze (reason : freezeReason_enum) : Method Account.t unit :=
  assign "freezeReason" (set_freezeReason reason) ;;
  assign "isActive" (set_isActive false) ;;
  save.

Definition unfreeze : Method Account.t unit :=
  assign "freezeReason" (set_freezeReason none) ;;
  assign "isActive" (set_isActive true) ;;
  save.

(** [Account.findOne({ accountNumber, userId, isActive: true })] *)
Definition findOne (store : Store) (number user : string) : option Account.t :=
  a ← accounts store !! number;
  if bool_decide (accountNumber a = number) && bool_decide (userId a = user)
     && isActive a
  then Some a else None.

(** [Account.findByAccountNumber(accountNumber)] *)
Definition findByAccountNumber (store : Store) (number : string)
  : option Account.t :=
  a ← accounts store !! number;
  if bool_decide (accountNumber a = number) && isActive a
  then Some a else None.

(** [Account.findById(id)]; the account number stands for the object id. *)
Definition findById (store : Store) (id : string) : option Account.t :=
  a ← accounts store !! id;
  if bool_decide (accountNumber a = id) then Some a else None.

End accountSchema.

(** ** Identifier generation *)

(** [n.toString().padStart(width, "0")] for a natural number [n]. *)
Definition padStart0 (width : nat) (n : Z) : string :=
  let digits := pretty (Z.to_N n) in
  String.concat "" (replicate (width - String.length digits) "0") ++ digits.

(** The loops of [generateTransactionId], [generateFDNumber] and
    [generateRDNumber]: draw, build the candidate, query for it (outside any
    session), and go round again while it is taken. A run that needs more
    draws than the world lists never leaves the loop. *)
Fixpoint first_unique (candidate : Q -> string) (taken : string -> bool)
    (draws : list Q) : option string * list Q :=
  match draws with
  | [] => (None, [])
  | r :: rest =>
      if taken (candidate r) then first_unique candidate taken rest
      else (Some (candidate r), rest)
  end.

Definition generate_unique (candidate : Q -> string)
    (taken : Store -> string -> bool) : M World string :=
  fun w =>
    match first_unique candidate (taken (committed w)) (random w) with
    | (Some id, rest) => (set_random rest w, Returned id)
    | (None, rest) => (set_random rest w, Hangs)
    end.

(** ** [models/Transaction.js]: the hook and the methods *)
Module transactionSchema.

Import Transaction.

(** The candidate a draw gives on a date, and the query for it. *)
Definition candidate (date : Z) (r : Q) : string :=
  let dateStr :=
    pretty (Z.to_N (Date.getFullYear date))
    ++ padStart0 2 (Date.getMonth date + 1)
    ++ padStart0 2 (Date.getDate date) in
  "TXN" ++ dateStr ++ padStart0 6 (Qfloor (r * 1000000)).
Definition taken (store : Store) (id : string) : bool :=
  bool_decide (is_Some (transactions store !! id)).

Definition generateTransactionId : M World string :=
  let! date := gets clock in
  generate_unique (candidate date) taken.

Definition calculateTransactionFees (type : transactionType_enum) (amt : Q)
  : fees_t :=
  let transactionFee : Q :=
    match type with
    | transfer => if Qgtb amt 25000 then 5%Q else 0%Q
    | _ => 0%Q
    end in
  let gst := (transactionFee * (18 # 100))%Q in
  let totalFees := (transactionFee + gst)%Q in
  mkFees (Math_round (transactionFee * 100) / 100)
         (Math_round (gst * 100) / 100)
         (Math_round (totalFees * 100) / 100).

(** [transactionSchema.pre("save", ...)] *)
Definition pre_save : Method Transaction.t unit :=
  let! d := self in
  when (isNew d)
    ((let! x := get_this in
      when (bool_decide (transactionId x = ""))
        (let! id := in_world generateTransactionId in
         assign "transactionId" (set_transactionId id))) ;;
     (let! x := get_this in
      when (Qeq_bool (totalFees (fees x)) 0)
        (assign "fees"
           (set_fees (calculateTransactionFees (transactionType x) (amount x))))) ;;
     (let! x := get_this in
      let! store := gets (fun s => committed s.2) in
      match fromAccountId x, fromAccountNumber x with
      | Some id, None =>
          match accountSchema.findById store id with
          | Some a =>
              assign "fromAccountNumber"
                (set_fromAccountNumber (Some (Account.accountNumber a)))
          | None => ret tt
          end
      | _, _ => ret tt
      end) ;;
     (let! x := get_this in
      let! store := gets (fun s => committed s.2) in
      match toAccountId x, toAccountNumber x with
      | Some id, None =>
          match accountSchema.findById store id with
          | Some a =>
              assign "toAccountNumber"
                (set_toAccountNumber (Some (Account.accountNumber a)))
          | None => ret tt
          end
      | _, _ => ret tt
      end)).

(** The validators of the schema, path by path in the order of the schema:
    what each path that fails adds to the error. Mongoose validates every
    path of a new document and every loaded path of a stored one, whether
    modified or not. [transactionId] is required, and the constructor does
    not set it. (A [min] validator without a message of its own prints the
    value inside its message; that part is left out.) *)
Definition validate (x : Transaction.t) : list string :=
  (if bool_decide (transactionId x = "")
   then ["transactionId: Path `transactionId` is required."] else [])
  ++ (if Qltb (amount x) (1 # 100)
      then ["amount: Amount must be greater than 0"] else [])
  ++ (if bool_decide (description x = "")
      then ["description: Description is required"]
      else if (500 <? String.length (description x))%nat
      then ["description: Description cannot exceed 500 characters"] else [])
  ++ (if Qltb (transactionFee (fees x)) 0
      then ["fees.transactionFee: Path `fees.transactionFee` is less than minimum allowed value (0)."]
      else [])
  ++ (if Qltb (gst (fees x)) 0
      then ["fees.gst: Path `fees.gst` is less than minimum allowed value (0)."]
      else [])
  ++ (if Qltb (totalFees (fees x)) 0
      then ["fees.totalFees: Path `fees.totalFees` is less than minimum allowed value (0)."]
      else [])
  ++ (if (200 <? String.length (default "" (failureReason x)))%nat
      then ["failureReason: Failure reason cannot exceed 200 characters"]
      else []).

(** The write of a transaction document. *)
Definition put (x : Transaction.t) (store : Store) : Store :=
  mkStore (accounts store)
          (<[transactionId x := x]> (transactions store))
          (recurringDeposits store) (installments store)
          (fixedDeposits store).

(** [this.save()]: the validators, then the hook, then the write. Mongoose
    validates in a pre-save hook of its own, which runs before the hooks of
    the schema: a path that only [pre_save] fills is still missing when the
    document is validated. *)
Definition save : Method Transaction.t unit :=
  let! x := get_this in
  match validate x with
  | [] =>
      pre_save ;;
      persist put
  | errors => throw (validation_failed "Transaction" errors)
  end.

(** [this.save({ session })] *)
Definition save_in_session : Method Transaction.t unit :=
  bind_session ;; save.

Definition complete (fromBalance toBalance : option Q)
  : Method Transaction.t unit :=
  assign "status" (set_status completed) ;;
  (let! date := new_Date in
   assign "processedAt" (set_processedAt (Some date))) ;;
  (let! x := get_this in
   match fromBalance with
   | Some b =>
       assign "balances"
         (set_balances (mkBalances (Some b) (toAccountBalance (balances x))))
   | None => ret tt
   end) ;;
  (let! x := get_this in
   match toBalance with
   | Some b =>
       assign "balances"
         (set_balances (mkBalances (fromAccountBalance (balances x)) (Some b)))
   | None => ret tt
   end) ;;
  save.

Definition fail (reason : string) : Method Transaction.t unit :=
  assign "status" (set_status failed) ;;
  (let! date := new_Date in
   assign "processedAt" (set_processedAt (Some date))) ;;
  assign "failureReason" (set_failureReason (Some reason)) ;;
  save.

(** [reverse] returns the reversal record it has saved. *)
Definition reverse (reversalReason : string)
  : Method Transaction.t (Doc Transaction.t) :=
  let! x := get_this in
  match status x with
  | completed =>
      let! date := new_Date in
      let reversalTransaction :=
        new_doc
          (Transaction.new (toAccountId x) (fromAccountId x)
             (toAccountNumber x) (fromAccountNumber x) (amount x) reversal
             ("Reversal of transaction " ++ transactionId x ++ " - "
              ++ reversalReason)
             (Some (transactionId x)) completed (Some date))
          ["fromAccountId"; "toAccountId"; "fromAccountNumber";
           "toAccountNumber"; "amount"; "transactionType"; "description";
           "reference"; "status"; "processedAt"] in
      let! saved := in_world (call reversalTransaction save) in
      (* Mark original transaction as reversed *)
      assign "status" (set_status reversed) ;;
      assign "reversalTransactionId"
        (set_reversalTransactionId (Some (transactionId (this saved.1)))) ;;
      save ;;
      ret saved.1
  | _ => throw "Can only reverse completed transactions"
  end.

End transactionSchema.

(** ** [controllers/transactionController.js]: [transferMoney] *)
Module transactionController.

(** The request: [req.body], [req.user.userId] and what [validationResult]
    says about it. *)
Record transfer_request := mkRequest
  { validation_passed : bool;
    fromAccountNumber : string;
    toAccountNumber : string;
    amount : Q;
    description : option string;
    userId : string }.

Record transfer_data := mkData
  { data_transactionId : string;
    data_fromAccount : string;
    data_toAccount : string;
    data_amount : Q;
    data_timestamp : option Z;
    data_newBalance : Q }.

Record response := mkResponse
  { statusCode : Z;
    success : bool;
    message : string;
    data : option transfer_data }.

Definition reject (code : Z) (msg : string) : response :=
  mkResponse code false msg None.

(** The variables of the request that the inner [try] and its [catch]
    share. *)
Record locals := mkLocals
  { fromAccount : Doc Account.t;
    toAccount : Doc Account.t;
    transaction : Doc Transaction.t }.

Definition Block (R : Type) : Type := M (locals * World) R.

Definition on_fromAccount {R} (m : Method Account.t R) : Block R :=
  zoom (fun s => (fromAccount s.1, s.2))
       (fun t s => (mkLocals t.1 (toAccount s.1) (transaction s.1), t.2)) m.
Definition on_toAccount {R} (m : Method Account.t R) : Block R :=
  zoom (fun s => (toAccount s.1, s.2))
       (fun t s => (mkLocals (fromAccount s.1) t.1 (transaction s.1), t.2)) m.
Definition on_transaction {R} (m : Method Transaction.t R) : Block R :=
  zoom (fun s => (transaction s.1, s.2))
       (fun t s => (mkLocals (fromAccount s.1) (toAccount s.1) t.1, t.2)) m.
Definition with_world {R} (m : M World R) : Block R :=
  zoom snd (fun w s => (s.1, w)) m.
Definition with_locals {R} (l : locals) (m : Block R) : M World R :=
  fun w => let '((_, w'), r) := m (l, w) in (w', r).

(** The inner [try { ... } catch (transferError) { ... }]. *)
Definition transfer_block (req : transfer_request) : Block response :=
  try_catch
    ((* Debit from source account *)
     on_fromAccount (accountSchema.debit (amount req)) ;;
     (* Credit to destination account *)
     on_toAccount (accountSchema.credit (amount req)) ;;
     (* Mark transaction as completed *)
     (let! l := gets fst in
      on_transaction
        (transactionSchema.complete
           (Some (Account.balance (this (fromAccount l))))
           (Some (Account.balance (this (toAccount l)))))) ;;
     with_world commitTransaction ;;
     let! l := gets fst in
     ret (mkResponse 200 true "Transfer completed successfully"
            (Some (mkData (Transaction.transactionId (this (transaction l)))
                          (fromAccountNumber req) (toAccountNumber req)
                          (amount req)
                          (Transaction.processedAt (this (transaction l)))
                          (Account.balance (this (fromAccount l)))))))
    (fun transferError =>
       (* Mark transaction as failed *)
       on_transaction (transactionSchema.fail transferError) ;;
       with_world abortTransaction ;;
       ret (reject 400 transferError)).

Definition is_frozen (a : Account.t) : bool :=
  match Account.freezeReason a with
  | Account.none => false
  | _ => true
  end.

Definition transferMoney (req : transfer_request) : M World response :=
  try_catch
    (startTransaction ;;
     if negb (validation_passed req) then
       abortTransaction ;; ret (reject 400 "Validation failed")
     else if Qle_bool (amount req) 0 then
       abortTransaction ;;
       ret (reject 400 "Transfer amount must be greater than zero")
     else
       (* Find source account *)
       let! view := gets session_view in
       match accountSchema.findOne view (fromAccountNumber req) (userId req) with
       | None =>
           abortTransaction ;;
           ret (reject 404 "Source account not found or inactive")
       | Some source =>
           if is_frozen source then
             abortTransaction ;;
             ret (reject 400 "Source account is frozen. Please contact support.")
           else
             (* Find destination account *)
             let! store := gets committed in
             match accountSchema.findByAccountNumber store (toAccountNumber req) with
             | None =>
                 abortTransaction ;;
                 ret (reject 404 "Beneficiary account not found")
             | Some destination =>
                 if negb (Account.isActive destination) || is_frozen destination then
                   abortTransaction ;;
                   ret (reject 400 "Beneficiary account is inactive or frozen")
                 else if bool_decide (fromAccountNumber req = toAccountNumber req) then
                   abortTransaction ;;
                   ret (reject 400 "Cannot transfer to the same account")
                 else
                   (* Check transaction limits *)
                   let! checked :=
                     call (loaded_doc source true)
                          (accountSchema.canTransact (amount req)) in
                   if negb (accountSchema.allowed checked.2) then
                     abortTransaction ;;
                     ret (reject 400
                            (default "" (accountSchema.reason checked.2)))
                   else
                     (* Create transaction record *)
                     let pending_record :=
                       new_doc
                         (Transaction.new
                            (Some (Account.accountNumber source))
                            (Some (Account.accountNumber destination))
                            (Some (Account.accountNumber source))
                            (Some (Account.accountNumber destination))
                            (amount req) Transaction.transfer
                            (default "Money transfer" (description req))
                            None Transaction.pending None)
                         ["fromAccountId"; "toAccountId"; "fromAccountNumber";
                          "toAccountNumber"; "amount"; "transactionType";
                          "description"; "status"; "metadata"] in
                     let! saved :=
                       call pending_record transactionSchema.save_in_session in
                     with_locals
                       (mkLocals checked.1 (loaded_doc destination false) saved.1)
                       (transfer_block req)
             end
       end)
    (fun _ =>
       abortTransaction ;;
       ret (reject 500 "Transfer failed. Please try again.")).

(** *** [depositMoney] and [withdrawMoney] *)

(** The request of a deposit or a withdrawal: [req.body] without the deposit
    and withdrawal method, which only go to [metadata]. *)
Record cash_request := mkCashRequest
  { cash_validation_passed : bool;
    cash_accountNumber : string;
    cash_amount : Q;
    cash_description : option string;
    cash_userId : string }.

Record cash_data := mkCashData
  { cash_transactionId : string;
    cash_account : string;
    cash_data_amount : Q;
    cash_data_description : string;
    cash_timestamp : option Z;
    cash_newBalance : Q }.

Record cash_response := mkCashResponse
  { cash_statusCode : Z;
    cash_success : bool;
    cash_message : string;
    cash_data_of : option cash_data }.

Definition refuse (code : Z) (msg : string) : cash_response :=
  mkCashResponse code false msg None.

Definition depositMoney (req : cash_request) : M World cash_response :=
  let description := default "Cash deposit" (cash_description req) in
  try_catch
    (startTransaction ;;
     if negb (cash_validation_passed req) then
       abortTransaction ;; ret (refuse 400 "Validation failed")
     else if Qle_bool (cash_amount req) 0 then
       abortTransaction ;;
       ret (refuse 400 "Deposit amount must be greater than zero")
     else
       (* Find account *)
       let! view := gets session_view in
       match accountSchema.findOne view (cash_accountNumber req)
               (cash_userId req) with
       | None =>
           abortTransaction ;; ret (refuse 404 "Account not found or inactive")
       | Some found =>
           if is_frozen found then
             abortTransaction ;;
             ret (refuse 400 "Account is frozen. Please contact support.")
           else
             (* Create transaction record *)
             let pending_record :=
               new_doc
                 (Transaction.new None (Some (Account.accountNumber found))
                    None (Some (Account.accountNumber found))
                    (cash_amount req) Transaction.deposit description None
                    Transaction.pending None)
                 ["toAccountId"; "toAccountNumber"; "amount";
                  "transactionType"; "description"; "status"; "metadata"] in
             let! saved :=
               call pending_record transactionSchema.save_in_session in
             (* Credit account *)
             let! credited :=
               call (loaded_doc found true)
                    (accountSchema.credit (cash_amount req)) in
             let account := credited.1 in
             (* Mark transaction as completed *)
             let! completed :=
               call saved.1
                    (transactionSchema.complete None
                       (Some (Account.balance (this account)))) in
             let transaction := completed.1 in
             commitTransaction ;;
             ret (mkCashResponse 200 true "Deposit completed successfully"
                    (Some (mkCashData
                             (Transaction.transactionId (this transaction))
                             (cash_accountNumber req) (cash_amount req)
                             description
                             (Transaction.processedAt (this transaction))
                             (Account.balance (this account)))))
       end)
    (fun _ =>
       abortTransaction ;; ret (refuse 500 "Deposit failed. Please try again.")).

(** The variables that the inner [try] of a withdrawal and its [catch]
    share. *)
Record withdrawal := mkWithdrawal
  { account : Doc Account.t;
    record : Doc Transaction.t }.




End transactionController.

(** ** [models/RDInstallment.js]: saving an installment *)
Module rdInstallmentSchema.

Import RDInstallment.

(** [rdInstallmentSchema.pre("save", ...)] *)
Definition pre_save : Method RDInstallment.t unit :=
  let! d := self in
  when (isModified "amount" d || isModified "penaltyAmount" d || isNew d)
    (let! i := get_this in
     assign "totalAmount" (set_totalAmount (amount i + penaltyAmount i))).

Definition validate (i : RDInstallment.t) : option string :=
  if (installmentNumber i <? 1)%Z then
    Some "installmentNumber: Installment number must be at least 1"
  else if Qltb (amount i) (1 # 100) then
    Some "amount: Amount must be greater than 0"
  else if Qltb (penaltyAmount i) 0 then
    Some "penaltyAmount: Penalty amount cannot be negative"
  else if Qltb (totalAmount i) (1 # 100) then
    Some "totalAmount: Total amount must be greater than 0"
  else None.

(** The write of an installment document. *)
Definition put (i : RDInstallment.t) (store : Store) : Store :=
  mkStore (accounts store) (transactions store) (recurringDeposits store)
          (<[(rdId i, installmentNumber i) := i]> (installments store))
          (fixedDeposits store).

(** [installment.save()] of a new document: the validators, then the hook,
    then the write. The collection has a unique index on
    [(rdId, installmentNumber)]. *)
Definition save : Method RDInstallment.t unit :=
  let! i := get_this in
  match validate i with
  | Some message => throw ("RDInstallment validation failed: " ++ message)
  | None =>
      pre_save ;;
      let! i := get_this in
      let! store := gets (fun s => committed s.2) in
      if bool_decide (is_Some (installments store !! (rdId i, installmentNumber i)))
      then throw "E11000 duplicate key error"
      else
        persist put
  end.

(** [Model.insertMany(docs)] on the collection: every document is validated
    first; the documents are then written in order by one call to storage,
    which stops at the first key that the unique index holds already and
    keeps what it wrote before it. The [save] hook does not run. *)
Fixpoint insert_in_order (docs : list RDInstallment.t) (store : Store)
  : Store * option string :=
  match docs with
  | [] => (store, None)
  | i :: rest =>
      if bool_decide (is_Some (installments store !! (rdId i, installmentNumber i)))
      then (store, Some "E11000 duplicate key error")
      else insert_in_order rest (put i store)
  end.

Definition insertMany (docs : list RDInstallment.t)
  : M World (list RDInstallment.t) :=
  match omap validate docs with
  | message :: _ => throw ("RDInstallment validation failed: " ++ message)
  | [] =>
      fun w =>
        let w' := set_faults (tail (faults w)) w in
        match faults w with
        | true :: _ => (w', Thrown "storage write failed")
        | _ =>
            let r := insert_in_order docs (committed w') in
            (set_committed r.1 w',
             match r.2 with
             | Some e => Thrown e
             | None => Returned docs
             end)
        end
  end.

(** The loop of [createSchedule]: [n] installments from number [i] on, the
    first of them due on [currentDate]. *)
Fixpoint schedule (id : string) (monthlyAmount : Q) (currentDate : Z) (i : Z)
    (n : nat) {struct n} : list RDInstallment.t :=
  match n with
  | O => []
  | S n' =>
      mk id i monthlyAmount 0 monthlyAmount currentDate None pending None
      :: schedule id monthlyAmount (Date.addMonths currentDate 1) (i + 1) n'
  end.

(** [RDInstallment.createSchedule(rdId, monthlyAmount, startDate, tenure)] *)
Definition createSchedule (id : string) (monthlyAmount : Q) (startDate : Z)
    (tenure : Z) : M World (list RDInstallment.t) :=
  insertMany (schedule id monthlyAmount startDate 1 (Z.to_nat tenure)).

End rdInstallmentSchema.

(** ** [models/RecurringDeposit.js]: the methods *)
Module recurringDepositSchema.

Import RecurringDeposit.

(** The [isOverdue] virtual reads the clock. *)
Definition isOverdue : Method RecurringDeposit.t bool :=
  let! r := get_this in
  let! date := new_Date in
  ret (match status r with
       | active => (nextDueDate r <? date)%Z
       | _ => false
       end).


(** The write of a deposit document. *)
Definition put (r : RecurringDeposit.t) (store : Store) : Store :=
  mkStore (accounts store) (transactions store)
          (<[rdNumber r := r]> (recurringDeposits store))
          (installments store) (fixedDeposits store).

(** [this.save()] of a stored deposit: the loaded paths are taken to pass
    their validators, none of the paths the methods below write carries one,
    and the hook only acts on a new document. *)
Definition save : Method RecurringDeposit.t unit := persist put.

Record maturity_result := mkMaturityResult
  { m_success : bool;
    m_maturityAmount : Q;
    m_totalInterestEarned : Q;
    m_transactionId : string }.

Definition processMaturity : Method RecurringDeposit.t maturity_result :=
  let! r := get_this in
  if (installmentsPaid r <? tenure r)%Z then
    throw "RD has not completed all installments"
  else
    let! store := gets (fun s => committed s.2) in
    match accountSchema.findById store (fromAccountId r) with
    | None => throw "Source account not found"
    | Some account =>
        let fromAccount := loaded_doc account false in
        (* Calculate actual maturity amount *)
        let actualMaturityAmount := (maturityAmount r - penaltyAmount r)%Q in
        let totalInterestEarned := (actualMaturityAmount - totalDeposited r)%Q in
        (* Create transaction to credit maturity amount *)
        let! date := new_Date in
        let! transaction :=
          in_world
            (call (new_doc
                     (Transaction.new None (Some (fromAccountId r)) None
                        (Some (Account.accountNumber account))
                        actualMaturityAmount Transaction.rd_maturity
                        ("Maturity of " ++ formattedRdNumber r)
                        (Some (rdNumber r)) Transaction.completed (Some date))
                     ["toAccountId"; "toAccountNumber"; "amount";
                      "transactionType"; "description"; "reference"; "status";
                      "processedAt"])
                  transactionSchema.save) in
        (* Credit account *)
        in_world (call fromAccount (accountSchema.credit actualMaturityAmount)) ;;
        (* Update RD status *)
        assign "status" (set_status matured) ;;
        (let! date := new_Date in
         assign "maturityDetails"
           (set_maturityDetails
              (Some (mkMaturityDetails date (fromAccountId r)
                       (Transaction.transactionId (this transaction.1))
                       totalInterestEarned)))) ;;
        save ;;
        ret (mkMaturityResult true actualMaturityAmount totalInterestEarned
               (Transaction.transactionId (this transaction.1)))
    end.

Record installment_result := mkInstallmentResult
  { i_success : bool;
    i_installmentNumber : Z;
    i_amountPaid : Q;
    i_penaltyAmount : Q;
    i_transactionId : string;
    i_nextDueDate : Z }.

(** The whole days between the due date and the payment date. *)
Definition overdueDays (paymentDate dueDate : Z) : Z :=
  ((paymentDate - dueDate) / Date.msPerDay)%Z.

(** [processInstallment(paymentDate = new Date())]; the note on the penalty
    that the description of the transaction carries is left out. *)
Definition processInstallment (paymentDate_arg : option Z)
  : Method RecurringDeposit.t installment_result :=
  let! date := new_Date in
  let paymentDate := default date paymentDate_arg in
  let! r := get_this in
  match status r with
  | active =>
      (* Check if account has sufficient balance *)
      let! store := gets (fun s => committed s.2) in
      match accountSchema.findById store (fromAccountId r) with
      | None => throw "Source account not found"
      | Some account =>
          let fromAccount := loaded_doc account false in
          (* Calculate penalty if overdue *)
          let! overdue := isOverdue in
          let penalty : Q :=
            if overdue then
              Math_min (inject_Z (overdueDays paymentDate (nextDueDate r)) * 10)
                       (monthlyAmount r * (1 # 10))
            else 0%Q in
          let totalAmount : Q :=
            if overdue then (monthlyAmount r + penalty)%Q else monthlyAmount r in
          (* Check if account can handle the debit *)
          let! checked :=
            in_world (call fromAccount (accountSchema.canTransact totalAmount)) in
          if negb (accountSchema.allowed checked.2) then
            (* Record auto-debit failure *)
            let why := accountSchema.reason checked.2 in
            assign "autoDebit.failureCount"
              (set_failureCount (failureCount (autoDebit r) + 1)) ;;
            assign "autoDebit.lastFailureDate"
              (set_lastFailureDate (Some paymentDate)) ;;
            assign "autoDebit.lastFailureReason" (set_lastFailureReason why) ;;
            save ;;
            throw ("Payment failed: " ++ default "" why)
          else
            (* Debit the account *)
            in_world (call checked.1 (accountSchema.debit totalAmount)) ;;
            (* Create transaction *)
            let! transaction :=
              in_world
                (call (new_doc
                         (Transaction.new (Some (fromAccountId r)) None
                            (Some (Account.accountNumber account)) None
                            totalAmount Transaction.rd_deposit
                            ("RD Installment payment for " ++ formattedRdNumber r)
                            (Some (rdNumber r)) Transaction.completed
                            (Some paymentDate))
                         ["fromAccountId"; "fromAccountNumber"; "amount";
                          "transactionType"; "description"; "reference";
                          "status"; "processedAt"])
                      transactionSchema.save) in
            (* Create installment record *)
            let! installment :=
              in_world
                (call (new_doc
                         (RDInstallment.mk (rdNumber r) (installmentsPaid r + 1)
                            (monthlyAmount r) penalty totalAmount (nextDueDate r)
                            (Some paymentDate) RDInstallment.paid
                            (Some (Transaction.transactionId (this transaction.1))))
                         ["rdId"; "installmentNumber"; "amount"; "penaltyAmount";
                          "totalAmount"; "dueDate"; "paidDate"; "status";
                          "transactionId"])
                      rdInstallmentSchema.save) in
            (* Update RD record *)
            assign "totalDeposited"
              (set_totalDeposited (totalDeposited r + monthlyAmount r)) ;;
            assign "installmentsPaid" (set_installmentsPaid (installmentsPaid r + 1)) ;;
            assign "penaltyAmount" (set_penaltyAmount (penaltyAmount r + penalty)) ;;
            (* Reset failure count on successful payment *)
            assign "autoDebit.failureCount" (set_failureCount 0) ;;
            (* Calculate next due date *)
            assign "nextDueDate" (set_nextDueDate (Date.addMonths (nextDueDate r) 1)) ;;
            (* Check if RD is completed *)
            (let! r := get_this in
             if (tenure r <=? installmentsPaid r)%Z then
               processMaturity ;; ret tt
             else save) ;;
            let! r := get_this in
            ret (mkInstallmentResult true
                   (RDInstallment.installmentNumber (this installment.1))
                   totalAmount penalty
                   (Transaction.transactionId (this transaction.1))
                   (nextDueDate r))
      end
  | _ => throw "RD is not active"
  end.

Record closure_result := mkClosureResult
  { c_success : bool;
    c_netAmount : Q;
    c_penaltyAmount : Q;
    c_transactionId : string }.

(** [closePremature(reason = "Customer request")] *)
Definition closePremature (reason_arg : option string)
  : Method RecurringDeposit.t closure_result :=
  let reason := default "Customer request" reason_arg in
  let! r := get_this in
  match status r with
  | active =>
      (* Calculate premature closure amount (only principal + penalty) *)
      let penaltyPercentage : Q := 1%Q in
      let penalty :=
        Math_round (totalDeposited r * penaltyPercentage / 100)%Q in
      let net := (totalDeposited r - penalty)%Q in
      let! store := gets (fun s => committed s.2) in
      match accountSchema.findById store (fromAccountId r) with
      | None => throw "Source account not found"
      | Some account =>
          let fromAccount := loaded_doc account false in
          (* Create transaction to credit the net amount *)
          let! date := new_Date in
          let! transaction :=
            in_world
              (call (new_doc
                       (Transaction.new None (Some (fromAccountId r)) None
                          (Some (Account.accountNumber account)) net
                          Transaction.rd_maturity
                          ("Premature closure of " ++ formattedRdNumber r)
                          (Some (rdNumber r)) Transaction.completed (Some date))
                       ["toAccountId"; "toAccountNumber"; "amount";
                        "transactionType"; "description"; "reference"; "status";
                        "processedAt"])
                    transactionSchema.save) in
          (* Credit account *)
          in_world (call fromAccount (accountSchema.credit net)) ;;
          (* Update RD status *)
          assign "status" (set_status closed) ;;
          (let! date := new_Date in
           assign "closureDetails"
             (set_closureDetails
                (Some (mkClosureDetails date reason penalty net)))) ;;
          save ;;
          ret (mkClosureResult true net penalty
                 (Transaction.transactionId (this transaction.1)))
      end
  | _ => throw "RD is not active"
  end.

(** The candidate a draw gives in a year, and the query for it. *)
Definition candidate (date : Z) (r : Q) : string :=
  pretty (Z.to_N (Date.getFullYear date)) ++ padStart0 6 (Qfloor (r * 1000000)).
Definition taken (store : Store) (id : string) : bool :=
  bool_decide (is_Some (recurringDeposits store !! id)).






End recurringDepositSchema.

(** ** [models/FixedDeposit.js]: what creation computes *)
Module fixedDepositSchema.

Import FixedDeposit.

Definition calculateMaturityAmount (principal rate : Q) (tenure : Z)
    (payoutMode : interestPayoutMode_enum) : Q :=
  let monthlyRate := (rate / (12 * 100))%Q in
  match payoutMode with
  | cumulative =>
      (* Compound interest monthly *)
      Math_round (principal * Math_pow (1 + monthlyRate) tenure)
  | _ =>
      (* Simple interest (principal remains same) *)
      principal
  end.

Definition candidate (date : Z) (r : Q) : string :=
  pretty (Z.to_N (Date.getFullYear date)) ++ padStart0 6 (Qfloor (r * 1000000)).
Definition taken (store : Store) (id : string) : bool :=
  bool_decide (is_Some (fixedDeposits store !! id)).

Definition generateFDNumber : M World string :=
  let! date := gets clock in
  generate_unique (candidate date) taken.

(** [!this.maturityAmount] *)
Definition falsy (v : option Q) : bool :=
  match v with
  | None => true
  | Some q => Qeq_bool q 0
  end.

(** [fixedDepositSchema.pre("save", ...)] *)
Definition pre_save : Method FixedDeposit.t unit :=
  let! d := self in
  when (isNew d)
    ((let! f := get_this in
      when (bool_decide (fdNumber f = ""))
        (let! id := in_world generateFDNumber in
         assign "fdNumber" (set_fdNumber id))) ;;
     (let! f := get_this in
      when (bool_decide (maturityDate f = None))
        (assign "maturityDate"
           (set_maturityDate (Some (Date.addMonths (startDate f) (tenure f)))))) ;;
     (let! d := self in
      let f := this d in
      when (falsy (maturityAmount f) || isModified "principalAmount" d
            || isModified "interestRate" d || isModified "tenure" d)
        (assign "maturityAmount"
           (set_maturityAmount
              (Some (calculateMaturityAmount (principalAmount f)
                       (interestRate f) (tenure f) (interestPayoutMode f))))))).

(** [new FixedDeposit({ userId, fromAccountId, principalAmount,
    interestRate, tenure, interestPayoutMode, payoutAccountId, nominee })],
    as the controller that creates deposits builds it. *)
Definition new (user account : string) (principal rate : Q) (months : Z)
    (mode : interestPayoutMode_enum) (payout : option string) (today : Z)
  : Doc FixedDeposit.t :=
  new_doc
    (FixedDeposit.mk "" user account principal rate months None today None
       active mode payout 0 None)
    ["userId"; "fromAccountId"; "principalAmount"; "interestRate"; "tenure";
     "interestPayoutMode"; "payoutAccountId"; "nominee"].

(** The write of a deposit document. *)
Definition put (f : FixedDeposit.t) (store : Store) : Store :=
  mkStore (accounts store) (transactions store) (recurringDeposits store)
          (installments store) (<[fdNumber f := f]> (fixedDeposits store)).

(** The validators of the schema, path by path in the order of the schema;
    [nominee_errors] is what the validators of the nominee paths add for the
    nominee of the document. [fdNumber], [maturityAmount] and [maturityDate]
    are required. *)
Definition validate (nominee_errors : list string) (f : FixedDeposit.t)
  : list string :=
  (if bool_decide (fdNumber f = "")
   then ["fdNumber: Path `fdNumber` is required."] else [])
  ++ (if Qltb (principalAmount f) 1000
      then ["principalAmount: Minimum FD amount is ₹1,000"]
      else if Qgtb (principalAmount f) 10000000
      then ["principalAmount: Maximum FD amount is ₹1,00,00,000"] else [])
  ++ (if Qltb (interestRate f) 1
      then ["interestRate: Interest rate must be at least 1%"]
      else if Qgtb (interestRate f) 15
      then ["interestRate: Interest rate cannot exceed 15%"] else [])
  ++ (if (tenure f <? 6)%Z then ["tenure: Minimum tenure is 6 months"]
      else if (120 <? tenure f)%Z
      then ["tenure: Maximum tenure is 120 months (10 years)"] else [])
  ++ (if bool_decide (maturityAmount f = None)
      then ["maturityAmount: Path `maturityAmount` is required."] else [])
  ++ (if bool_decide (maturityDate f = None)
      then ["maturityDate: Path `maturityDate` is required."] else [])
  ++ nominee_errors.

(** [this.save()]: the validators, then the hook, then the write. *)
Definition save (nominee_errors : list string) : Method FixedDeposit.t unit :=
  let! f := get_this in
  match validate nominee_errors f with
  | [] =>
      pre_save ;;
      persist put
  | errors => throw (validation_failed "FixedDeposit" errors)
  end.

(** [fixedDeposit.save({ session })] *)
Definition save_in_session (nominee_errors : list string)
  : Method FixedDeposit.t unit :=
  bind_session ;; save nominee_errors.

(** What [processInterestPayout] returns. The nominee of a stored deposit
    is taken to pass its validators. *)
Record payout_result := mkPayoutResult
  { p_success : bool;
    p_interestAmount : option Q;
    p_transactionId : option string;
    p_message : option string }.

(** [1000 * 60 * 60 * 24 * 30.44], the average month in milliseconds. *)
Definition msPerAverageMonth : Z := 2630016000.

Definition processInterestPayout : Method FixedDeposit.t payout_result :=
  let! f := get_this in
  match interestPayoutMode f, payoutAccountId f with
  | cumulative, _ | _, None =>
      throw "Interest payout not applicable for this FD"
  | mode, Some payoutId =>
      let! now := new_Date in
      let lastPayoutDate := default (startDate f) (lastInterestPayoutDate f) in
      let payoutPeriod : option Z :=
        match mode with
        | monthly => Some 1%Z
        | quarterly => Some 3%Z
        | half_yearly => Some 6%Z
        | yearly => Some 12%Z
        | cumulative => None
        end in
      match payoutPeriod with
      | None => throw "Invalid interest payout mode"
      | Some payoutPeriod =>
          let monthsSinceLastPayout :=
            ((now - lastPayoutDate) / msPerAverageMonth)%Z in
          if (payoutPeriod <=? monthsSinceLastPayout)%Z then
            let interestAmount :=
              (principalAmount f * interestRate f * inject_Z payoutPeriod
               / (12 * 100))%Q in
            (* Credit interest to payout account *)
            let! store := gets (fun s => committed s.2) in
            match accountSchema.findById store payoutId with
            | None => throw "Payout account not found"
            | Some account =>
                let payoutAccount := loaded_doc account false in
                (* Create transaction *)
                let! date := new_Date in
                let! transaction :=
                  in_world
                    (call (new_doc
                             (Transaction.new None (Some payoutId) None
                                (Some (Account.accountNumber account))
                                interestAmount Transaction.interest_credit
                                ("FD Interest payout for " ++ formattedFdNumber f)
                                (Some (fdNumber f)) Transaction.completed
                                (Some date))
                             ["toAccountId"; "toAccountNumber"; "amount";
                              "transactionType"; "description"; "reference";
                              "status"; "processedAt"])
                          transactionSchema.save) in
                (* Credit account *)
                in_world (call payoutAccount (accountSchema.credit interestAmount)) ;;
                (* Update FD record *)
                assign "totalInterestPaid"
                  (set_totalInterestPaid (totalInterestPaid f + interestAmount)) ;;
                assign "lastInterestPayoutDate"
                  (set_lastInterestPayoutDate (Some now)) ;;
                save [] ;;
                ret (mkPayoutResult true (Some interestAmount)
                       (Some (Transaction.transactionId (this transaction.1)))
                       None)
            end
          else
            ret (mkPayoutResult false None None
                   (Some "Interest payout not due yet"))
      end
  end.

End fixedDepositSchema.

(** ** The contracts in the words of the specification *)
Module Spec.

Import Account.

(** The calendar day and the calendar month an instant falls in, counted
    from the epoch and from year 0. *)
Definition calendar_day (t : Z) : Z := (t / Date.msPerDay)%Z.
Definition calendar_month (t : Z) : Z :=
  (12 * Date.getFullYear t + Date.getMonth t)%Z.

(** The daily counter is reset when the current calendar day is later than
    the day of the stored reset, the monthly counter likewise on a month
    rollover; the reset stamps are moved to the present. *)
Definition reset_windows (now : Z) (a : Account.t) : Account.t :=
  let a :=
    if (calendar_day (lastTransactionReset a) <? calendar_day now)%Z
    then set_lastTransactionReset now (set_todayTransactionAmount 0 a)
    else a in
  if (calendar_month (lastMonthlyReset a) <? calendar_month now)%Z
  then set_lastMonthlyReset now (set_monthTransactionAmount 0 a)
  else a.

(** The floor of the balance: the minimum balance of a savings account, the
    overdraft limit below zero of a current account. *)
Definition balance_floor (a : Account.t) : Q :=
  match accountType a with
  | savings => minimumBalance a
  | current => (- overdraftLimit a)%Q
  end.

Definition floor_reason (a : Account.t) : string :=
  match accountType a with
  | savings => "Insufficient balance. Minimum balance requirement not met"
  | current => "Overdraft limit exceeded"
  end.

(** The three checks in their order; the first one violated gives the
    reason. *)
Definition first_violation (amount : Q) (a : Account.t) : option string :=
  if negb (Qle_bool (todayTransactionAmount a + amount) (dailyTransactionLimit a))
  then Some "Daily transaction limit exceeded"
  else if negb (Qle_bool (monthTransactionAmount a + amount)
                         (monthlyTransactionLimit a))
  then Some "Monthly transaction limit exceeded"
  else if negb (Qle_bool (balance_floor a) (balance a - amount))
  then Some (floor_reason a)
  else None.

Definition canTransact (now : Z) (amount : Q) (a : Account.t)
  : Account.t * accountSchema.canTransact_result :=
  let a := reset_windows now a in
  (a, match first_violation amount a with
      | Some why => accountSchema.mkCanTransact false (Some why)
      | None => accountSchema.mkCanTransact true None
      end).

(** The balance invariant of an account. *)
Definition floor_respected (a : Account.t) : Prop :=
  (balance_floor a <= balance a)%Q.

End Spec.

(** ** [canTransact] on the numbers of the code

    A JavaScript [Number] is an IEEE 754 binary64 value, and [new Date(year,
    month, day)] and the calendar getters work in the time zone of the
    process. Here is [canTransact] with both: the numeric paths are [float],
    the sums and the difference it compares are rounded, and [zone] is the
    offset of local time from UTC in milliseconds. *)
Module Binary64.

Record account := mkAccount
  { accountType : Account.accountType_enum;
    balance : float;
    minimumBalance : float;
    overdraftLimit : float;
    dailyTransactionLimit : float;
    monthlyTransactionLimit : float;
    todayTransactionAmount : float;
    monthTransactionAmount : float;
    lastTransactionReset : Z;
    lastMonthlyReset : Z }.

Definition set_todayTransactionAmount (v : float) (a : account) : account :=
  mkAccount (accountType a) (balance a) (minimumBalance a) (overdraftLimit a)
    (dailyTransactionLimit a) (monthlyTransactionLimit a) v
    (monthTransactionAmount a) (lastTransactionReset a) (lastMonthlyReset a).
Definition set_monthTransactionAmount (v : float) (a : account) : account :=
  mkAccount (accountType a) (balance a) (minimumBalance a) (overdraftLimit a)
    (dailyTransactionLimit a) (monthlyTransactionLimit a)
    (todayTransactionAmount a) v (lastTransactionReset a) (lastMonthlyReset a).
Definition set_lastTransactionReset (v : Z) (a : account) : account :=
  mkAccount (accountType a) (balance a) (minimumBalance a) (overdraftLimit a)
    (dailyTransactionLimit a) (monthlyTransactionLimit a)
    (todayTransactionAmount a) (monthTransactionAmount a) v
    (lastMonthlyReset a).
Definition set_lastMonthlyReset (v : Z) (a : account) : account :=
  mkAccount (accountType a) (balance a) (minimumBalance a) (overdraftLimit a)
    (dailyTransactionLimit a) (monthlyTransactionLimit a)
    (todayTransactionAmount a) (monthTransactionAmount a)
    (lastTransactionReset a) v.

(** [x > y] and [x < y] on numbers. *)
Definition gt (x y : float) : bool := PrimFloat.ltb y x.
Definition lt (x y : float) : bool := PrimFloat.ltb x y.

(** [new Date(year, month, day)] in local time. *)
Definition make (zone y m d : Z) : Z := (Date.make y m d - zone)%Z.

Definition canTransact (zone now : Z) (amount : float) (a : account)
  : account * accountSchema.canTransact_result :=
  let local := (now + zone)%Z in
  let today :=
    make zone (Date.getFullYear local) (Date.getMonth local)
      (Date.getDate local) in
  let thisMonth := make zone (Date.getFullYear local) (Date.getMonth local) 1 in
  (* Reset daily limit if it's a new day *)
  let a :=
    if (lastTransactionReset a <? today)%Z
    then set_lastTransactionReset now (set_todayTransactionAmount 0%float a)
    else a in
  (* Reset monthly limit if it's a new month *)
  let a :=
    if (lastMonthlyReset a <? thisMonth)%Z
    then set_lastMonthlyReset now (set_monthTransactionAmount 0%float a)
    else a in
  (a,
   if gt (PrimFloat.add (todayTransactionAmount a) amount)
        (dailyTransactionLimit a) then
     accountSchema.mkCanTransact false (Some "Daily transaction limit exceeded")
   else if gt (PrimFloat.add (monthTransactionAmount a) amount)
             (monthlyTransactionLimit a) then
     accountSchema.mkCanTransact false
       (Some "Monthly transaction limit exceeded")
   else
     match accountType a with
     | Account.savings =>
         if lt (PrimFloat.sub (balance a) amount) (minimumBalance a) then
           accountSchema.mkCanTransact false
             (Some "Insufficient balance. Minimum balance requirement not met")
         else accountSchema.mkCanTransact true None
     | Account.current =>
         if lt (PrimFloat.sub (balance a) amount)
               (PrimFloat.opp (overdraftLimit a)) then
           accountSchema.mkCanTransact false (Some "Overdraft limit exceeded")
         else accountSchema.mkCanTransact true None
     end).

End Binary64.

(** ** Calendar arithmetic used in the proofs *)
Module Calendar.

Local Open Scope Z_scope.

(** The month a day falls in, counted from March of year 0, and the first
    day of such a month. *)
Definition month_of_day (z : Z) : Z :=
  let z := z + 719468 in
  let era := z / 146097 in
  let doe := z - era * 146097 in
  let yoe := (doe - doe / 1460 + doe / 36524 - doe / 146096) / 365 in
  let doy := doe - (365 * yoe + yoe / 4 - yoe / 100) in
  12 * (yoe + era * 400) + (5 * doy + 2) / 153.

Definition first_day_of_month (k : Z) : Z :=
  let y := k / 12 in
  let era := y / 400 in
  let yoe := y - era * 400 in
  era * 146097 + yoe * 365 + yoe / 4 - yoe / 100
  + (153 * (k mod 12) + 2) / 5 - 719468.

End Calendar.

(** ** What the methods leave behind, written out for the proofs *)
Module Run.

Import Account.

(** The paths [canTransact] assigns, latest first. *)
Definition reset_paths (now : Z) (a : Account.t) : list string :=
  (if (Spec.calendar_month (lastMonthlyReset a) <? Spec.calendar_month now)%Z
   then ["lastMonthlyReset"; "monthTransactionAmount"] else [])
  ++ (if (Spec.calendar_day (lastTransactionReset a) <? Spec.calendar_day now)%Z
      then ["lastTransactionReset"; "todayTransactionAmount"] else []).

(** The receiver after [canTransact]. *)
Definition checked (now : Z) (d : Doc Account.t) : Doc Account.t :=
  mkDoc (Spec.reset_windows now (this d)) (session d) (isNew d)
        (reset_paths now (this d) ++ modifiedPaths d).

(** The storage layer refuses the coming write. *)
Definition refused (w : World) : bool :=
  match faults w with
  | true :: _ => true
  | _ => false
  end.
(** The world once the storage layer has answered a write. *)
Definition answered (w : World) : World := set_faults (tail (faults w)) w.
(** The world after a write that went through. *)
Definition stored (in_session : bool) (f : Store -> Store) (w : World) : World :=
  if in_session
  then set_uncommitted (f (uncommitted (answered w))) (answered w)
  else set_committed (f (committed (answered w))) (answered w).
(** The document after a [save()] that went through. *)
Definition saved {A} (d : Doc A) : Doc A := mkDoc (this d) (session d) false [].

Definition write {A} (f : A -> Store -> Store) (d : Doc A) (w : World)
  : (Doc A * World) * outcome unit :=
  if refused w then ((d, answered w), Thrown "storage write failed")
  else ((saved d, stored (session d) (f (this d)) w), Returned tt).

Definition save_account (d : Doc Account.t) (w : World)
  : (Doc Account.t * World) * outcome unit :=
  match accountSchema.validate_balance (this d) with
  | Some message =>
      ((d, w), Thrown ("Account validation failed: balance: " ++ message))
  | None => write accountSchema.put d w
  end.

(** The account a credit and a debit write. *)
Definition credited (amount : Q) (a : Account.t) : Account.t :=
  set_balance (balance a + amount) a.
Definition debited (now : Z) (amount : Q) (a : Account.t) : Account.t :=
  let a := set_balance (balance (Spec.reset_windows now a) - amount)
             (Spec.reset_windows now a) in
  let a := set_todayTransactionAmount (todayTransactionAmount a + amount) a in
  set_monthTransactionAmount (monthTransactionAmount a + amount) a.

Definition credit (amount : Q) (d : Doc Account.t) (w : World)
  : (Doc Account.t * World) * outcome accountSchema.movement_result :=
  if Qle_bool amount 0 then ((d, w), Thrown "Credit amount must be positive")
  else
    let d1 := mkDoc (credited amount (this d)) (session d) (isNew d)
                    ("balance" :: modifiedPaths d) in
    match accountSchema.validate_balance (this d1) with
    | Some message =>
        ((d1, w), Thrown ("Account validation failed: balance: " ++ message))
    | None =>
        if refused w then ((d1, answered w), Thrown "storage write failed")
        else ((saved d1, stored (session d) (accountSchema.put (this d1)) w),
              Returned (accountSchema.mkMovement true (balance (this d1))))
    end.

Definition debit (amount : Q) (d : Doc Account.t) (w : World)
  : (Doc Account.t * World) * outcome accountSchema.movement_result :=
  if Qle_bool amount 0 then ((d, w), Thrown "Debit amount must be positive")
  else
    match Spec.first_violation amount (Spec.reset_windows (clock w) (this d)) with
    | Some why => ((checked (clock w) d, w), Thrown why)
    | None =>
        let d1 := mkDoc (debited (clock w) amount (this d)) (session d) (isNew d)
                        ("monthTransactionAmount" :: "todayTransactionAmount"
                         :: "balance"
                         :: reset_paths (clock w) (this d) ++ modifiedPaths d) in
        match accountSchema.validate_balance (this d1) with
        | Some message =>
            ((d1, w), Thrown ("Account validation failed: balance: " ++ message))
        | None =>
            if refused w then ((d1, answered w), Thrown "storage write failed")
            else ((saved d1, stored (session d) (accountSchema.put (this d1)) w),
                  Returned (accountSchema.mkMovement true (balance (this d1))))
        end
    end.

(** The record [complete] leaves, and the paths it assigns. *)
Definition completed (now : Z) (fromBalance toBalance : option Q)
    (x : Transaction.t) : Transaction.t :=
  let x := Transaction.set_processedAt (Some now)
             (Transaction.set_status Transaction.completed x) in
  let x :=
    match fromBalance with
    | Some b =>
        Transaction.set_balances
          (Transaction.mkBalances (Some b)
             (Transaction.toAccountBalance (Transaction.balances x))) x
    | None => x
    end in
  match toBalance with
  | Some b =>
      Transaction.set_balances
        (Transaction.mkBalances
           (Transaction.fromAccountBalance (Transaction.balances x)) (Some b)) x
  | None => x
  end.
Definition completed_paths (fromBalance toBalance : option Q) : list string :=
  match toBalance with Some _ => ["balances"] | None => [] end
  ++ match fromBalance with Some _ => ["balances"] | None => [] end
  ++ ["processedAt"; "status"].

(** Recurring deposits: the penalty and the total of an installment paid at
    [paymentDate] when the clock reads [now]. *)
Definition overdue (now : Z) (r : RecurringDeposit.t) : bool :=
  match RecurringDeposit.status r with
  | RecurringDeposit.active => (RecurringDeposit.nextDueDate r <? now)%Z
  | _ => false
  end.
Definition penalty (now paymentDate : Z) (r : RecurringDeposit.t) : Q :=
  if overdue now r then
    Math_min
      (inject_Z (recurringDepositSchema.overdueDays paymentDate
                   (RecurringDeposit.nextDueDate r)) * 10)
      (RecurringDeposit.monthlyAmount r * (1 # 10))
  else 0%Q.
Definition total (now paymentDate : Z) (r : RecurringDeposit.t) : Q :=
  if overdue now r
  then (RecurringDeposit.monthlyAmount r + penalty now paymentDate r)%Q
  else RecurringDeposit.monthlyAmount r.
End Run.

(** ** Accounts that differ in their lifecycle paths only *)
Module Lifecycle.

Import Account.








End Lifecycle.

(** ** Sequences of credits and debits on one account document *)
Module Ledger.

Inductive operation :=
| Credit (amount : Q)
| Debit (amount : Q)
| Pass (milliseconds : Z).

(** A caller that catches whatever the method throws. *)
Definition attempt {A R} (m : Method A R) : Method A unit :=
  fun s => ((m s).1, Returned tt).

Definition perform (op : operation) : Method Account.t unit :=
  match op with
  | Credit amount => attempt (accountSchema.credit amount)
  | Debit amount => attempt (accountSchema.debit amount)
  | Pass ms => modify (fun s => (s.1, set_clock (clock s.2 + ms) s.2))
  end.

Definition perform_all (ops : list operation) (s : Doc Account.t * World)
  : Doc Account.t * World :=
  fold_left (fun s op => (perform op s).1) ops s.

(** Every account of a store respects its floor. *)
Definition store_respects_floor (store : Store) : Prop :=
  forall k a, accounts store !! k = Some a -> Spec.floor_respected a.

(** The floor holds for the document in memory and for every stored
    account. *)
Definition floors_hold (s : Doc Account.t * World) : Prop :=
  Spec.floor_respected (this s.1)
  /\ store_respects_floor (committed s.2)
  /\ store_respects_floor (uncommitted s.2).

End Ledger.

(** * A small bank, for the examples *)
Module Sample.

(** 15 June 2024, one o'clock in the morning. *)
Definition today : Z := (Date.make 2024 5 15 + 3600000)%Z.

(** A savings account well above its minimum balance. *)
Definition alice : Account.t :=
  Account.mk "1000000001" "u1" Account.savings 5000 1000 0 4 today true
    Account.none 50000 500000 0 0 today today.

(** A current account. *)
Definition bob : Account.t :=
  Account.mk "2000000002" "u2" Account.current 100 0 50000 0 today true
    Account.none 100000 1000000 0 0 today today.

(** A savings account whose minimum balance was raised above what it holds:
    whatever is credited to it must lift the balance to the minimum, or the
    validator of [balance] rejects the save. *)
Definition carol : Account.t :=
  Account.mk "3000000003" "u3" Account.savings 500 1000 0 4 today true
    Account.none 50000 500000 0 0 today today.


Definition with_accounts (l : list Account.t) : Store :=
  mkStore (list_to_map ((fun a => (Account.accountNumber a, a)) <$> l))
          ∅ ∅ ∅ ∅.

Definition bank : Store := with_accounts [alice; bob; carol].

Definition world : World :=
  mkWorld bank empty_store today [] [(123456 # 1000000)%Q; (1 # 2)%Q].

(** The bank before Carol's minimum was raised: every account respects its
    floor. *)
Definition world_before : World :=
  mkWorld (with_accounts [alice; bob]) empty_store today [] [].


(** Alice sends 200 to Bob, and to Carol. *)
Definition to_bob : transactionController.transfer_request :=
  transactionController.mkRequest true "1000000001" "2000000002" 200 None "u1".

(** A transfer record that completed yesterday. *)
Definition settled : Transaction.t :=
  Transaction.mk "TXN20240614000001" (Some "1000000001") (Some "2000000002")
    (Some "1000000001") (Some "2000000002") 200 Transaction.transfer
    "Money transfer" Transaction.completed None (Transaction.mkFees 0 0 0)
    (Transaction.mkBalances (Some 4800%Q) (Some 300%Q))
    (Some (today - Date.msPerDay)%Z) None None.

(** A recurring deposit of 1000 a month over twelve months, with
    [paid] installments paid and the next one five days overdue. *)
Definition deposit (paid : Z) : RecurringDeposit.t :=
  RecurringDeposit.mk "2024000001" "u1" "1000000001" 1000 (68 # 10) 12
    (inject_Z paid * 1000) 12450 (today - 400 * Date.msPerDay)%Z today
    (today - 5 * Date.msPerDay)%Z RecurringDeposit.active paid 0 0
    (RecurringDeposit.mkAutoDebit true 0 None None) None None.

Definition world_with (r : RecurringDeposit.t) : World :=
  mkWorld
    (mkStore (accounts bank) ∅ (<[RecurringDeposit.rdNumber r := r]> ∅) ∅ ∅)
    empty_store today [] [(123456 # 1000000)%Q; (1 # 2)%Q].

(** Credits and debits on Alice's account, the second debit more than the
    account can give, with a day passing in the middle. *)
Definition movements : list Ledger.operation :=
  [Ledger.Debit 3000; Ledger.Credit 250; Ledger.Pass Date.msPerDay;
   Ledger.Debit 2000; Ledger.Debit 1000].

(** The bank with yesterday's transfer on record. *)
Definition world_settled : World :=
  mkWorld
    (mkStore (accounts bank) (<[Transaction.transactionId settled := settled]> ∅)
       ∅ ∅ ∅)
    empty_store today [] [(123456 # 1000000)%Q; (1 # 2)%Q].

Definition world_of (l : list Account.t) : World :=
  mkWorld (with_accounts l) empty_store today []
    [(123456 # 1000000)%Q; (1 # 2)%Q].

(** Alice pays in 300 and takes out 500. *)
Definition pay_in : transactionController.cash_request :=
  transactionController.mkCashRequest true "1000000001" 300 None "u1".

(** Carol's recurring deposit of 1000 a month, which her account cannot
    pay. *)
Definition carols_deposit : RecurringDeposit.t :=
  RecurringDeposit.mk "2024000002" "u3" "3000000003" 1000 (68 # 10) 12
    3000 12450 (today - 100 * Date.msPerDay)%Z today
    (today + 5 * Date.msPerDay)%Z RecurringDeposit.active 3 0 0
    (RecurringDeposit.mkAutoDebit true 0 None None) None None.

(** A savings account that holds its minimum balance and no more. *)
Definition erin : Account.t :=
  Account.mk "1000000005" "u5" Account.savings 1000 1000 0 4 today true
    Account.none 50000 500000 0 0 today today.

(** A closed fixed deposit of 100000 at 7.2 percent with monthly payouts to
    Alice's account, started forty days ago. *)
Definition fixed : FixedDeposit.t :=
  FixedDeposit.mk "2024000007" "u1" "1000000001" 100000 (72 # 10) 12
    (Some 100000%Q) (today - 40 * Date.msPerDay)%Z
    (Some (Date.addMonths (today - 40 * Date.msPerDay) 12))
    FixedDeposit.closed FixedDeposit.monthly (Some "1000000001") 0 None.

Definition world_with_fixed (f : FixedDeposit.t) : World :=
  mkWorld
    (mkStore (accounts bank) ∅ ∅ ∅ (<[FixedDeposit.fdNumber f := f]> ∅))
    empty_store today [] [(123456 # 1000000)%Q; (1 # 2)%Q].

End Sample.

(** ** The limit counters of an account *)
Module Limits.

Import Account.

(** The limits are not negative and the counters are within them. *)
Definition within (a : Account.t) : Prop :=
  (0 <= dailyTransactionLimit a)%Q
  /\ (todayTransactionAmount a <= dailyTransactionLimit a)%Q
  /\ (0 <= monthlyTransactionLimit a)%Q
  /\ (monthTransactionAmount a <= monthlyTransactionLimit a)%Q.

(** The limits of an account are those of another. *)
Definition same_limits (before after : Account.t) : Prop :=
  dailyTransactionLimit after = dailyTransactionLimit before
  /\ monthlyTransactionLimit after = monthlyTransactionLimit before.

(** What the account type keeps back of the balance that
    [availableBalance] reports. *)
Definition held_back (a : Account.t) : Q :=
  match accountType a with
  | savings => minimumBalance a
  | current => overdraftLimit a
  end.

End Limits.

(** ** [controllers/accountController.js]: [deactivateAccount] *)
Module accountController.

(** The request: [req.params], [req.body] and [req.user.userId]. *)
Record deactivate_request := mkDeactivateRequest
  { accountNumber : string;
    reason : option string;
    userId : string }.

Record deactivate_data := mkDeactivateData
  { data_accountNumber : string;
    data_status : string;
    deactivatedAt : Z }.

Record deactivate_response := mkDeactivateResponse
  { statusCode : Z;
    success : bool;
    message : string;
    data : option deactivate_data }.

(** [reason || "Customer request"]: a missing and an empty reason are
    falsy. *)
Definition reason_or_default (reason : option string) : string :=
  match reason with
  | None => "Customer request"
  | Some "" => "Customer request"
  | Some text => text
  end.

Definition deactivateAccount (req : deactivate_request)
  : M World deactivate_response :=
  try_catch
    (let! store := gets committed in
     match accountSchema.findOne store (accountNumber req) (userId req) with
     | None => ret (mkDeactivateResponse 404 false "Account not found" None)
     | Some found =>
         (* Check if account has balance *)
         if Qgtb (Account.balance found) (Account.minimumBalance found) then
           ret (mkDeactivateResponse 400 false
                  "Cannot deactivate account with balance above minimum. Please withdraw excess funds first."
                  None)
         else
           (* Deactivate account *)
           let! saved :=
             call (loaded_doc found false)
                  (assign "isActive" (Account.set_isActive false) ;;
                   assign "freezeReason"
                     (Account.set_freezeReason Account.customer_request) ;;
                   accountSchema.save) in
           let account := this saved.1 in
           (* Create transaction record *)
           let! date := gets clock in
           let transaction :=
             new_doc
               (Transaction.new (Some (Account.accountNumber account)) None
                  (Some (Account.accountNumber account)) None 0
                  Transaction.fee_debit
                  ("Account deactivation - " ++ reason_or_default (reason req))
                  None Transaction.completed (Some date))
               ["fromAccountId"; "fromAccountNumber"; "amount";
                "transactionType"; "description"; "status"; "processedAt";
                "metadata"] in
           call transaction transactionSchema.save ;;
           let! date := gets clock in
           ret (mkDeactivateResponse 200 true "Account deactivated successfully"
                  (Some (mkDeactivateData (Account.accountNumber account)
                           "inactive" date)))
     end)
    (fun _ =>
       ret (mkDeactivateResponse 500 false "Failed to deactivate account" None)).

End accountController.

(** ** The controller of recurring deposits: [createRecurringDeposit] *)
Module recurringDepositController.

(** The request: [req.body], [req.user.userId], what [validationResult]
    says about the request and the errors the schema finds in its nominee. *)
Record create_request := mkCreateRequest
  { validation_passed : bool;
    fromAccountNumber : string;
    monthlyAmount : Q;
    tenure : Z;
    nominee_errors : list string;
    autoDebit : option bool;
    userId : string }.

(** [data] of the answer: the deposit and the record of its first
    installment. *)
Record create_data := mkCreateData
  { deposit : RecurringDeposit.t;
    firstInstallmentTransaction : string }.

Record create_response := mkCreateResponse
  { statusCode : Z;
    success : bool;
    message : string;
    data : option create_data }.

Definition reject (code : Z) (msg : string) : create_response :=
  mkCreateResponse code false msg None.

(** The interest rate of a tenure. *)
Definition rate_of_tenure (tenure : Z) : option Q :=
  if (12 <=? tenure)%Z && (tenure <? 18)%Z then Some (68 # 10)%Q
  else if (18 <=? tenure)%Z && (tenure <? 24)%Z then Some 7%Q
  else if (24 <=? tenure)%Z && (tenure <? 36)%Z then Some (725 # 100)%Q
  else if (36 <=? tenure)%Z && (tenure <? 60)%Z then Some (75 # 10)%Q
  else if (60 <=? tenure)%Z && (tenure <? 120)%Z then Some (775 # 100)%Q
  else if (120 <=? tenure)%Z then Some 8%Q
  else None.


End recurringDepositController.

(** ** Interest payouts of a fixed deposit *)
Module Payout.

(** The months between two payouts in each mode. *)
Definition period (mode : FixedDeposit.interestPayoutMode_enum) : Z :=
  match mode with
  | FixedDeposit.cumulative => 0
  | FixedDeposit.monthly => 1
  | FixedDeposit.quarterly => 3
  | FixedDeposit.half_yearly => 6
  | FixedDeposit.yearly => 12
  end.

End Payout.

(** ** The controller of fixed deposits: [createFixedDeposit] *)
Module fixedDepositController.

(** The request: [req.body], [req.user.userId], what [validationResult]
    says about the request and the errors the schema finds in its nominee. *)
Record create_request := mkCreateRequest
  { validation_passed : bool;
    fromAccountNumber : string;
    principalAmount : Q;
    tenure : Z;
    interestPayoutMode : option FixedDeposit.interestPayoutMode_enum;
    payoutAccountNumber : option string;
    nominee_errors : list string;
    userId : string }.

(** [data] of the answer: the deposit and the record of its creation. *)
Record create_data := mkCreateData
  { deposit : FixedDeposit.t;
    transactionId : string }.

Record create_response := mkCreateResponse
  { statusCode : Z;
    success : bool;
    message : string;
    data : option create_data }.

Definition reject (code : Z) (msg : string) : create_response :=
  mkCreateResponse code false msg None.

(** The interest rate of a tenure. *)
Definition rate_of_tenure (tenure : Z) : option Q :=
  if (6 <=? tenure)%Z && (tenure <? 12)%Z then Some (65 # 10)%Q
  else if (12 <=? tenure)%Z && (tenure <? 18)%Z then Some 7%Q
  else if (18 <=? tenure)%Z && (tenure <? 24)%Z then Some (725 # 100)%Q
  else if (24 <=? tenure)%Z && (tenure <? 36)%Z then Some (75 # 10)%Q
  else if (36 <=? tenure)%Z && (tenure <? 60)%Z then Some (775 # 100)%Q
  else if (60 <=? tenure)%Z && (tenure <? 120)%Z then Some 8%Q
  else if (120 <=? tenure)%Z then Some (825 # 100)%Q
  else None.



End fixedDepositController.

(** * Proofs *)

Ltac div_lia := zify; Z.to_euclidean_division_equations; lia.

(** ** Comparisons of numbers *)

Lemma Qltb_lt (x y : Q) : Qltb x y = true <-> (x < y)%Q.
Proof.
  unfold Qltb. rewrite negb_true_iff.
  destruct (Qle_bool y x) eqn:E.
  - apply Qle_bool_iff in E. split; [discriminate | intros H; lra].
  - split; [intros _ | reflexivity].
    apply Qnot_le_lt. intros H. apply Qle_bool_iff in H. congruence.
Qed.

Lemma Qle_bool_gt (x y : Q) : Qle_bool x y = false <-> (y < x)%Q.
Proof.
  rewrite <- Qltb_lt. unfold Qltb. now rewrite negb_true_iff.
Qed.

(** ** The calendar *)

Section CalendarFacts.

Local Open Scope Z_scope.

Lemma first_day_of_month_step (k : Z) :
  Calendar.first_day_of_month k < Calendar.first_day_of_month (k + 1).
Proof. unfold Calendar.first_day_of_month. cbv zeta. div_lia. Qed.

Lemma first_day_of_month_mono (k1 k2 : Z) :
  k1 <= k2 -> Calendar.first_day_of_month k1 <= Calendar.first_day_of_month k2.
Proof.
  intros H. replace k2 with (k1 + Z.of_nat (Z.to_nat (k2 - k1))) by lia.
  induction (Z.to_nat (k2 - k1)) as [|n IH].
  - rewrite Z.add_0_r. lia.
  - pose proof (first_day_of_month_step (k1 + Z.of_nat n)).
    replace (k1 + Z.of_nat (S n)) with (k1 + Z.of_nat n + 1) by lia. lia.
Qed.

Lemma month_starts_before (z : Z) :
  Calendar.first_day_of_month (Calendar.month_of_day z) <= z.
Proof.
  unfold Calendar.month_of_day. cbv zeta.
  set (z1 := z + 719468).
  set (era := z1 / 146097).
  set (doe := z1 - era * 146097).
  assert (Hdoe : 0 <= doe < 146097) by (subst doe era; div_lia).
  set (yoe := (doe - doe / 1460 + doe / 36524 - doe / 146096) / 365).
  assert (Hyoe : 0 <= yoe <= 399) by (subst yoe; div_lia).
  set (doy := doe - (365 * yoe + yoe / 4 - yoe / 100)).
  assert (Hdoy : 0 <= doy <= 365) by (subst doy yoe; div_lia).
  set (mp := (5 * doy + 2) / 153).
  assert (Hmp : 0 <= mp <= 11) by (subst mp; div_lia).
  unfold Calendar.first_day_of_month. cbv zeta.
  replace ((12 * (yoe + era * 400) + mp) / 12) with (yoe + era * 400) by div_lia.
  replace ((12 * (yoe + era * 400) + mp) mod 12) with mp by div_lia.
  replace ((yoe + era * 400) / 400) with era by div_lia.
  replace (yoe + era * 400 - era * 400) with yoe by lia.
  subst mp doy. div_lia.
Qed.

Lemma month_ends_after (z : Z) :
  z < Calendar.first_day_of_month (Calendar.month_of_day z + 1).
Proof.
  unfold Calendar.month_of_day. cbv zeta.
  set (z1 := z + 719468).
  set (era := z1 / 146097).
  set (doe := z1 - era * 146097).
  assert (Hdoe : 0 <= doe < 146097) by (subst doe era; div_lia).
  set (yoe := (doe - doe / 1460 + doe / 36524 - doe / 146096) / 365).
  assert (Hyoe : 0 <= yoe <= 399) by (subst yoe; div_lia).
  set (doy := doe - (365 * yoe + yoe / 4 - yoe / 100)).
  assert (Hdoy : 0 <= doy <= 365) by (subst doy yoe; div_lia).
  set (mp := (5 * doy + 2) / 153).
  assert (Hmp : 0 <= mp <= 11) by (subst mp; div_lia).
  unfold Calendar.first_day_of_month. cbv zeta.
  destruct (Z.eq_dec mp 11) as [E|E].
  - replace ((12 * (yoe + era * 400) + mp + 1) / 12)
      with (yoe + era * 400 + 1) by div_lia.
    replace ((12 * (yoe + era * 400) + mp + 1) mod 12) with 0 by div_lia.
    destruct (Z.eq_dec yoe 399) as [E'|E'].
    + replace ((yoe + era * 400 + 1) / 400) with (era + 1) by div_lia.
      subst doy. div_lia.
    + replace ((yoe + era * 400 + 1) / 400) with era by div_lia.
      subst mp doy. div_lia.
  - replace ((12 * (yoe + era * 400) + mp + 1) / 12)
      with (yoe + era * 400) by div_lia.
    replace ((12 * (yoe + era * 400) + mp + 1) mod 12) with (mp + 1) by div_lia.
    replace ((yoe + era * 400) / 400) with era by div_lia.
    subst mp doy. div_lia.
Qed.

(** A day lies before the first day of a month exactly when its own month
    is an earlier one. *)
Lemma before_month_start (z n : Z) :
  z < Calendar.first_day_of_month (Calendar.month_of_day n)
  <-> Calendar.month_of_day z < Calendar.month_of_day n.
Proof.
  split; intros H.
  - destruct (Z.lt_ge_cases (Calendar.month_of_day z) (Calendar.month_of_day n))
      as [|Hge]; [assumption|].
    pose proof (first_day_of_month_mono _ _ Hge).
    pose proof (month_starts_before z). lia.
  - pose proof (month_ends_after z).
    assert (Hle : Calendar.month_of_day z + 1 <= Calendar.month_of_day n) by lia.
    pose proof (first_day_of_month_mono _ _ Hle). lia.
Qed.

End CalendarFacts.

Section DateFacts.

Local Open Scope Z_scope.

Ltac civil_setup z :=
  unfold Date.getFullYear, Date.getMonth, Date.getDate, Date.civil_from_days,
    Calendar.month_of_day;
  cbv zeta;
  set (z1 := z + 719468);
  set (era := z1 / 146097);
  set (doe := z1 - era * 146097);
  assert (Hdoe : 0 <= doe < 146097) by (subst doe era; div_lia);
  set (yoe := (doe - doe / 1460 + doe / 36524 - doe / 146096) / 365);
  assert (Hyoe : 0 <= yoe <= 399) by (subst yoe; div_lia);
  set (doy := doe - (365 * yoe + yoe / 4 - yoe / 100));
  assert (Hdoy : 0 <= doy <= 365) by (subst doy yoe; div_lia);
  set (mp := (5 * doy + 2) / 153);
  assert (Hmp : 0 <= mp <= 11) by (subst mp; div_lia);
  cbn [fst snd].

Lemma calendar_month_of_day (t : Z) :
  Spec.calendar_month t = Calendar.month_of_day (t / Date.msPerDay) + 2.
Proof.
  unfold Spec.calendar_month. civil_setup (t / Date.msPerDay).
  destruct (mp <? 10) eqn:E1.
  - apply Z.ltb_lt in E1. destruct (mp + 3 <=? 2) eqn:E2; lia.
  - apply Z.ltb_ge in E1. destruct (mp - 9 <=? 2) eqn:E2; lia.
Qed.

Lemma getMonth_range (t : Z) : 0 <= Date.getMonth t <= 11.
Proof.
  civil_setup (t / Date.msPerDay).
  destruct (mp <? 10) eqn:E1; [apply Z.ltb_lt in E1 | apply Z.ltb_ge in E1]; lia.
Qed.

(** [new Date(y, m, d)] at the calendar fields of [t] is the midnight that
    opens the day of [t]. *)
Lemma start_of_day (t : Z) :
  Date.make (Date.getFullYear t) (Date.getMonth t) (Date.getDate t)
  = t / Date.msPerDay * Date.msPerDay.
Proof.
  pose proof (getMonth_range t) as Hm.
  unfold Date.make.
  replace (Date.getMonth t / 12) with 0 by div_lia.
  replace (Date.getMonth t mod 12) with (Date.getMonth t) by div_lia.
  f_equal. clear Hm.
  unfold Date.days_from_civil. civil_setup (t / Date.msPerDay).
  destruct (mp <? 10) eqn:E1.
  - apply Z.ltb_lt in E1.
    destruct (mp + 3 <=? 2) eqn:E2; [lia|].
    replace (mp + 3 - 1 + 1 <=? 2) with false by lia.
    replace (2 <? mp + 3 - 1 + 1) with true by lia.
    replace (mp + 3 - 1 + 1 - 3) with mp by lia.
    subst mp doy yoe doe era z1. div_lia.
  - apply Z.ltb_ge in E1.
    destruct (mp - 9 <=? 2) eqn:E2; [|lia].
    replace (mp - 9 - 1 + 1 <=? 2) with true by lia.
    replace (2 <? mp - 9 - 1 + 1) with false by lia.
    replace (mp - 9 - 1 + 1 + 9) with mp by lia.
    subst mp doy yoe doe era z1. div_lia.
Qed.

(** [new Date(y, m, 1)] at the calendar fields of [t] is the midnight that
    opens the month of [t]. *)
Lemma start_of_month (t : Z) :
  Date.make (Date.getFullYear t) (Date.getMonth t) 1
  = Calendar.first_day_of_month (Calendar.month_of_day (t / Date.msPerDay))
    * Date.msPerDay.
Proof.
  pose proof (getMonth_range t) as Hm.
  unfold Date.make.
  replace (Date.getMonth t / 12) with 0 by div_lia.
  replace (Date.getMonth t mod 12) with (Date.getMonth t) by div_lia.
  f_equal. clear Hm.
  unfold Date.days_from_civil, Calendar.first_day_of_month.
  civil_setup (t / Date.msPerDay).
  replace ((12 * (yoe + era * 400) + mp) / 12) with (yoe + era * 400) by div_lia.
  replace ((12 * (yoe + era * 400) + mp) mod 12) with mp by div_lia.
  replace ((yoe + era * 400) / 400) with era by div_lia.
  replace (yoe + era * 400 - era * 400) with yoe by lia.
  destruct (mp <? 10) eqn:E1.
  - apply Z.ltb_lt in E1.
    destruct (mp + 3 <=? 2) eqn:E2; [lia|].
    replace (mp + 3 - 1 + 1 <=? 2) with false by lia.
    replace (2 <? mp + 3 - 1 + 1) with true by lia.
    replace (mp + 3 - 1 + 1 - 3) with mp by lia.
    replace (yoe + era * 400 + 0) with (yoe + era * 400) by lia.
    replace ((yoe + era * 400) / 400) with era by div_lia.
    replace (yoe + era * 400 - era * 400) with yoe by lia.
    lia.
  - apply Z.ltb_ge in E1.
    destruct (mp - 9 <=? 2) eqn:E2; [|lia].
    replace (mp - 9 - 1 + 1 <=? 2) with true by lia.
    replace (2 <? mp - 9 - 1 + 1) with false by lia.
    replace (mp - 9 - 1 + 1 + 9) with mp by lia.
    replace (yoe + era * 400 + 1 + 0 - 1) with (yoe + era * 400) by lia.
    replace ((yoe + era * 400) / 400) with era by div_lia.
    replace (yoe + era * 400 - era * 400) with yoe by lia.
    lia.
Qed.

(** The comparison the code makes for the daily window is the comparison of
    calendar days. *)
Lemma new_day_iff (last now : Z) :
  (last <? Date.make (Date.getFullYear now) (Date.getMonth now) (Date.getDate now))
  = (Spec.calendar_day last <? Spec.calendar_day now).
Proof.
  rewrite start_of_day. unfold Spec.calendar_day.
  assert (0 < Date.msPerDay) by reflexivity.
  destruct (last / Date.msPerDay <? now / Date.msPerDay) eqn:E.
  - apply Z.ltb_lt in E. apply Z.ltb_lt.
    apply Z.lt_le_trans with ((last / Date.msPerDay + 1) * Date.msPerDay).
    + pose proof (Z.mod_pos_bound last Date.msPerDay ltac:(lia)).
      pose proof (Z.div_mod last Date.msPerDay ltac:(lia)). lia.
    + apply Z.mul_le_mono_nonneg_r; lia.
  - apply Z.ltb_ge in E. apply Z.ltb_ge.
    apply Z.le_trans with (last / Date.msPerDay * Date.msPerDay).
    + apply Z.mul_le_mono_nonneg_r; lia.
    + pose proof (Z.mod_pos_bound last Date.msPerDay ltac:(lia)).
      pose proof (Z.div_mod last Date.msPerDay ltac:(lia)). lia.
Qed.

(** The comparison the code makes for the monthly window is the comparison
    of calendar months. *)
Lemma new_month_iff (last now : Z) :
  (last <? Date.make (Date.getFullYear now) (Date.getMonth now) 1)
  = (Spec.calendar_month last <? Spec.calendar_month now).
Proof.
  rewrite start_of_month, !calendar_month_of_day.
  assert (0 < Date.msPerDay) by reflexivity.
  set (F := Calendar.first_day_of_month (Calendar.month_of_day (now / Date.msPerDay))).
  pose proof (before_month_start (last / Date.msPerDay) (now / Date.msPerDay)) as Hb.
  fold F in Hb.
  pose proof (Z.mod_pos_bound last Date.msPerDay ltac:(lia)).
  pose proof (Z.div_mod last Date.msPerDay ltac:(lia)).
  destruct (Calendar.month_of_day (last / Date.msPerDay) + 2
            <? Calendar.month_of_day (now / Date.msPerDay) + 2) eqn:E.
  - apply Z.ltb_lt in E. apply Z.ltb_lt.
    assert (last / Date.msPerDay < F) by (apply Hb; lia).
    apply Z.lt_le_trans with ((last / Date.msPerDay + 1) * Date.msPerDay); [lia|].
    apply Z.mul_le_mono_nonneg_r; lia.
  - apply Z.ltb_ge in E. apply Z.ltb_ge.
    assert (F <= last / Date.msPerDay).
    { destruct (Z.lt_ge_cases (last / Date.msPerDay) F) as [Hlt|]; [|assumption].
      apply Hb in Hlt. lia. }
    apply Z.le_trans with (last / Date.msPerDay * Date.msPerDay); [|lia].
    apply Z.mul_le_mono_nonneg_r; lia.
Qed.

End DateFacts.

(** ** [canTransact] *)

Ltac run_monad :=
  cbv [bind when assign get_this self new_Date ret throw in_world zoom modify
       gets];
  cbn [fst snd this session isNew modifiedPaths].

Ltac world_cbn :=
  cbn [committed uncommitted clock faults random set_committed set_uncommitted
       set_clock set_faults set_random fst snd].

Ltac split_Qle :=
  repeat match goal with
         | |- context [Qle_bool ?x ?y] =>
             destruct (Qle_bool x y); cbn [negb fst snd]
         end.

Ltac account_cbn :=
  cbn [Account.accountNumber Account.userId Account.accountType
       Account.balance Account.minimumBalance Account.overdraftLimit
       Account.interestRate Account.lastInterestCalculated Account.isActive
       Account.freezeReason Account.dailyTransactionLimit
       Account.monthlyTransactionLimit Account.todayTransactionAmount
       Account.monthTransactionAmount Account.lastTransactionReset
       Account.lastMonthlyReset Account.set_balance Account.set_isActive
       Account.set_freezeReason Account.set_todayTransactionAmount
       Account.set_monthTransactionAmount Account.set_lastTransactionReset
       Account.set_lastMonthlyReset fst snd this session isNew modifiedPaths
       app negb] in *.

Ltac account_cbv :=
  cbv [Account.accountNumber Account.userId Account.accountType
       Account.balance Account.minimumBalance Account.overdraftLimit
       Account.interestRate Account.lastInterestCalculated Account.isActive
       Account.freezeReason Account.dailyTransactionLimit
       Account.monthlyTransactionLimit Account.todayTransactionAmount
       Account.monthTransactionAmount Account.lastTransactionReset
       Account.lastMonthlyReset Account.set_balance Account.set_isActive
       Account.set_freezeReason Account.set_todayTransactionAmount
       Account.set_monthTransactionAmount Account.set_lastTransactionReset
       Account.set_lastMonthlyReset].

Lemma canTransact_run (amount : Q) (d : Doc Account.t) (w : World) :
  accountSchema.canTransact amount (d, w)
  = ((Run.checked (clock w) d, w),
     Returned (Spec.canTransact (clock w) amount (this d)).2).
Proof.
  destruct d as [a s n p].
  destruct a as [num user type bal minb over rate lic act fr dl ml ta ma ltr lmr].
  unfold accountSchema.canTransact, Spec.canTransact, Run.checked,
    Run.reset_paths, Spec.reset_windows, Spec.first_violation,
    Spec.balance_floor, Spec.floor_reason, Qgtb, Qltb.
  destruct type; run_monad; account_cbn; rewrite new_day_iff;
  destruct (Spec.calendar_day _ <? Spec.calendar_day (clock w))%Z;
    run_monad; account_cbn;
    rewrite new_month_iff;
    destruct (Spec.calendar_month _ <? Spec.calendar_month (clock w))%Z;
    run_monad; account_cbn;
    split_Qle; reflexivity.
Qed.

(** ** Saving, crediting and debiting an account *)

Lemma persist_run {A} (f : A -> Store -> Store) (d : Doc A) (w : World) :
  persist f (d, w) = Run.write f d w.
Proof.
  unfold persist, Run.write, Run.refused, Run.stored, Run.answered, Run.saved,
    storage_write.
  run_monad. destruct (faults w) as [|[] rest]; reflexivity.
Qed.

Lemma save_account_run (d : Doc Account.t) (w : World) :
  accountSchema.save (d, w) = Run.save_account d w.
Proof.
  unfold accountSchema.save, Run.save_account.
  unfold bind at 1. unfold get_this at 1, gets at 1. cbn [fst snd].
  destruct (accountSchema.validate_balance (this d)); [reflexivity|].
  apply persist_run.
Qed.

Lemma credit_run (amount : Q) (d : Doc Account.t) (w : World) :
  accountSchema.credit amount (d, w) = Run.credit amount d w.
Proof.
  unfold accountSchema.credit, Run.credit.
  destruct (Qle_bool amount 0); [reflexivity|].
  unfold bind at 1. unfold get_this at 1, gets at 1. cbn [fst snd].
  unfold bind at 1. unfold assign at 1, modify at 1. cbn [fst snd].
  unfold bind at 1. rewrite save_account_run. unfold Run.save_account.
  destruct d as [a s n p]. cbn [this session isNew modifiedPaths].
  unfold Run.credited.
  destruct (accountSchema.validate_balance _); [reflexivity|].
  unfold Run.write. destruct (Run.refused w); reflexivity.
Qed.

Lemma debit_run (amount : Q) (d : Doc Account.t) (w : World) :
  accountSchema.debit amount (d, w) = Run.debit amount d w.
Proof.
  unfold accountSchema.debit, Run.debit.
  destruct (Qle_bool amount 0); [reflexivity|].
  unfold bind at 1. rewrite canTransact_run. unfold Spec.canTransact.
  cbn [fst snd].
  destruct (Spec.first_violation amount _) as [why|];
    cbn [accountSchema.allowed accountSchema.reason negb default]; [reflexivity|].
  unfold accountSchema.updateTransactionAmounts.
  destruct d as [a s n p]. unfold Run.checked.
  cbn [this session isNew modifiedPaths].
  run_monad.
  rewrite save_account_run. unfold Run.save_account.
  cbn [this session isNew modifiedPaths]. unfold Run.debited.
  destruct (accountSchema.validate_balance _); [reflexivity|].
  unfold Run.write. cbn [this session isNew modifiedPaths].
  destruct (Run.refused w); reflexivity.
Qed.

(** ** [freeze] and [unfreeze] *)

Lemma freeze_run (reason : Account.freezeReason_enum) (d : Doc Account.t)
    (w : World) :
  accountSchema.freeze reason (d, w)
  = Run.save_account
      (mkDoc (Account.set_isActive false (Account.set_freezeReason reason (this d)))
             (session d) (isNew d)
             ("isActive" :: "freezeReason" :: modifiedPaths d)) w.
Proof.
  unfold accountSchema.freeze. run_monad. apply save_account_run.
Qed.

Lemma unfreeze_run (d : Doc Account.t) (w : World) :
  accountSchema.unfreeze (d, w)
  = Run.save_account
      (mkDoc (Account.set_isActive true (Account.set_freezeReason Account.none (this d)))
             (session d) (isNew d)
             ("isActive" :: "freezeReason" :: modifiedPaths d)) w.
Proof.
  unfold accountSchema.unfreeze. run_monad. apply save_account_run.
Qed.

(** What [save()] does to the receiver and, when it returns, to the store
    the document is bound to. *)
Lemma save_account_effect (d : Doc Account.t) (w : World) :
  this (Run.save_account d w).1.1 = this d
  /\ match (Run.save_account d w).2 with
     | Returned _ =>
         accounts (if session d then uncommitted (Run.save_account d w).1.2
                   else committed (Run.save_account d w).1.2)
           !! Account.accountNumber (this d)
         = Some (this d)
     | _ => True
     end.
Proof.
  unfold Run.save_account.
  destruct (accountSchema.validate_balance (this d)); [now split|].
  unfold Run.write. destruct (Run.refused w); [now split|].
  cbn [fst snd Run.saved this]. split; [reflexivity|].
  unfold Run.stored. destruct (session d); cbn; apply lookup_insert_eq.
Qed.

(** C10. [freeze(reason)] stores the reason and also clears [isActive], so
    the [status] virtual of a frozen account reads [inactive], never
    [frozen]; [unfreeze()] sets the reason to [none] and [isActive] to true,
    so one call makes the account [active] again whatever had deactivated it.
    Both leave every other path alone, and when the save returns the stored
    document is the receiver. *)
Theorem freeze_reports_inactive_and_unfreeze_reactivates
    (reason : Account.freezeReason_enum) (d : Doc Account.t) (w : World) :
  let frozen := accountSchema.freeze reason (d, w) in
  let thawed := accountSchema.unfreeze (d, w) in
  (this frozen.1.1
   = Account.set_isActive false (Account.set_freezeReason reason (this d))
   /\ Account.freezeReason (this frozen.1.1) = reason
   /\ Account.isActive (this frozen.1.1) = false
   /\ Account.status (this frozen.1.1) = Account.inactive
   /\ match frozen.2 with
      | Returned _ =>
          accounts (if session d then uncommitted frozen.1.2
                    else committed frozen.1.2)
            !! Account.accountNumber (this d)
          = Some (this frozen.1.1)
      | _ => True
      end)
  /\ (this thawed.1.1
      = Account.set_isActive true (Account.set_freezeReason Account.none (this d))
      /\ Account.freezeReason (this thawed.1.1) = Account.none
      /\ Account.isActive (this thawed.1.1) = true
      /\ Account.status (this thawed.1.1) = Account.active
      /\ match thawed.2 with
         | Returned _ =>
             accounts (if session d then uncommitted thawed.1.2
                       else committed thawed.1.2)
               !! Account.accountNumber (this d)
             = Some (this thawed.1.1)
         | _ => True
         end).
Proof.
  cbv zeta. rewrite freeze_run, unfreeze_run.
  split.
  - match goal with |- context [Run.save_account ?x w] =>
      destruct (save_account_effect x w) as [E H]; rewrite !E end.
    cbn [this session] in *. repeat split; try assumption.
  - match goal with |- context [Run.save_account ?x w] =>
      destruct (save_account_effect x w) as [E H]; rewrite !E end.
    cbn [this session] in *. repeat split; try assumption.
Qed.

(** ** The balance floor *)

Section Floor.

Import Account.

Lemma reset_windows_ledger (now : Z) (a : Account.t) :
  balance (Spec.reset_windows now a) = balance a
  /\ accountType (Spec.reset_windows now a) = accountType a
  /\ minimumBalance (Spec.reset_windows now a) = minimumBalance a
  /\ overdraftLimit (Spec.reset_windows now a) = overdraftLimit a
  /\ accountNumber (Spec.reset_windows now a) = accountNumber a
  /\ isActive (Spec.reset_windows now a) = isActive a
  /\ freezeReason (Spec.reset_windows now a) = freezeReason a.
Proof.
  unfold Spec.reset_windows.
  destruct (_ <? _)%Z; cbn; destruct (_ <? _)%Z; cbn; repeat split.
Qed.

Lemma debited_ledger (now : Z) (amount : Q) (a : Account.t) :
  balance (Run.debited now amount a) = (balance a - amount)%Q
  /\ accountNumber (Run.debited now amount a) = accountNumber a.
Proof.
  destruct (reset_windows_ledger now a) as (Hb & _ & _ & _ & Hn & _).
  unfold Run.debited. destruct (Spec.reset_windows now a).
  account_cbv. cbv [balance accountNumber] in Hb, Hn. now subst.
Qed.

Lemma reset_windows_floor (now : Z) (a : Account.t) :
  Spec.floor_respected a -> Spec.floor_respected (Spec.reset_windows now a).
Proof.
  unfold Spec.floor_respected, Spec.balance_floor.
  destruct (reset_windows_ledger now a) as (-> & -> & -> & -> & _). auto.
Qed.

Lemma first_violation_none_floor (amount : Q) (a : Account.t) :
  Spec.first_violation amount a = None ->
  (Spec.balance_floor a <= balance a - amount)%Q.
Proof.
  unfold Spec.first_violation.
  destruct (Qle_bool (todayTransactionAmount a + amount) _); [|discriminate].
  destruct (Qle_bool (monthTransactionAmount a + amount) _); [|discriminate].
  destruct (Qle_bool (Spec.balance_floor a) _) eqn:E; [|discriminate].
  intros _. now apply Qle_bool_iff.
Qed.

Lemma first_violation_below_floor (amount : Q) (a : Account.t) :
  (balance a - amount < Spec.balance_floor a)%Q ->
  exists why, Spec.first_violation amount a = Some why.
Proof.
  intros H. destruct (Spec.first_violation amount a) eqn:E; [eauto|].
  apply first_violation_none_floor in E. lra.
Qed.

Lemma debited_floor (now : Z) (amount : Q) (a : Account.t) :
  Spec.first_violation amount (Spec.reset_windows now a) = None ->
  Spec.floor_respected (Run.debited now amount a).
Proof.
  intros H. apply first_violation_none_floor in H.
  unfold Spec.floor_respected, Run.debited, Spec.balance_floor in *. cbn.
  exact H.
Qed.

Lemma credited_floor (amount : Q) (a : Account.t) :
  Qle_bool amount 0 = false ->
  Spec.floor_respected a -> Spec.floor_respected (Run.credited amount a).
Proof.
  intros Hpos H. apply Qle_bool_gt in Hpos.
  unfold Spec.floor_respected, Run.credited, Spec.balance_floor in *. cbn.
  destruct (accountType a); lra.
Qed.

Lemma put_respects_floor (a : Account.t) (store : Store) :
  Spec.floor_respected a -> Ledger.store_respects_floor store ->
  Ledger.store_respects_floor (accountSchema.put a store).
Proof.
  intros Ha Hs k b. unfold accountSchema.put. cbn [accounts].
  rewrite lookup_insert. case_decide.
  - intros [= <-]. exact Ha.
  - apply Hs.
Qed.

Lemma stored_floors (in_session : bool) (a : Account.t) (w : World) :
  Spec.floor_respected a ->
  Ledger.store_respects_floor (committed w) ->
  Ledger.store_respects_floor (uncommitted w) ->
  Ledger.store_respects_floor
    (committed (Run.stored in_session (accountSchema.put a) w))
  /\ Ledger.store_respects_floor
       (uncommitted (Run.stored in_session (accountSchema.put a) w)).
Proof.
  intros Ha Hc Hu. unfold Run.stored, Run.answered.
  destruct in_session; cbn; split; auto using put_respects_floor.
Qed.

Lemma credit_keeps_floors (amount : Q) (s : Doc Account.t * World) :
  Ledger.floors_hold s -> Ledger.floors_hold (accountSchema.credit amount s).1.
Proof.
  destruct s as [d w]. intros (Hd & Hc & Hu). rewrite credit_run.
  unfold Run.credit.
  destruct (Qle_bool amount 0) eqn:Hpos; [now repeat split|].
  pose proof (credited_floor amount (this d) Hpos Hd) as Hn.
  cbn [this]. destruct (accountSchema.validate_balance _); [now repeat split|].
  destruct (Run.refused w); [now repeat split|].
  destruct (stored_floors (session d) _ w Hn Hc Hu).
  now repeat split.
Qed.

Lemma debit_keeps_floors (amount : Q) (s : Doc Account.t * World) :
  Ledger.floors_hold s -> Ledger.floors_hold (accountSchema.debit amount s).1.
Proof.
  destruct s as [d w]. intros (Hd & Hc & Hu). rewrite debit_run.
  unfold Run.debit.
  destruct (Qle_bool amount 0) eqn:Hpos; [now repeat split|].
  destruct (Spec.first_violation amount _) eqn:Hv.
  - repeat split; cbn; auto using reset_windows_floor.
  - pose proof (debited_floor _ _ _ Hv) as Hn.
    cbn [this]. destruct (accountSchema.validate_balance _); [now repeat split|].
    destruct (Run.refused w); [now repeat split|].
    destruct (stored_floors (session d) _ w Hn Hc Hu).
    now repeat split.
Qed.

Lemma perform_keeps_floors (op : Ledger.operation) (s : Doc Account.t * World) :
  Ledger.floors_hold s -> Ledger.floors_hold (Ledger.perform op s).1.
Proof.
  destruct op; cbn [Ledger.perform Ledger.attempt fst].
  - apply credit_keeps_floors.
  - apply debit_keeps_floors.
  - destruct s as [d w]. intros (Hd & Hc & Hu). now repeat split.
Qed.

Lemma perform_all_keeps_floors (ops : list Ledger.operation)
    (s : Doc Account.t * World) :
  Ledger.floors_hold s -> Ledger.floors_hold (Ledger.perform_all ops s).
Proof.
  revert s. induction ops as [|op ops IH]; intros s H; [exact H|].
  cbn. apply IH. now apply perform_keeps_floors.
Qed.

(** A debit that would take the balance below the floor throws, and leaves
    the balance of the receiver and the whole world as they were. *)
Lemma debit_below_floor_rejected (amount : Q) (s : Doc Account.t * World) :
  (balance (this s.1) - amount < Spec.balance_floor (this s.1))%Q ->
  exists why,
    (accountSchema.debit amount s).2 = Thrown why
    /\ balance (this (accountSchema.debit amount s).1.1) = balance (this s.1)
    /\ (accountSchema.debit amount s).1.2 = s.2.
Proof.
  destruct s as [d w]. cbn [fst snd].
  intros H. rewrite debit_run. unfold Run.debit.
  destruct (Qle_bool amount 0); [eexists; repeat split|].
  destruct (first_violation_below_floor amount
              (Spec.reset_windows (clock w) (this d))) as [why Hw].
  { unfold Spec.balance_floor in *.
    destruct (reset_windows_ledger (clock w) (this d)) as (-> & -> & -> & -> & _).
    exact H. }
  rewrite Hw. exists why. cbn. repeat split.
  apply reset_windows_ledger.
Qed.

End Floor.

(** C3. For an account that respects its floor, in memory and in the stores,
    every sequence of credits and debits (whatever each of them answers, and
    whatever time passes in between) leaves the floor respected: the balance
    of a savings account is at least [minimumBalance], that of a current
    account at least [-overdraftLimit]. A debit that would take the balance
    below the floor is rejected: it throws, and neither the balance of the
    document nor the world has changed. *)
Theorem balance_floor_invariant (ops : list Ledger.operation)
    (s : Doc Account.t * World)
    (H : Ledger.floors_hold s) :
  Ledger.floors_hold (Ledger.perform_all ops s)
  /\ match Account.accountType (this (Ledger.perform_all ops s).1) with
     | Account.savings =>
         (Account.minimumBalance (this (Ledger.perform_all ops s).1)
          <= Account.balance (this (Ledger.perform_all ops s).1))%Q
     | Account.current =>
         (- Account.overdraftLimit (this (Ledger.perform_all ops s).1)
          <= Account.balance (this (Ledger.perform_all ops s).1))%Q
     end
  /\ forall amount,
       (Account.balance (this s.1) - amount < Spec.balance_floor (this s.1))%Q ->
       exists why,
         (accountSchema.debit amount s).2 = Thrown why
         /\ Account.balance (this (accountSchema.debit amount s).1.1)
            = Account.balance (this s.1)
         /\ (accountSchema.debit amount s).1.2 = s.2.
Proof.
  pose proof (perform_all_keeps_floors ops s H) as Hall.
  split; [exact Hall|]. split.
  - destruct Hall as [Hd _]. revert Hd.
    generalize (this (Ledger.perform_all ops s).1). intros a.
    unfold Spec.floor_respected, Spec.balance_floor.
    destruct (Account.accountType a); trivial.
  - intros amount. apply debit_below_floor_rejected.
Qed.

(** ** Independence from the lifecycle paths *)

Section LifecycleFacts.

Import Account Lifecycle.



















End LifecycleFacts.

(** ** What a credit and a debit do to the account *)


Lemma findOne_number (store : Store) (number user : string) (a : Account.t) :
  accountSchema.findOne store number user = Some a ->
  Account.accountNumber a = number.
Proof.
  unfold accountSchema.findOne.
  destruct (accounts store !! number) as [b|]; cbn; [|discriminate].
  destruct (bool_decide (Account.accountNumber b = number)) eqn:E;
    cbn; [|discriminate].
  destruct (_ && _); [|discriminate].
  intros [= <-]. now apply bool_decide_eq_true in E.
Qed.

Section Movements.

Import Account.







End Movements.


(** ** Identifier generation *)

Lemma generate_unique_run (candidate : Q -> string)
    (taken : Store -> string -> bool) (w : World) :
  generate_unique candidate taken w
  = match first_unique candidate (taken (committed w)) (random w) with
    | (Some id, rest) => (set_random rest w, Returned id)
    | (None, rest) => (set_random rest w, Hangs)
    end.
Proof. reflexivity. Qed.

(** ** Recurring deposits *)

Section RecurringDepositFacts.

Import RecurringDeposit.

Lemma in_world_call_run {A B R} (d : Doc B) (m : Method B R) (recv : Doc A)
    (w : World) :
  in_world (call d m) (recv, w)
  = match m (d, w) with
    | ((d', w'), Returned r) => ((recv, w'), Returned (d', r))
    | ((_, w'), Thrown e) => ((recv, w'), Thrown e)
    | ((_, w'), Hangs) => ((recv, w'), Hangs)
    end.
Proof.
  unfold in_world, zoom, call. cbn [fst snd].
  destruct (m (d, w)) as [[d' w'] [r|e|]]; reflexivity.
Qed.

Lemma bind_assign {A R} (path : string) (f : A -> A) (k : unit -> Method A R)
    (d : Doc A) (w : World) :
  bind (assign path f) k (d, w)
  = k tt (mkDoc (f (this d)) (session d) (isNew d) (path :: modifiedPaths d), w).
Proof. reflexivity. Qed.

Lemma isOverdue_run (d : Doc RecurringDeposit.t) (w : World) :
  recurringDepositSchema.isOverdue (d, w)
  = ((d, w), Returned (Run.overdue (clock w) (this d))).
Proof.
  unfold recurringDepositSchema.isOverdue, Run.overdue. run_monad. reflexivity.
Qed.

End RecurringDepositFacts.

(** * The sample bank *)

Section Examples.

Lemma with_accounts_respect_floor (l : list Account.t) :
  Forall Spec.floor_respected l ->
  Ledger.store_respects_floor (Sample.with_accounts l).
Proof.
  intros Hl k a Hk. unfold Sample.with_accounts in Hk. cbn [accounts] in Hk.
  apply elem_of_list_to_map_2, list_elem_of_fmap in Hk.
  destruct Hk as (x & [= _ ->] & Hx).
  rewrite Forall_forall in Hl. now apply Hl.
Qed.

Lemma empty_store_respects_floor : Ledger.store_respects_floor empty_store.
Proof. intros k a Hk. cbn in Hk. now rewrite lookup_empty in Hk. Qed.



End Examples.

(** Alice's account goes through the sample movements: the debit of 3000
    and the later one of 1000 go through, the debit of 2000 in between is
    refused, and the balance ends at 1250, above the minimum of 1000. A debit
    of 4500 on the untouched account is rejected and leaves the 5000. *)
Lemma movements_keep_the_minimum_balance :
  let s := (loaded_doc Sample.alice false, Sample.world_before) in
  Ledger.floors_hold s
  /\ (Account.balance (this (Ledger.perform_all Sample.movements s).1) == 1250)%Q
  /\ (Account.minimumBalance (this (Ledger.perform_all Sample.movements s).1)
      <= Account.balance (this (Ledger.perform_all Sample.movements s).1))%Q
  /\ exists why,
       (accountSchema.debit 4500 s).2 = Thrown why
       /\ Account.balance (this (accountSchema.debit 4500 s).1.1) = 5000%Q
       /\ (accountSchema.debit 4500 s).1.2 = Sample.world_before.
Proof.
  cbv zeta.
  assert (H : Ledger.floors_hold (loaded_doc Sample.alice false, Sample.world_before)).
  { split; [vm_compute; discriminate|]. split.
    - apply with_accounts_respect_floor.
      repeat constructor; vm_compute; discriminate.
    - apply empty_store_respects_floor. }
  split; [exact H|].
  split; [vm_compute; reflexivity|].
  destruct (balance_floor_invariant Sample.movements _ H)
    as (_ & Hfloor & Hrejected).
  split; [exact Hfloor|].
  apply (Hrejected 4500%Q). vm_compute. reflexivity.
Defined.


(** * More of [models/Account.js] *)

Section LimitFacts.

Import Account.

Lemma reset_windows_within (now : Z) (a : Account.t) :
  Limits.within a ->
  Limits.within (Spec.reset_windows now a)
  /\ Limits.same_limits a (Spec.reset_windows now a).
Proof.
  destruct a as [num user type bal minb over rate lic act fr dl ml ta ma ltr lmr].
  unfold Limits.within, Limits.same_limits, Spec.reset_windows. account_cbv.
  intros (H1 & H2 & H3 & H4).
  destruct (_ <? _)%Z; account_cbv; destruct (_ <? _)%Z; account_cbv;
    repeat split; first [assumption | apply Qle_refl].
Qed.

Lemma first_violation_none_limits (amount : Q) (a : Account.t) :
  Spec.first_violation amount a = None ->
  (todayTransactionAmount a + amount <= dailyTransactionLimit a)%Q
  /\ (monthTransactionAmount a + amount <= monthlyTransactionLimit a)%Q.
Proof.
  unfold Spec.first_violation.
  destruct (Qle_bool (todayTransactionAmount a + amount) _) eqn:E1; [|discriminate].
  destruct (Qle_bool (monthTransactionAmount a + amount) _) eqn:E2; [|discriminate].
  intros _. split; now apply Qle_bool_iff.
Qed.

Lemma debited_within (now : Z) (amount : Q) (a : Account.t) :
  Limits.within a ->
  Spec.first_violation amount (Spec.reset_windows now a) = None ->
  Limits.within (Run.debited now amount a)
  /\ Limits.same_limits a (Run.debited now amount a).
Proof.
  intros Ha Hv. apply first_violation_none_limits in Hv.
  destruct (reset_windows_within now a Ha) as [Hw Hl].
  unfold Run.debited. revert Hv Hw Hl.
  generalize (Spec.reset_windows now a). intros b.
  destruct a as [num user type bal minb over rate lic act fr dl ml ta ma ltr lmr].
  destruct b as [num' user' type' bal' minb' over' rate' lic' act' fr' dl' ml' ta'
                   ma' ltr' lmr'].
  unfold Limits.within, Limits.same_limits. account_cbv.
  intros (H1 & H2) (H3 & H4 & H5 & H6) (H7 & H8). repeat split; assumption.
Qed.

Lemma credit_keeps_limits (amount : Q) (s : Doc Account.t * World) :
  todayTransactionAmount (this (accountSchema.credit amount s).1.1)
  = todayTransactionAmount (this s.1)
  /\ monthTransactionAmount (this (accountSchema.credit amount s).1.1)
     = monthTransactionAmount (this s.1)
  /\ lastTransactionReset (this (accountSchema.credit amount s).1.1)
     = lastTransactionReset (this s.1)
  /\ lastMonthlyReset (this (accountSchema.credit amount s).1.1)
     = lastMonthlyReset (this s.1)
  /\ Limits.same_limits (this s.1) (this (accountSchema.credit amount s).1.1).
Proof.
  destruct s as [d w]. rewrite credit_run. unfold Run.credit.
  destruct (Qle_bool amount 0); [now repeat split|].
  cbn [this].
  destruct (accountSchema.validate_balance _); [now repeat split|].
  destruct (Run.refused w); now repeat split.
Qed.

Lemma debit_keeps_limits (amount : Q) (s : Doc Account.t * World) :
  Limits.within (this s.1) ->
  Limits.within (this (accountSchema.debit amount s).1.1)
  /\ Limits.same_limits (this s.1) (this (accountSchema.debit amount s).1.1).
Proof.
  destruct s as [d w]. cbn [fst snd]. intros H. rewrite debit_run.
  unfold Run.debit.
  destruct (Qle_bool amount 0); [split; [exact H | now split]|].
  destruct (Spec.first_violation amount _) eqn:Hv.
  - cbn [fst snd Run.checked this]. now apply reset_windows_within.
  - pose proof (debited_within _ _ _ H Hv) as Hn.
    cbn [this]. destruct (accountSchema.validate_balance _); [exact Hn|].
    destruct (Run.refused w); exact Hn.
Qed.

Lemma perform_keeps_limits (op : Ledger.operation) (s : Doc Account.t * World) :
  Limits.within (this s.1) ->
  Limits.within (this (Ledger.perform op s).1.1)
  /\ Limits.same_limits (this s.1) (this (Ledger.perform op s).1.1).
Proof.
  intros H. destruct op; cbn [Ledger.perform Ledger.attempt fst].
  - destruct (credit_keeps_limits amount s) as (Ht & Hm & _ & _ & Hd & Hl).
    unfold Limits.within, Limits.same_limits in *.
    rewrite Ht, Hm, Hd, Hl. now repeat split.
  - now apply debit_keeps_limits.
  - destruct s as [d w]. split; [exact H | now split].
Qed.

Lemma negative_balance_invalid (a : Account.t) :
  (balance a < 0)%Q ->
  accountSchema.validate_balance a = Some "Balance cannot be negative".
Proof.
  intros H. unfold accountSchema.validate_balance.
  now replace (Qltb (balance a) 0) with true by (symmetry; now apply Qltb_lt).
Qed.

End LimitFacts.

(** The limit counters never pass the limits. On an account whose limits are
    not negative and whose daily and monthly counters are within them, every
    sequence of credits and debits, whatever each of them answers and
    whatever time passes in between, leaves the counters within the limits,
    and leaves the limits themselves as they were. *)
Theorem limit_counters_stay_within_limits (ops : list Ledger.operation)
    (s : Doc Account.t * World)
    (H : Limits.within (this s.1)) :
  Limits.within (this (Ledger.perform_all ops s).1)
  /\ Limits.same_limits (this s.1) (this (Ledger.perform_all ops s).1).
Proof.
  revert s H. induction ops as [|op ops IH]; intros s H.
  - split; [exact H | now split].
  - change (Ledger.perform_all (op :: ops) s)
      with (Ledger.perform_all ops (Ledger.perform op s).1).
    destruct (perform_keeps_limits op s H) as [Hw [Hd Hm]].
    destruct (IH _ Hw) as [Hw' [Hd' Hm']].
    split; [exact Hw'|]. split; congruence.
Qed.



(** What [availableBalance] reports cannot be debited in full from an account
    that has a positive minimum balance (savings) or a positive overdraft
    limit (current): the debit of that amount throws. *)
Theorem available_balance_cannot_be_debited (d : Doc Account.t) (w : World)
    (H : (0 < Limits.held_back (this d))%Q) :
  exists why,
    (accountSchema.debit (Account.availableBalance (this d)) (d, w)).2
    = Thrown why.
Proof.
  unfold Limits.held_back, Account.availableBalance in *.
  destruct (Account.accountType (this d)) eqn:Htype.
  - destruct (debit_below_floor_rejected (Account.balance (this d)) (d, w))
      as (why & Hthrown & _).
    + unfold Spec.balance_floor. cbn [fst this]. rewrite Htype. lra.
    + eauto.
  - rewrite debit_run. unfold Run.debit.
    destruct (Qle_bool _ 0); [eauto|].
    destruct (Spec.first_violation _ _) as [why|]; [eauto|].
    cbn [this]. rewrite negative_balance_invalid; [eauto|].
    destruct (debited_ledger (clock w)
                (Account.balance (this d) + Account.overdraftLimit (this d))
                (this d)) as [-> _].
    lra.
Qed.

(** Alice's savings account reports 5000 available with a minimum balance of
    1000. *)
Lemma available_balance_of_alice_refused :
  Account.availableBalance Sample.alice = 5000%Q
  /\ exists why,
       (accountSchema.debit 5000 (loaded_doc Sample.alice false, Sample.world)).2
       = Thrown why.
Proof.
  split; [reflexivity|].
  apply (available_balance_cannot_be_debited (loaded_doc Sample.alice false)
           Sample.world).
  vm_compute. reflexivity.
Defined.

(** The counters of Alice's account along the sample movements. *)
Lemma movements_stay_within_limits :
  let s := (loaded_doc Sample.alice false, Sample.world_before) in
  Limits.within (this s.1)
  /\ Limits.within (this (Ledger.perform_all Sample.movements s).1)
  /\ (Account.todayTransactionAmount
        (this (Ledger.perform_all Sample.movements s).1) == 1000)%Q
  /\ (Account.monthTransactionAmount
        (this (Ledger.perform_all Sample.movements s).1) == 4000)%Q.
Proof.
  cbv zeta.
  assert (H : Limits.within
                (this (loaded_doc Sample.alice false, Sample.world_before).1))
    by (vm_compute; repeat split; discriminate).
  split; [exact H|].
  split; [exact (proj1 (limit_counters_stay_within_limits Sample.movements _ H))|].
  split; vm_compute; reflexivity.
Defined.

(** * More of [models/Transaction.js] *)

(** [generateTransactionId] hands out an identifier that no record of the
    collection carries, built from one of the draws, and leaves the
    collections alone; it never throws, and it loops for ever only when the
    candidate of every draw is taken. *)
Theorem generated_transaction_id_is_unused (w : World) :
  match transactionSchema.generateTransactionId w with
  | (w', Returned id) =>
      transactions (committed w) !! id = None
      /\ (exists r, r ∈ random w /\ id = transactionSchema.candidate (clock w) r)
      /\ committed w' = committed w
      /\ uncommitted w' = uncommitted w
  | (_, Thrown _) => False
  | (_, Hangs) =>
      forall r, r ∈ random w ->
        is_Some (transactions (committed w) !! transactionSchema.candidate (clock w) r)
  end.
Proof.
  unfold transactionSchema.generateTransactionId.
  unfold bind, gets. cbn [fst snd]. rewrite generate_unique_run.
  unfold transactionSchema.taken.
  generalize (transactionSchema.candidate (clock w)). intros candidate.
  assert (Hall : forall draws,
             match first_unique candidate
                     (fun id => bool_decide (is_Some (transactions (committed w) !! id)))
                     draws with
             | (Some id, _) =>
                 transactions (committed w) !! id = None
                 /\ exists r, r ∈ draws /\ id = candidate r
             | (None, _) =>
                 forall r, r ∈ draws ->
                   is_Some (transactions (committed w) !! candidate r)
             end).
  { induction draws as [|r draws IH]; cbn [first_unique].
    - intros r Hr. now apply elem_of_nil in Hr.
    - destruct (bool_decide _) eqn:E.
      + apply bool_decide_eq_true in E.
        destruct (first_unique _ _ draws) as [[id|] rest].
        * destruct IH as (Hfree & r' & Hr' & ->).
          split; [exact Hfree|]. exists r'. split; [now right | reflexivity].
        * intros r' Hr'. apply elem_of_cons in Hr' as [->|Hr']; auto.
      + apply bool_decide_eq_false in E. split.
        * destruct (transactions (committed w) !! candidate r) eqn:E';
            [exfalso; apply E; eauto | reflexivity].
        * exists r. split; [now left | reflexivity]. }
  specialize (Hall (random w)).
  destruct (first_unique _ _ (random w)) as [[id|] rest]; cbn.
  - destruct Hall as [Hfree Hdraw]. now repeat split.
  - exact Hall.
Qed.

(** * More of [models/RecurringDeposit.js] *)

(** An installment the source account cannot pay. When the deposit is active,
    its source account exists and [canTransact] refuses the installment with
    its penalty, [processInstallment] never returns: it counts the failure on
    the deposit (one more in [failureCount], the payment date, the reason)
    and saves the deposit, then throws "Payment failed: " followed by the
    reason. The only write is that of the deposit document: no account, no
    transaction record and no installment record is touched. When the storage
    layer refuses that write, nothing is written at all. *)
Theorem refused_installment_counts_a_failure
    (arg : option Z) (d : Doc RecurringDeposit.t) (w : World) (a : Account.t)
    (Hactive : RecurringDeposit.status (this d) = RecurringDeposit.active)
    (Ha : accountSchema.findById (committed w) (RecurringDeposit.fromAccountId (this d)) = Some a)
    (Hrefused :
       accountSchema.allowed
         (Spec.canTransact (clock w)
            (Run.total (clock w) (default (clock w) arg) (this d)) a).2
       = false) :
  let why :=
    accountSchema.reason
      (Spec.canTransact (clock w)
         (Run.total (clock w) (default (clock w) arg) (this d)) a).2 in
  let r' :=
    RecurringDeposit.set_lastFailureReason why
      (RecurringDeposit.set_lastFailureDate (Some (default (clock w) arg))
         (RecurringDeposit.set_failureCount (RecurringDeposit.failureCount (RecurringDeposit.autoDebit (this d)) + 1) (this d))) in
  let after := recurringDepositSchema.processInstallment arg (d, w) in
  this after.1.1 = r'
  /\ if Run.refused w
     then after.2 = Thrown "storage write failed"
          /\ committed after.1.2 = committed w
          /\ uncommitted after.1.2 = uncommitted w
     else after.2 = Thrown ("Payment failed: " ++ default "" why)
          /\ committed after.1.2
             = (if session d then committed w
                else recurringDepositSchema.put r' (committed w))
          /\ uncommitted after.1.2
             = (if session d
                then recurringDepositSchema.put r' (uncommitted w)
                else uncommitted w).
Proof.
  destruct d as [r sess n p]. cbv [this session] in *. cbv zeta.
  set (paymentDate := default (clock w) arg) in *.
  remember (recurringDepositSchema.processInstallment arg
              (mkDoc r sess n p, w)) as after eqn:E.
  revert E.
  unfold recurringDepositSchema.processInstallment.
  unfold bind at 1. unfold new_Date at 1, gets at 1. cbv [fst snd].
  unfold bind at 1. unfold get_this at 1, gets at 1. cbv [fst snd this].
  fold paymentDate. rewrite Hactive.
  unfold bind at 1. unfold gets at 1. cbv [fst snd]. rewrite Ha.
  unfold bind at 1. rewrite isOverdue_run. cbv [this].
  fold (Run.penalty (clock w) paymentDate r).
  change (if Run.overdue (clock w) r
          then (RecurringDeposit.monthlyAmount r + Run.penalty (clock w) paymentDate r)%Q
          else RecurringDeposit.monthlyAmount r) with (Run.total (clock w) paymentDate r).
  unfold bind at 1. rewrite in_world_call_run, canTransact_run.
  cbv [fst snd loaded_doc this]. cbv [snd] in Hrefused. rewrite Hrefused.
  cbn [negb].
  rewrite !bind_assign. cbv [this session isNew modifiedPaths].
  unfold bind at 1. unfold recurringDepositSchema.save. rewrite persist_run.
  unfold Run.write. destruct (Run.refused w) eqn:Hw.
  - intros ->. cbv [fst snd this]. split; [reflexivity|]. now repeat split.
  - cbv [fst snd this session Run.saved]. unfold throw. intros ->.
    cbv [fst snd this]. split; [reflexivity|]. split; [reflexivity|].
    unfold Run.stored, Run.answered. destruct sess; split; reflexivity.
Qed.

Lemma installment_carol_cannot_pay_counts_a_failure :
  let s := (loaded_doc Sample.carols_deposit false, Sample.world_with Sample.carols_deposit) in
  let after := recurringDepositSchema.processInstallment None s in
  (exists why, after.2 = Thrown ("Payment failed: Insufficient balance" ++ why))
  /\ RecurringDeposit.failureCount (RecurringDeposit.autoDebit (this after.1.1)) = 1%Z
  /\ RecurringDeposit.lastFailureDate (RecurringDeposit.autoDebit (this after.1.1)) = Some Sample.today
  /\ accounts (committed after.1.2) = accounts (committed s.2)
  /\ transactions (committed after.1.2) = ∅
  /\ recurringDeposits (committed after.1.2) !! "2024000002"
     = Some (this after.1.1).
Proof.
  cbv zeta.
  assert (Ha : accountSchema.findById
                 (committed (Sample.world_with Sample.carols_deposit))
                 (RecurringDeposit.fromAccountId (this (loaded_doc Sample.carols_deposit false)))
               = Some Sample.carol) by (vm_compute; reflexivity).
  assert (Hr : accountSchema.allowed
         (Spec.canTransact (clock (Sample.world_with Sample.carols_deposit))
            (Run.total (clock (Sample.world_with Sample.carols_deposit))
               (default (clock (Sample.world_with Sample.carols_deposit)) None)
               (this (loaded_doc Sample.carols_deposit false))) Sample.carol).2
       = false) by (vm_compute; reflexivity).
  pose proof (refused_installment_counts_a_failure None
                (loaded_doc Sample.carols_deposit false)
                (Sample.world_with Sample.carols_deposit) Sample.carol
                eq_refl Ha Hr) as T.
  cbv zeta in T. destruct T as [Hthis T].
  change (Run.refused (Sample.world_with Sample.carols_deposit)) with false in T.
  destruct T as (Hout & Hc & Hu).
  split.
  { eexists. rewrite Hout. vm_compute. reflexivity. }
  split; [rewrite Hthis; reflexivity|].
  split; [rewrite Hthis; reflexivity|].
  split; [rewrite Hc; reflexivity|].
  split; [rewrite Hc; reflexivity|].
  rewrite Hc, Hthis. vm_compute. reflexivity.
Defined.

(** * The maturity amounts *)

Section MaturityAmount.

Local Open Scope Q_scope.

Lemma Math_round_le (x y : Q) : x <= y -> Math_round x <= Math_round y.
Proof.
  intros H. unfold Math_round. rewrite <- Zle_Qle.
  apply Qfloor_resp_le. lra.
Qed.

End MaturityAmount.

(** [calculateMaturityAmount] of a fixed deposit never promises less than the
    principal: for a principal and a rate that are not negative, the
    cumulative amount is at least the rounded principal, and a longer tenure
    never gives a lower amount. In the payout modes the amount is the
    principal whatever the tenure. *)
Theorem fd_maturity_amount_grows_with_the_tenure
    (principal rate : Q) (tenure longer : Z)
    (mode : FixedDeposit.interestPayoutMode_enum)
    (Hprincipal : (0 <= principal)%Q) (Hrate : (0 <= rate)%Q)
    (Htenure : (0 <= tenure <= longer)%Z) :
  (fixedDepositSchema.calculateMaturityAmount principal rate tenure mode
   <= fixedDepositSchema.calculateMaturityAmount principal rate longer mode)%Q
  /\ match mode with
     | FixedDeposit.cumulative =>
         (Math_round principal
          <= fixedDepositSchema.calculateMaturityAmount principal rate tenure
               mode)%Q
     | _ =>
         fixedDepositSchema.calculateMaturityAmount principal rate tenure mode
         = principal
     end.
Proof.
  assert (Hbase : (1 <= 1 + rate / (12 * 100))%Q).
  { assert (H : (0 <= rate / (12 * 100))%Q)
      by (apply Qle_shift_div_l; [reflexivity | lra]).
    lra. }
  unfold fixedDepositSchema.calculateMaturityAmount.
  destruct mode; try (split; [apply Qle_refl | reflexivity]).
  split; apply Math_round_le.
  - assert (H : (Math_pow (1 + rate / (12 * 100)) tenure
                 <= Math_pow (1 + rate / (12 * 100)) longer)%Q)
      by (apply Qpower_le_compat_l; [lia | exact Hbase]).
    nra.
  - assert (H : (1 <= Math_pow (1 + rate / (12 * 100)) tenure)%Q)
      by (apply Qpower_1_le; [exact Hbase | lia]).
    nra.
Qed.

(** 100000 at 7 percent: twelve months give no more than twenty-four. *)
Lemma fd_of_100000_over_one_and_two_years :
  (fixedDepositSchema.calculateMaturityAmount 100000 7 12 FixedDeposit.cumulative
   <= fixedDepositSchema.calculateMaturityAmount 100000 7 24
        FixedDeposit.cumulative)%Q.
Proof.
  destruct (fd_maturity_amount_grows_with_the_tenure 100000 7 12 24
              FixedDeposit.cumulative) as [H _];
    [discriminate | discriminate | lia |].
  exact H.
Defined.

(** * The installment schedule of [models/RDInstallment.js] *)

Section ScheduleFacts.

Import RDInstallment.

(** The installment that [createSchedule] builds [k] months after the
    first. *)
Lemma schedule_valid (id : string) (m : Q) (date i : Z) (n : nat) :
  omap rdInstallmentSchema.validate (rdInstallmentSchema.schedule id m date i n)
  = [] ->
  n <> O -> (1 <= i)%Z /\ (1 # 100 <= m)%Q.
Proof.
  destruct n as [|n]; [congruence|]. intros H _. revert H.
  cbn [rdInstallmentSchema.schedule omap list_omap].
  unfold rdInstallmentSchema.validate at 1.
  cbn [installmentNumber amount penaltyAmount totalAmount].
  destruct (i <? 1)%Z eqn:Hi; [discriminate|].
  destruct (Qltb m (1 # 100)) eqn:Hm; [discriminate|].
  intros _. split; [now apply Z.ltb_ge in Hi|].
  unfold Qltb in Hm. apply negb_false_iff in Hm. now apply Qle_bool_iff in Hm.
Qed.

Lemma schedule_inserted (id : string) (m : Q) (n : nat) :
  forall (date i : Z) (store store' : Store),
    rdInstallmentSchema.insert_in_order
      (rdInstallmentSchema.schedule id m date i n) store = (store', None) ->
    (forall k, (k < n)%nat ->
       installments store !! (id, (i + Z.of_nat k)%Z) = None
       /\ installments store' !! (id, (i + Z.of_nat k)%Z)
          = Some (mk id (i + Z.of_nat k) m 0 m
                     (Nat.iter k (fun t => Date.addMonths t 1) date)
                     None pending None))
    /\ (forall key,
          (forall k, (k < n)%nat -> key <> (id, (i + Z.of_nat k)%Z)) ->
          installments store' !! key = installments store !! key)
    /\ accounts store' = accounts store
    /\ transactions store' = transactions store
    /\ recurringDeposits store' = recurringDeposits store
    /\ fixedDeposits store' = fixedDeposits store.
Proof.
  induction n as [|n IH]; intros date i store store'.
  - cbn. intros [= <-]. split; [intros k Hk; lia|]. now repeat split.
  - cbn [rdInstallmentSchema.schedule rdInstallmentSchema.insert_in_order
         rdId installmentNumber].
    case_bool_decide as Htaken; [discriminate|].
    intros H. apply IH in H as (Hnew & Hframe & Ha & Ht & Hr & Hf).
    assert (Hfree : installments store !! (id, i) = None).
    { destruct (installments store !! (id, i)) eqn:E; [|reflexivity].
      exfalso. apply Htaken. eauto. }
    split; [|split].
    + intros [|k] Hk.
      * rewrite Z.add_0_r. split; [exact Hfree|].
        rewrite Hframe.
        -- unfold rdInstallmentSchema.put. cbn [installments rdId installmentNumber].
           apply lookup_insert_eq.
        -- intros k' _ [= E]. lia.
      * replace (i + Z.of_nat (S k))%Z with (i + 1 + Z.of_nat k)%Z by lia.
        destruct (Hnew k ltac:(lia)) as [Hnone Hsome]. split.
        -- revert Hnone. unfold rdInstallmentSchema.put.
           cbn [installments rdId installmentNumber].
           rewrite lookup_insert_ne; [tauto|]. intros [= E]. lia.
        -- rewrite Hsome. rewrite Nat.iter_succ_r. reflexivity.
    + intros key Hkey. rewrite Hframe.
      * unfold rdInstallmentSchema.put. cbn [installments rdId installmentNumber].
        apply lookup_insert_ne. intros <-. apply (Hkey O); [lia|].
        now rewrite Z.add_0_r.
      * intros k Hk. replace (i + 1 + Z.of_nat k)%Z with (i + Z.of_nat (S k))%Z by lia.
        apply Hkey. lia.
    + now rewrite Ha, Ht, Hr, Hf.
Qed.

End ScheduleFacts.

(** When [createSchedule] returns, the collection holds one pending
    installment for every number from 1 to the tenure, none of which it held
    before: each of the monthly amount with no penalty, unpaid, the first due
    on the start date and each next one a [setMonth] step after the one
    before. No other installment and no other collection has changed, and
    with a tenure of at least one month the monthly amount is at least
    0.01. *)
Theorem schedule_holds_every_installment_once
    (id : string) (monthlyAmount : Q) (startDate tenure : Z) (w w' : World)
    (docs : list RDInstallment.t)
    (H : rdInstallmentSchema.createSchedule id monthlyAmount startDate tenure w
         = (w', Returned docs)) :
  (forall n, (1 <= n <= tenure)%Z ->
     installments (committed w) !! (id, n) = None
     /\ installments (committed w') !! (id, n)
        = Some (RDInstallment.mk id n monthlyAmount 0 monthlyAmount
                  (Nat.iter (Z.to_nat (n - 1)) (fun t => Date.addMonths t 1)
                     startDate)
                  None RDInstallment.pending None))
  /\ (forall key, (key.1 <> id \/ ~ (1 <= key.2 <= tenure)%Z) ->
        installments (committed w') !! key = installments (committed w) !! key)
  /\ accounts (committed w') = accounts (committed w)
  /\ transactions (committed w') = transactions (committed w)
  /\ recurringDeposits (committed w') = recurringDeposits (committed w)
  /\ fixedDeposits (committed w') = fixedDeposits (committed w)
  /\ uncommitted w' = uncommitted w
  /\ ((1 <= tenure)%Z -> (1 # 100 <= monthlyAmount)%Q).
Proof.
  revert H. unfold rdInstallmentSchema.createSchedule,
    rdInstallmentSchema.insertMany.
  destruct (omap _ _) as [|message rest] eqn:Hvalid; [|discriminate].
  destruct (faults w) as [|[] rest] eqn:Hfaults; try discriminate.
  - cbv zeta.
    destruct (rdInstallmentSchema.insert_in_order _ _) as [store' [e|]] eqn:Hins;
      [discriminate|].
    cbn [fst snd]. intros [= <- <-].
    apply schedule_inserted in Hins
      as (Hnew & Hframe & Ha & Ht & Hr & Hf).
    cbn [committed uncommitted set_committed set_faults] in *.
    split; [|split; [|repeat (split; [assumption || reflexivity|])]].
    + intros n Hn.
      destruct (Hnew (Z.to_nat (n - 1)) ltac:(lia)) as [Hnone Hsome].
      replace (1 + Z.of_nat (Z.to_nat (n - 1)))%Z with n in * by lia.
      now split.
    + intros [kid kn]. cbn [fst snd]. intros Hkey. apply Hframe.
      intros k Hk [= -> ->]. destruct Hkey as [Hkey|Hkey]; [congruence|lia].
    + intros Htenure.
      eapply schedule_valid; [exact Hvalid | lia].
  - cbv zeta.
    destruct (rdInstallmentSchema.insert_in_order _ _) as [store' [e|]] eqn:Hins;
      [discriminate|].
    cbn [fst snd]. intros [= <- <-].
    apply schedule_inserted in Hins
      as (Hnew & Hframe & Ha & Ht & Hr & Hf).
    cbn [committed uncommitted set_committed set_faults] in *.
    split; [|split; [|repeat (split; [assumption || reflexivity|])]].
    + intros n Hn.
      destruct (Hnew (Z.to_nat (n - 1)) ltac:(lia)) as [Hnone Hsome].
      replace (1 + Z.of_nat (Z.to_nat (n - 1)))%Z with n in * by lia.
      now split.
    + intros [kid kn]. cbn [fst snd]. intros Hkey. apply Hframe.
      intros k Hk [= -> ->]. destruct Hkey as [Hkey|Hkey]; [congruence|lia].
    + intros Htenure.
      eapply schedule_valid; [exact Hvalid | lia].
Qed.

(** A schedule of twelve installments of 1000 from today: the twelfth is
    pending. *)
Lemma schedule_of_twelve_installments :
  let after :=
    rdInstallmentSchema.createSchedule "2024000001" 1000 Sample.today 12
      Sample.world in
  RDInstallment.status <$> (installments (committed after.1) !! ("2024000001", 12%Z))
  = Some RDInstallment.pending
  /\ accounts (committed after.1) = accounts (committed Sample.world).
Proof.
  cbv zeta.
  destruct (rdInstallmentSchema.createSchedule "2024000001" 1000 Sample.today 12
              Sample.world) as [w' [docs|e|]] eqn:H;
    [|vm_compute in H; discriminate|vm_compute in H; discriminate].
  destruct (schedule_holds_every_installment_once _ _ _ _ _ _ _ H)
    as (Hnew & _ & Haccounts & _).
  destruct (Hnew 12%Z ltac:(lia)) as [_ Hlast].
  cbn [fst]. rewrite Hlast. split; [reflexivity | exact Haccounts].
Defined.

(** * Records that are never saved

    [new Transaction({...})] sets no [transactionId]; the path is required,
    and only the pre-save hook would fill it. The validators run first, so
    the save of every new record is rejected, the hook never runs, and
    nothing is written. *)

Section NewRecords.

Import Transaction.

(** A record without an identifier does not pass the validators. *)
Lemma validate_unidentified (x : Transaction.t) :
  transactionId x = "" ->
  exists errors,
    transactionSchema.validate x
    = "transactionId: Path `transactionId` is required." :: errors.
Proof.
  intros H. unfold transactionSchema.validate. rewrite H.
  cbn [bool_decide decide_rel app]. eexists. reflexivity.
Qed.

(** [save()] of a record without an identifier throws before the hook runs,
    and the document and the world are as they were. *)
Lemma save_unidentified (d : Doc Transaction.t) (w : World) :
  transactionId (this d) = "" ->
  transactionSchema.save (d, w)
  = ((d, w),
     Thrown (validation_failed "Transaction"
               (transactionSchema.validate (this d)))).
Proof.
  intros H. destruct (validate_unidentified _ H) as [errors E].
  unfold transactionSchema.save.
  unfold bind at 1. unfold get_this at 1, gets at 1. cbn [fst snd].
  rewrite E. reflexivity.
Qed.

Lemma save_in_session_unidentified (d : Doc Transaction.t) (w : World) :
  transactionId (this d) = "" ->
  exists d',
    transactionSchema.save_in_session (d, w)
    = ((d', w),
       Thrown (validation_failed "Transaction"
                 (transactionSchema.validate (this d)))).
Proof.
  intros H. unfold transactionSchema.save_in_session.
  unfold bind at 1. unfold bind_session at 1, modify at 1.
  cbn [fst snd]. eexists.
  rewrite save_unidentified by exact H. reflexivity.
Qed.

Lemma call_save_new (x : Transaction.t) (paths : list string) (w : World) :
  transactionId x = "" ->
  call (new_doc x paths) transactionSchema.save w
  = (w, Thrown (validation_failed "Transaction" (transactionSchema.validate x))).
Proof.
  intros H. unfold call. rewrite save_unidentified by exact H. reflexivity.
Qed.

Lemma call_save_in_session_new (x : Transaction.t) (paths : list string)
    (w : World) :
  transactionId x = "" ->
  call (new_doc x paths) transactionSchema.save_in_session w
  = (w, Thrown (validation_failed "Transaction" (transactionSchema.validate x))).
Proof.
  intros H. unfold call.
  destruct (save_in_session_unidentified (new_doc x paths) w H) as [d' E].
  rewrite E. reflexivity.
Qed.

End NewRecords.

Lemma session_view_started (w : World) :
  session_view (set_uncommitted empty_store w) = committed w.
Proof.
  unfold session_view, overlay. destruct w as [[a t r i f] u c fl rn]. cbn.
  now rewrite !(left_id_L ∅ (∪)).
Qed.

Lemma call_canTransact (amount : Q) (d : Doc Account.t) (w : World) :
  call d (accountSchema.canTransact amount) w
  = (w, Returned (Run.checked (clock w) d,
                  (Spec.canTransact (clock w) amount (this d)).2)).
Proof. unfold call. rewrite canTransact_run. reflexivity. Qed.

(** * [transferMoney], [depositMoney] and [withdrawMoney] *)

Section Requests.

Import transactionController.

(** Every branch of [transferMoney] ends in an answer other than 200, with
    the session transaction aborted; a request that passes every check is
    answered by the outer [catch]. *)
Lemma transferMoney_outcome (req : transfer_request) (w : World) :
  exists resp,
    transferMoney req w = (set_uncommitted empty_store w, Returned resp)
    /\ statusCode resp <> 200%Z
    /\ success resp = false
    /\ data resp = None
    /\ (validation_passed req = true ->
        Qle_bool (amount req) 0 = false ->
        forall source destination,
          accountSchema.findOne (committed w) (fromAccountNumber req)
            (userId req) = Some source ->
          is_frozen source = false ->
          accountSchema.findByAccountNumber (committed w) (toAccountNumber req)
          = Some destination ->
          negb (Account.isActive destination) || is_frozen destination = false ->
          fromAccountNumber req <> toAccountNumber req ->
          accountSchema.allowed
            (Spec.canTransact (clock w) (amount req) source).2 = true ->
          resp = reject 500 "Transfer failed. Please try again.").
Proof.
  unfold transferMoney, try_catch.
  unfold bind at 1. unfold startTransaction at 1, modify at 1.
  destruct (validation_passed req).
  2:{ cbn. eexists. split; [reflexivity|]. cbn. repeat split; discriminate. }
  cbn [negb].
  destruct (Qle_bool (amount req) 0).
  { cbn. eexists. split; [reflexivity|]. cbn. repeat split; discriminate. }
  unfold bind at 1. unfold gets at 1.
  rewrite session_view_started.
  destruct (accountSchema.findOne _ _ _) as [source|].
  2:{ cbn. eexists. split; [reflexivity|]. cbn. repeat split; discriminate. }
  destruct (is_frozen source) eqn:Hfrozen.
  { eexists. split; [cbn; reflexivity|].
    split; [cbn; discriminate|]. split; [reflexivity|]. split; [reflexivity|].
    intros _ _ source' destination [= <-] H. congruence. }
  unfold bind at 1. unfold gets at 1.
  change (committed (set_uncommitted empty_store w)) with (committed w).
  destruct (accountSchema.findByAccountNumber _ _) as [destination|].
  2:{ cbn. eexists. split; [reflexivity|]. cbn. repeat split; discriminate. }
  destruct (negb (Account.isActive destination) || is_frozen destination)
    eqn:Hdestination.
  { eexists. split; [cbn; reflexivity|].
    split; [cbn; discriminate|]. split; [reflexivity|]. split; [reflexivity|].
    intros _ _ source' destination' [= <-] _ [= <-] H. congruence. }
  destruct (bool_decide (fromAccountNumber req = toAccountNumber req)) eqn:Hsame.
  { eexists. split; [cbn; reflexivity|].
    split; [cbn; discriminate|]. split; [reflexivity|]. split; [reflexivity|].
    intros _ _ source' destination' _ _ _ _ H.
    apply bool_decide_eq_true in Hsame. contradiction. }
  unfold bind at 1. rewrite call_canTransact. cbn [fst snd].
  change (clock (set_uncommitted empty_store w)) with (clock w).
  change (this (loaded_doc source true)) with source.
  destruct (accountSchema.allowed _) eqn:Hallowed; cbn [negb].
  2:{ eexists. split; [cbn; reflexivity|].
      split; [cbn; discriminate|]. split; [reflexivity|]. split; [reflexivity|].
      intros _ _ source' destination' [= <-] _ _ _ _ H.
      rewrite H in Hallowed. discriminate. }
  unfold bind at 1. rewrite call_save_in_session_new by reflexivity.
  eexists. split; [cbn; reflexivity|].
  split; [cbn; discriminate|]. repeat split; reflexivity.
Qed.

End Requests.



(** C2. No transfer is ever completed. Whatever the request and the state of
    the database, [transferMoney] answers, and never with 200: its answer
    reports no success and carries no data, the committed database is as it
    was before the request, and no uncommitted write is left. No balance is
    moved and no record with the status [completed] is written. (A request
    that passes every check is answered 500, see C1: the save of the pending
    record is rejected for its missing [transactionId].) *)
Theorem no_transfer_is_ever_completed
    (req : transactionController.transfer_request) (w : World) :
  exists resp,
    (transactionController.transferMoney req w).2 = Returned resp
    /\ transactionController.statusCode resp <> 200%Z
    /\ transactionController.success resp = false
    /\ transactionController.data resp = None
    /\ committed (transactionController.transferMoney req w).1 = committed w
    /\ uncommitted (transactionController.transferMoney req w).1 = empty_store.
Proof.
  destruct (transferMoney_outcome req w) as (resp & -> & Hcode & Hno & Hdata & _).
  exists resp. now repeat split.
Qed.

(** Alice sends 200 to Bob; both accounts are active and the amount is well
    within every limit. The answer is 500, Alice still holds 5000 and Bob
    100, and there is no record. *)
Lemma transfer_to_bob_is_not_completed :
  let after := transactionController.transferMoney Sample.to_bob Sample.world in
  after.2
  = Returned (transactionController.reject 500
                "Transfer failed. Please try again.")
  /\ Account.balance <$> accounts (committed after.1) !! "1000000001"
     = Some 5000%Q
  /\ Account.balance <$> accounts (committed after.1) !! "2000000002"
     = Some 100%Q
  /\ transactions (committed after.1) = ∅.
Proof.
  cbv zeta.
  destruct (no_transfer_is_ever_completed Sample.to_bob Sample.world)
    as (resp & Hout & _ & _ & _ & Hcommitted & _).
  rewrite Hcommitted.
  split; [|repeat split; reflexivity].
  vm_compute. reflexivity.
Defined.

(** No deposit is ever completed. Whatever the request and the state of the
    database, [depositMoney] answers, never with 200, and leaves the
    committed database as it was, with no uncommitted write; a valid request
    of a positive amount on an account of the user that is active and not
    frozen is answered 500 "Deposit failed. Please try again.", because the
    save of its pending record is rejected. *)
Theorem no_deposit_is_ever_completed
    (req : transactionController.cash_request) (w : World) :
  exists resp,
    (transactionController.depositMoney req w).2 = Returned resp
    /\ transactionController.cash_statusCode resp <> 200%Z
    /\ transactionController.cash_success resp = false
    /\ committed (transactionController.depositMoney req w).1 = committed w
    /\ uncommitted (transactionController.depositMoney req w).1 = empty_store
    /\ (transactionController.cash_validation_passed req = true ->
        Qle_bool (transactionController.cash_amount req) 0 = false ->
        forall found,
          accountSchema.findOne (committed w)
            (transactionController.cash_accountNumber req)
            (transactionController.cash_userId req) = Some found ->
          transactionController.is_frozen found = false ->
          resp = transactionController.refuse 500
                   "Deposit failed. Please try again.").
Proof.
  assert (H : exists resp,
    transactionController.depositMoney req w = (set_uncommitted empty_store w, Returned resp)
    /\ transactionController.cash_statusCode resp <> 200%Z
    /\ transactionController.cash_success resp = false
    /\ (transactionController.cash_validation_passed req = true ->
        Qle_bool (transactionController.cash_amount req) 0 = false ->
        forall found,
          accountSchema.findOne (committed w) (transactionController.cash_accountNumber req)
            (transactionController.cash_userId req) = Some found ->
          transactionController.is_frozen found = false ->
          resp = transactionController.refuse 500 "Deposit failed. Please try again.")).
  { unfold transactionController.depositMoney, try_catch.
    unfold bind at 1. unfold startTransaction at 1, modify at 1.
    destruct (transactionController.cash_validation_passed req).
    2:{ cbn. eexists. split; [reflexivity|]. cbn. repeat split; discriminate. }
    cbn [negb].
    destruct (Qle_bool (transactionController.cash_amount req) 0).
    { cbn. eexists. split; [reflexivity|]. cbn. repeat split; discriminate. }
    unfold bind at 1. unfold gets at 1.
    rewrite session_view_started.
    destruct (accountSchema.findOne _ _ _) as [found|].
    2:{ cbn. eexists. split; [reflexivity|]. cbn. repeat split; discriminate. }
    destruct (transactionController.is_frozen found) eqn:Hfrozen.
    { cbn. eexists. split; [reflexivity|]. cbn. repeat split; try discriminate.
      intros _ _ found' [= <-]. congruence. }
    unfold bind at 1. rewrite call_save_in_session_new by reflexivity.
    cbn. eexists. split; [reflexivity|]. cbn. repeat split; discriminate. }
  destruct H as (resp & -> & Hcode & Hno & Hresp).
  exists resp. now repeat split.
Qed.

(** Alice pays in 300: she is answered 500 and still holds 5000. *)
Lemma deposit_of_alice_is_not_completed :
  let after := transactionController.depositMoney Sample.pay_in Sample.world in
  after.2
  = Returned (transactionController.refuse 500
                "Deposit failed. Please try again.")
  /\ Account.balance <$> accounts (committed after.1) !! "1000000001"
     = Some 5000%Q
  /\ transactions (committed after.1) = ∅.
Proof.
  cbv zeta.
  destruct (no_deposit_is_ever_completed Sample.pay_in Sample.world)
    as (resp & Hout & _ & _ & Hcommitted & _ & Hresp).
  assert (Hfound :
    accountSchema.findOne (committed Sample.world)
      (transactionController.cash_accountNumber Sample.pay_in)
      (transactionController.cash_userId Sample.pay_in) = Some Sample.alice)
    by (vm_compute; reflexivity).
  rewrite Hout, Hcommitted,
    (Hresp eq_refl eq_refl Sample.alice Hfound eq_refl).
  repeat split; reflexivity.
Defined.



(** * [fail], [complete] and [reverse] *)

Section StoredRecords.

Import Transaction.

Lemma pre_save_stored (d : Doc Transaction.t) (w : World) :
  isNew d = false -> transactionSchema.pre_save (d, w) = ((d, w), Returned tt).
Proof.
  intros H. unfold transactionSchema.pre_save.
  unfold bind at 1. unfold self at 1, gets at 1. cbn [fst snd].
  now rewrite H.
Qed.

(** [save()] of a stored record that passes the validators is the write. *)
Lemma save_stored (d : Doc Transaction.t) (w : World) :
  isNew d = false ->
  transactionSchema.validate (this d) = [] ->
  transactionSchema.save (d, w) = Run.write transactionSchema.put d w.
Proof.
  intros Hnew Hvalid. unfold transactionSchema.save.
  unfold bind at 1. unfold get_this at 1, gets at 1. cbn [fst snd].
  rewrite Hvalid.
  unfold bind at 1. rewrite pre_save_stored by exact Hnew.
  apply persist_run.
Qed.

(** The record [fail] and [complete] leave in memory. *)
Lemma fail_run (why : string) (d : Doc Transaction.t) (w : World) :
  transactionSchema.fail why (d, w)
  = transactionSchema.save
      (mkDoc (set_failureReason (Some why)
                (set_processedAt (Some (clock w)) (set_status failed (this d))))
             (session d) (isNew d)
             ("failureReason" :: "processedAt" :: "status" :: modifiedPaths d),
       w).
Proof. unfold transactionSchema.fail. run_monad. reflexivity. Qed.

Lemma complete_run (fromBalance toBalance : option Q) (d : Doc Transaction.t)
    (w : World) :
  transactionSchema.complete fromBalance toBalance (d, w)
  = transactionSchema.save
      (mkDoc (Run.completed (clock w) fromBalance toBalance (this d))
             (session d) (isNew d)
             (Run.completed_paths fromBalance toBalance ++ modifiedPaths d),
       w).
Proof.
  unfold transactionSchema.complete, Run.completed, Run.completed_paths.
  run_monad. destruct fromBalance, toBalance; run_monad; reflexivity.
Qed.

Lemma validate_failed (why : string) (t : Z) (x : Transaction.t) :
  (String.length why <= 200)%nat ->
  transactionSchema.validate x = [] ->
  transactionSchema.validate
    (set_failureReason (Some why) (set_processedAt (Some t) (set_status failed x)))
  = [].
Proof.
  intros Hshort. unfold transactionSchema.validate.
  cbn [transactionId amount description fees failureReason set_failureReason
       set_processedAt set_status].
  change (default "" (Some why)) with why.
  replace (200 <? String.length why)%nat with false
    by (symmetry; apply Nat.ltb_ge; exact Hshort).
  destruct (bool_decide (transactionId x = "")); [discriminate|].
  destruct (Qltb (amount x) (1 # 100)); [discriminate|].
  destruct (bool_decide (description x = "")); [discriminate|].
  destruct (500 <? String.length (description x))%nat; [discriminate|].
  destruct (Qltb (transactionFee (fees x)) 0); [discriminate|].
  destruct (Qltb (gst (fees x)) 0); [discriminate|].
  destruct (Qltb (totalFees (fees x)) 0); [discriminate|].
  reflexivity.
Qed.

Lemma validate_completed (t : Z) (fromBalance toBalance : option Q)
    (x : Transaction.t) :
  transactionSchema.validate (Run.completed t fromBalance toBalance x)
  = transactionSchema.validate x.
Proof. destruct fromBalance, toBalance; reflexivity. Qed.

Lemma stored_transaction_lookup (b : bool) (x : Transaction.t) (w : World) :
  transactions
    (if b then uncommitted (Run.stored b (transactionSchema.put x) w)
     else committed (Run.stored b (transactionSchema.put x) w))
  !! transactionId x = Some x.
Proof.
  unfold Run.stored, Run.answered, transactionSchema.put.
  destruct b; world_cbn; cbn [transactions]; apply lookup_insert_eq.
Qed.

End StoredRecords.

(** C5. [fail(reason)] and [complete(...)] carry no check of the current
    status. On a stored record in any status, also a terminal one
    ([completed], [failed], [reversed]), they go through whenever the save
    does (the record passes its validators, the reason has at most 200
    characters, storage accepts the write). [fail] then has set the status to
    [failed], stamped [processedAt] and stored the reason; [complete] has set
    the status to [completed], stamped [processedAt] and stored each balance
    snapshot that was given, leaving the other as it was; the stored record
    is the one in memory. The sibling [reverse] does guard the status: on a
    record that is not [completed] it throws "Can only reverse completed
    transactions" and changes nothing. *)
Theorem fail_and_complete_overwrite_any_status
    (x : Transaction.t) (in_session : bool) (w : World) (why : string)
    (fromBalance toBalance : option Q)
    (Hvalid : transactionSchema.validate x = [])
    (Hshort : (String.length why <= 200)%nat)
    (Hstorage : Run.refused w = false) :
  let failed := transactionSchema.fail why (loaded_doc x in_session, w) in
  let completed :=
    transactionSchema.complete fromBalance toBalance (loaded_doc x in_session, w) in
  let reversed := transactionSchema.reverse why (loaded_doc x in_session, w) in
  (failed.2 = Returned tt
   /\ Transaction.status (this failed.1.1) = Transaction.failed
   /\ Transaction.processedAt (this failed.1.1) = Some (clock w)
   /\ Transaction.failureReason (this failed.1.1) = Some why
   /\ transactions (if in_session then uncommitted failed.1.2
                    else committed failed.1.2)
      !! Transaction.transactionId x = Some (this failed.1.1))
  /\ (completed.2 = Returned tt
      /\ Transaction.status (this completed.1.1) = Transaction.completed
      /\ Transaction.processedAt (this completed.1.1) = Some (clock w)
      /\ Transaction.fromAccountBalance (Transaction.balances (this completed.1.1))
         = match fromBalance with
           | Some b => Some b
           | None => Transaction.fromAccountBalance (Transaction.balances x)
           end
      /\ Transaction.toAccountBalance (Transaction.balances (this completed.1.1))
         = match toBalance with
           | Some b => Some b
           | None => Transaction.toAccountBalance (Transaction.balances x)
           end
      /\ transactions (if in_session then uncommitted completed.1.2
                       else committed completed.1.2)
         !! Transaction.transactionId x = Some (this completed.1.1))
  /\ (Transaction.status x <> Transaction.completed ->
      reversed = ((loaded_doc x in_session, w),
                  Thrown "Can only reverse completed transactions")).
Proof.
  cbv zeta. rewrite fail_run, complete_run.
  unfold loaded_doc. cbn [this session isNew modifiedPaths].
  rewrite !save_stored
    by (cbn [this isNew];
        first [reflexivity
              | apply validate_failed; assumption
              | rewrite validate_completed; assumption]).
  unfold Run.write. rewrite Hstorage.
  cbn [fst snd Run.saved this session].
  split; [|split].
  - repeat split.
    apply (stored_transaction_lookup in_session
             (Transaction.set_failureReason (Some why)
                (Transaction.set_processedAt (Some (clock w))
                   (Transaction.set_status Transaction.failed x)))).
  - split; [reflexivity|].
    split; [destruct fromBalance, toBalance; reflexivity|].
    split; [destruct fromBalance, toBalance; reflexivity|].
    split; [destruct fromBalance, toBalance; reflexivity|].
    split; [destruct fromBalance, toBalance; reflexivity|].
    pose proof (stored_transaction_lookup in_session
                  (Run.completed (clock w) fromBalance toBalance x) w) as H.
    replace (Transaction.transactionId
               (Run.completed (clock w) fromBalance toBalance x))
      with (Transaction.transactionId x) in H
      by (destruct fromBalance, toBalance; reflexivity).
    exact H.
  - intros Hstatus. unfold transactionSchema.reverse.
    unfold bind at 1. unfold get_this at 1, gets at 1. cbn [fst snd this].
    destruct (Transaction.status x); try reflexivity.
    now contradiction Hstatus.
Qed.

(** A terminal status does not stop [fail]. The record of the transfer that
    completed yesterday is failed today: [fail] returns, and the stored
    record has the status [failed] and the reason. *)
Lemma fail_accepted_on_completed_record :
  let before := (loaded_doc Sample.settled false, Sample.world_settled) in
  let failed := transactionSchema.fail "late complaint" before in
  Transaction.status Sample.settled = Transaction.completed
  /\ failed.2 = Returned tt
  /\ Transaction.status <$> transactions (committed failed.1.2) !! "TXN20240614000001"
     = Some Transaction.failed
  /\ Transaction.failureReason
     <$> transactions (committed failed.1.2) !! "TXN20240614000001"
     = Some (Some "late complaint").
Proof.
  cbv zeta.
  assert (Hshort : (String.length "late complaint" <= 200)%nat)
    by (cbn; lia).
  destruct (fail_and_complete_overwrite_any_status Sample.settled false
              Sample.world_settled "late complaint" None None
              eq_refl Hshort eq_refl)
    as ((Hout & Hstatus & _ & Hreason & Hstored) & _).
  split; [reflexivity|]. split; [exact Hout|].
  change (Transaction.transactionId Sample.settled)
    with "TXN20240614000001" in Hstored.
  rewrite Hstored. cbn [fmap option_fmap option_map].
  now rewrite Hstatus, Hreason.
Defined.

(** [reverse] never records a reversal. On a record that is not [completed]
    it throws "Can only reverse completed transactions"; on a completed one
    it builds the reversal record, whose save is rejected for its missing
    [transactionId]. Either way it throws, the original keeps its status,
    and nothing is written. *)
Theorem reverse_is_never_recorded
    (reason : string) (d : Doc Transaction.t) (w : World) :
  exists why,
    transactionSchema.reverse reason (d, w) = ((d, w), Thrown why)
    /\ match Transaction.status (this d) with
       | Transaction.completed =>
           exists errors,
             why = validation_failed "Transaction"
                     ("transactionId: Path `transactionId` is required."
                      :: errors)
       | _ => why = "Can only reverse completed transactions"
       end.
Proof.
  unfold transactionSchema.reverse.
  unfold bind at 1. unfold get_this at 1, gets at 1. cbn [fst snd].
  destruct (Transaction.status (this d)) eqn:Hstatus;
    try (eexists; split; reflexivity).
  unfold bind at 1. unfold new_Date at 1, gets at 1. cbn [fst snd].
  unfold bind at 1. rewrite in_world_call_run.
  rewrite save_unidentified by reflexivity.
  eexists. split; [reflexivity|].
  match goal with
  | |- context [transactionSchema.validate ?x] =>
      destruct (validate_unidentified x eq_refl) as [errors ->]
  end.
  now exists errors.
Qed.

(** Yesterday's transfer cannot be reversed. *)
Lemma settled_transfer_is_not_reversed :
  transactionSchema.reverse "sent twice"
    (loaded_doc Sample.settled false, Sample.world_settled)
  = ((loaded_doc Sample.settled false, Sample.world_settled),
     Thrown "Transaction validation failed: transactionId: Path `transactionId` is required.").
Proof.
  destruct (reverse_is_never_recorded "sent twice"
              (loaded_doc Sample.settled false) Sample.world_settled)
    as (why & E & _).
  rewrite E.
  assert (E' : (transactionSchema.reverse "sent twice"
                  (loaded_doc Sample.settled false, Sample.world_settled)).2
               = Thrown "Transaction validation failed: transactionId: Path `transactionId` is required.")
    by (vm_compute; reflexivity).
  rewrite E in E'. cbn [snd] in E'. now rewrite E'.
Defined.

(** * Installments of a recurring deposit *)

Section Installments.

Import RecurringDeposit.

Variables (arg : option Z) (d : Doc RecurringDeposit.t) (w : World).

Let r := this d.
Let paymentDate := default (clock w) arg.
Let tot := Run.total (clock w) paymentDate r.

Lemma processInstallment_inactive :
  status r <> active ->
  recurringDepositSchema.processInstallment arg (d, w)
  = ((d, w), Thrown "RD is not active").
Proof.
  intros H. unfold recurringDepositSchema.processInstallment.
  unfold bind at 1. unfold new_Date at 1, gets at 1. cbv [fst snd].
  unfold bind at 1. unfold get_this at 1, gets at 1. cbv [fst snd].
  fold r. destruct (status r); [contradiction| | |]; reflexivity.
Qed.

Lemma processInstallment_no_account :
  status r = active ->
  accountSchema.findById (committed w) (fromAccountId r) = None ->
  recurringDepositSchema.processInstallment arg (d, w)
  = ((d, w), Thrown "Source account not found").
Proof.
  intros H Ha. unfold recurringDepositSchema.processInstallment.
  unfold bind at 1. unfold new_Date at 1, gets at 1. cbv [fst snd].
  unfold bind at 1. unfold get_this at 1, gets at 1. cbv [fst snd].
  fold r. rewrite H.
  unfold bind at 1. unfold gets at 1. cbv [fst snd]. rewrite Ha. reflexivity.
Qed.

(** The refusal of [canTransact]: the failure is counted on the deposit,
    which is saved, and the call throws. *)
Lemma processInstallment_refused (a : Account.t) :
  status r = active ->
  accountSchema.findById (committed w) (fromAccountId r) = Some a ->
  accountSchema.allowed (Spec.canTransact (clock w) tot a).2 = false ->
  let why := accountSchema.reason (Spec.canTransact (clock w) tot a).2 in
  let r' :=
    set_lastFailureReason why
      (set_lastFailureDate (Some paymentDate)
         (set_failureCount (failureCount (autoDebit r) + 1) r)) in
  let d' :=
    mkDoc r' (session d) (isNew d)
      ("autoDebit.lastFailureReason" :: "autoDebit.lastFailureDate"
       :: "autoDebit.failureCount" :: modifiedPaths d) in
  recurringDepositSchema.processInstallment arg (d, w)
  = if Run.refused w
    then ((d', Run.answered w), Thrown "storage write failed")
    else ((Run.saved d', Run.stored (session d) (recurringDepositSchema.put r') w),
          Thrown ("Payment failed: " ++ default "" why)).
Proof.
  intros Hactive Ha Hrefused. cbv zeta.
  unfold recurringDepositSchema.processInstallment.
  unfold bind at 1. unfold new_Date at 1, gets at 1. cbv [fst snd].
  unfold bind at 1. unfold get_this at 1, gets at 1. cbv [fst snd].
  fold r. fold paymentDate. rewrite Hactive.
  unfold bind at 1. unfold gets at 1. cbv [fst snd]. rewrite Ha.
  unfold bind at 1. rewrite isOverdue_run. fold r.
  fold (Run.penalty (clock w) paymentDate r).
  change (if Run.overdue (clock w) r
          then (monthlyAmount r + Run.penalty (clock w) paymentDate r)%Q
          else monthlyAmount r) with tot.
  unfold bind at 1. rewrite in_world_call_run, canTransact_run.
  cbv [fst snd loaded_doc this]. cbv [snd] in Hrefused. rewrite Hrefused.
  cbn [negb].
  rewrite !bind_assign. fold r.
  unfold bind at 1. unfold recurringDepositSchema.save. rewrite persist_run.
  unfold Run.write. destruct (Run.refused w); reflexivity.
Qed.

(** The other branch: the account is debited, and the call stops at the
    record of the payment, which is never saved. *)
Lemma processInstallment_allowed (a : Account.t) :
  status r = active ->
  accountSchema.findById (committed w) (fromAccountId r) = Some a ->
  accountSchema.allowed (Spec.canTransact (clock w) tot a).2 = true ->
  exists why,
    recurringDepositSchema.processInstallment arg (d, w)
    = ((d, (Run.debit tot (Run.checked (clock w) (loaded_doc a false)) w).1.2),
       Thrown match (Run.debit tot (Run.checked (clock w) (loaded_doc a false)) w).2
              with
              | Thrown e => e
              | _ => why
              end).
Proof.
  intros Hactive Ha Hallowed.
  unfold recurringDepositSchema.processInstallment.
  unfold bind at 1. unfold new_Date at 1, gets at 1. cbv [fst snd].
  unfold bind at 1. unfold get_this at 1, gets at 1. cbv [fst snd].
  fold r. fold paymentDate. rewrite Hactive.
  unfold bind at 1. unfold gets at 1. cbv [fst snd]. rewrite Ha.
  unfold bind at 1. rewrite isOverdue_run. fold r.
  fold (Run.penalty (clock w) paymentDate r).
  change (if Run.overdue (clock w) r
          then (monthlyAmount r + Run.penalty (clock w) paymentDate r)%Q
          else monthlyAmount r) with tot.
  unfold bind at 1. rewrite in_world_call_run, canTransact_run.
  cbv [fst snd]. change (this (loaded_doc a false)) with a.
  cbv [snd] in Hallowed. rewrite Hallowed. cbn [negb].
  unfold bind at 1. rewrite in_world_call_run, debit_run.
  destruct (Run.debit tot (Run.checked (clock w) (loaded_doc a false)) w)
    as [[d1 w1] [m|e|]] eqn:Hdebit.
  - unfold bind at 1. rewrite in_world_call_run.
    rewrite save_unidentified by reflexivity.
    eexists. reflexivity.
  - exists "". reflexivity.
  - exfalso. revert Hdebit. unfold Run.debit.
    destruct (Qle_bool tot 0); [discriminate|].
    destruct (Spec.first_violation _ _); [discriminate|].
    destruct (accountSchema.validate_balance _); [discriminate|].
    destruct (Run.refused w); discriminate.
Qed.

End Installments.

(** A debit writes an account, or nothing. *)
Lemma debit_frame (amount : Q) (d : Doc Account.t) (w : World) :
  let w' := (Run.debit amount d w).1.2 in
  transactions (committed w') = transactions (committed w)
  /\ recurringDeposits (committed w') = recurringDeposits (committed w)
  /\ installments (committed w') = installments (committed w)
  /\ fixedDeposits (committed w') = fixedDeposits (committed w).
Proof.
  cbv zeta. unfold Run.debit.
  destruct (Qle_bool amount 0); [now repeat split|].
  destruct (Spec.first_violation _ _); [now repeat split|].
  destruct (accountSchema.validate_balance _); [now repeat split|].
  destruct (Run.refused w); [now repeat split|].
  unfold Run.stored, Run.answered. cbn [fst snd session].
  destruct (session d); now repeat split.
Qed.


(** C6. No installment is ever counted, so no deposit ever matures.
    [processInstallment] never returns: it throws for a deposit that is not
    active, for a missing account and for a payment [canTransact] refuses,
    and a payment that is allowed stops right after the debit, at the record
    of the payment, whose save is rejected for its missing [transactionId].
    In every case the deposit in memory keeps its status, its count of
    installments paid, its total deposited and its maturity details; no
    transaction record and no installment record is written; and what is
    stored of the deposit is what was stored before, or the receiver with
    its failure counted. The last installment therefore does not mature the
    deposit: [processMaturity] is not reached, nothing is credited, and the
    account keeps the debit. *)
Theorem installment_is_never_counted
    (arg : option Z) (d : Doc RecurringDeposit.t) (w : World) :
  let after := recurringDepositSchema.processInstallment arg (d, w) in
  (exists why, after.2 = Thrown why)
  /\ RecurringDeposit.status (this after.1.1) = RecurringDeposit.status (this d)
  /\ RecurringDeposit.installmentsPaid (this after.1.1)
     = RecurringDeposit.installmentsPaid (this d)
  /\ RecurringDeposit.totalDeposited (this after.1.1)
     = RecurringDeposit.totalDeposited (this d)
  /\ RecurringDeposit.maturityDetails (this after.1.1)
     = RecurringDeposit.maturityDetails (this d)
  /\ transactions (committed after.1.2) = transactions (committed w)
  /\ installments (committed after.1.2) = installments (committed w)
  /\ (recurringDeposits (committed after.1.2) = recurringDeposits (committed w)
      \/ recurringDeposits (committed after.1.2)
         = <[RecurringDeposit.rdNumber (this d) := this after.1.1]>
             (recurringDeposits (committed w))).
Proof.
  cbv zeta.
  assert (Hstatus :
    RecurringDeposit.status (this d) = RecurringDeposit.active
    \/ RecurringDeposit.status (this d) <> RecurringDeposit.active)
    by (destruct (RecurringDeposit.status (this d)); (now left) || (now right)).
  destruct Hstatus as [Hactive|Hactive].
  2:{ rewrite processInstallment_inactive by exact Hactive.
      cbn [fst snd]. split; [eexists; reflexivity|]. repeat split. now left. }
  destruct (accountSchema.findById (committed w)
              (RecurringDeposit.fromAccountId (this d)))
    as [a|] eqn:Ha.
  2:{ rewrite processInstallment_no_account by assumption.
      cbn [fst snd]. split; [eexists; reflexivity|]. repeat split. now left. }
  destruct (accountSchema.allowed
              (Spec.canTransact (clock w)
                 (Run.total (clock w) (default (clock w) arg) (this d)) a).2)
    eqn:Hallowed.
  - destruct (processInstallment_allowed arg d w a Hactive Ha Hallowed)
      as [why ->]. cbn [fst snd].
    destruct (debit_frame
                (Run.total (clock w) (default (clock w) arg) (this d))
                (Run.checked (clock w) (loaded_doc a false)) w)
      as (Ht & Hr & Hi & _).
    split; [eexists; reflexivity|]. repeat split; try assumption. now left.
  - rewrite (processInstallment_refused arg d w a Hactive Ha Hallowed).
    destruct (Run.refused w).
    + cbn [fst snd this]. split; [eexists; reflexivity|].
      repeat split. now left.
    + cbn [fst snd this Run.saved]. split; [eexists; reflexivity|].
      unfold Run.stored, Run.answered.
      destruct (session d); world_cbn; repeat split; try (now left).
      right. reflexivity.
Qed.

(** The twelfth installment of the sample deposit, five days late. Alice is
    debited 1050, the call throws, and the deposit is stored as it was:
    active, with eleven installments paid; there is no record of the
    payment and no payout. *)
Lemma twelfth_installment_is_debited_and_not_counted :
  let s := (loaded_doc (Sample.deposit 11) false,
            Sample.world_with (Sample.deposit 11)) in
  let after := recurringDepositSchema.processInstallment None s in
  after.2
  = Thrown "Transaction validation failed: transactionId: Path `transactionId` is required."
  /\ RecurringDeposit.status (this after.1.1) = RecurringDeposit.active
  /\ RecurringDeposit.installmentsPaid (this after.1.1) = 11%Z
  /\ recurringDeposits (committed after.1.2) !! "2024000001"
     = Some (Sample.deposit 11)
  /\ (exists a', accounts (committed after.1.2) !! "1000000001" = Some a'
                 /\ (Account.balance a' == 5000 - 1050)%Q)
  /\ transactions (committed after.1.2) = ∅
  /\ installments (committed after.1.2) = ∅.
Proof.
  cbv zeta.
  destruct (installment_is_never_counted None
              (loaded_doc (Sample.deposit 11) false)
              (Sample.world_with (Sample.deposit 11)))
    as (_ & Hstatus & Hpaid & _ & _ & Hrecords & Hinstallments & _).
  split; [vm_compute; reflexivity|].
  split; [rewrite Hstatus; reflexivity|].
  split; [rewrite Hpaid; reflexivity|].
  split; [vm_compute; reflexivity|].
  split; [eexists; split; [vm_compute; reflexivity | vm_compute; reflexivity]|].
  split; [rewrite Hrecords; reflexivity | rewrite Hinstallments; reflexivity].
Defined.



(** * Maturity and premature closure of a recurring deposit *)

(** [processMaturity] never pays. It throws when installments are missing
    and when the source account is missing; otherwise it builds the record
    of the payout, whose save is rejected for its missing [transactionId].
    Nothing is credited, the deposit keeps its status, and the receiver and
    the world are as they were. *)
Theorem maturity_is_never_paid (d : Doc RecurringDeposit.t) (w : World) :
  exists why,
    recurringDepositSchema.processMaturity (d, w) = ((d, w), Thrown why)
    /\ if (RecurringDeposit.installmentsPaid (this d)
           <? RecurringDeposit.tenure (this d))%Z
       then why = "RD has not completed all installments"
       else match accountSchema.findById (committed w)
                    (RecurringDeposit.fromAccountId (this d)) with
            | None => why = "Source account not found"
            | Some _ =>
                exists errors,
                  why = validation_failed "Transaction"
                          ("transactionId: Path `transactionId` is required."
                           :: errors)
            end.
Proof.
  unfold recurringDepositSchema.processMaturity.
  unfold bind at 1. unfold get_this at 1, gets at 1. cbn [fst snd].
  destruct (_ <? _)%Z; [eexists; split; reflexivity|].
  unfold bind at 1. unfold gets at 1. cbn [fst snd].
  destruct (accountSchema.findById _ _) as [account|];
    [|eexists; split; reflexivity].
  unfold bind at 1. unfold new_Date at 1, gets at 1. cbn [fst snd].
  unfold bind at 1. rewrite in_world_call_run.
  rewrite save_unidentified by reflexivity.
  eexists. split; [reflexivity|].
  match goal with
  | |- context [transactionSchema.validate ?x] =>
      destruct (validate_unidentified x eq_refl) as [errors ->]
  end.
  now exists errors.
Qed.

(** The sample deposit with all twelve installments paid: its maturity is
    not paid, and Alice still holds 5000. *)
Lemma paid_up_deposit_is_not_matured :
  let s := (loaded_doc (Sample.deposit 12) false,
            Sample.world_with (Sample.deposit 12)) in
  recurringDepositSchema.processMaturity s
  = (s, Thrown "Transaction validation failed: transactionId: Path `transactionId` is required.")
  /\ Account.balance <$> accounts (committed s.2) !! "1000000001" = Some 5000%Q.
Proof.
  cbv zeta.
  destruct (maturity_is_never_paid (loaded_doc (Sample.deposit 12) false)
              (Sample.world_with (Sample.deposit 12))) as (why & E & _).
  split; [|reflexivity].
  rewrite E.
  assert (E' : (recurringDepositSchema.processMaturity
                  (loaded_doc (Sample.deposit 12) false,
                   Sample.world_with (Sample.deposit 12))).2
               = Thrown "Transaction validation failed: transactionId: Path `transactionId` is required.")
    by (vm_compute; reflexivity).
  rewrite E in E'. cbn [snd] in E'. now rewrite E'.
Defined.

(** [closePremature] never pays either. It throws for a deposit that is not
    active and for a missing account; otherwise it builds the record of the
    payout, whose save is rejected. Nothing is credited, the deposit stays
    active, and the receiver and the world are as they were. *)
Theorem premature_closure_is_never_paid
    (reason : option string) (d : Doc RecurringDeposit.t) (w : World) :
  exists why,
    recurringDepositSchema.closePremature reason (d, w) = ((d, w), Thrown why)
    /\ match RecurringDeposit.status (this d) with
       | RecurringDeposit.active =>
           match accountSchema.findById (committed w)
                   (RecurringDeposit.fromAccountId (this d)) with
           | None => why = "Source account not found"
           | Some _ =>
               exists errors,
                 why = validation_failed "Transaction"
                         ("transactionId: Path `transactionId` is required."
                          :: errors)
           end
       | _ => why = "RD is not active"
       end.
Proof.
  unfold recurringDepositSchema.closePremature.
  unfold bind at 1. unfold get_this at 1, gets at 1. cbn [fst snd].
  destruct (RecurringDeposit.status (this d));
    try (eexists; split; reflexivity).
  unfold bind at 1. unfold gets at 1. cbn [fst snd].
  destruct (accountSchema.findById _ _) as [account|];
    [|eexists; split; reflexivity].
  unfold bind at 1. unfold new_Date at 1, gets at 1. cbn [fst snd].
  unfold bind at 1. rewrite in_world_call_run.
  rewrite save_unidentified by reflexivity.
  eexists. split; [reflexivity|].
  match goal with
  | |- context [transactionSchema.validate ?x] =>
      destruct (validate_unidentified x eq_refl) as [errors ->]
  end.
  now exists errors.
Qed.

(** The sample deposit after three installments cannot be closed. *)
Lemma deposit_is_not_closed_after_three_installments :
  let s := (loaded_doc (Sample.deposit 3) false,
            Sample.world_with (Sample.deposit 3)) in
  recurringDepositSchema.closePremature None s
  = (s, Thrown "Transaction validation failed: transactionId: Path `transactionId` is required.").
Proof.
  cbv zeta.
  destruct (premature_closure_is_never_paid None
              (loaded_doc (Sample.deposit 3) false)
              (Sample.world_with (Sample.deposit 3))) as (why & E & _).
  rewrite E.
  assert (E' : (recurringDepositSchema.closePremature None
                  (loaded_doc (Sample.deposit 3) false,
                   Sample.world_with (Sample.deposit 3))).2
               = Thrown "Transaction validation failed: transactionId: Path `transactionId` is required.")
    by (vm_compute; reflexivity).
  rewrite E in E'. cbn [snd] in E'. now rewrite E'.
Defined.

(** * Interest payouts of [models/FixedDeposit.js] *)

(** [processInterestPayout] never pays interest. It leaves the receiver and
    the world as they were, and it returns only to report "Interest payout
    not due yet"; when a payout is due (the deposit pays out to an account
    that exists and a period has passed since the last payout) it throws at
    the record of the payout, whose save is rejected for its missing
    [transactionId]. *)
Theorem interest_is_never_paid_out (d : Doc FixedDeposit.t) (w : World) :
  exists o,
    fixedDepositSchema.processInterestPayout (d, w) = ((d, w), o)
    /\ match o with
       | Returned result =>
           result
           = fixedDepositSchema.mkPayoutResult false None None
               (Some "Interest payout not due yet")
       | Thrown _ => True
       | Hangs => False
       end
    /\ forall account number,
         FixedDeposit.interestPayoutMode (this d) <> FixedDeposit.cumulative ->
         FixedDeposit.payoutAccountId (this d) = Some number ->
         accountSchema.findById (committed w) number = Some account ->
         (Payout.period (FixedDeposit.interestPayoutMode (this d))
          <= (clock w
              - default (FixedDeposit.startDate (this d))
                  (FixedDeposit.lastInterestPayoutDate (this d)))
             / fixedDepositSchema.msPerAverageMonth)%Z ->
         exists errors,
           o = Thrown (validation_failed "Transaction"
                         ("transactionId: Path `transactionId` is required."
                          :: errors)).
Proof.
  unfold fixedDepositSchema.processInterestPayout.
  unfold bind at 1. unfold get_this at 1, gets at 1. cbn [fst snd].
  destruct (FixedDeposit.interestPayoutMode (this d)) eqn:Hmode;
    destruct (FixedDeposit.payoutAccountId (this d)) as [payoutId|] eqn:Hid;
    try (eexists; split; [reflexivity|]; split; [exact I|];
         intros account number Hm Hn; congruence);
    unfold bind at 1; unfold new_Date at 1, gets at 1;
    cbn [fst snd Payout.period];
    (destruct (_ <=? _)%Z eqn:Hdue;
     [ unfold bind at 1; unfold gets at 1; cbn [fst snd];
       destruct (accountSchema.findById _ payoutId) as [account|] eqn:Ha;
       [ unfold bind at 1; unfold new_Date at 1, gets at 1; cbn [fst snd];
         unfold bind at 1; rewrite in_world_call_run;
         rewrite save_unidentified by reflexivity;
         eexists; split; [reflexivity|]; split; [exact I|];
         intros account' number _ _ _ _;
         match goal with
         | |- context [transactionSchema.validate ?x] =>
             destruct (validate_unidentified x eq_refl) as [errors ->]
         end; now exists errors
       | eexists; split; [reflexivity|]; split; [exact I|];
         intros account number _ [= <-] Hfound; congruence ]
     | eexists; split; [reflexivity|]; split; [reflexivity|];
       intros account number _ _ _ Hle;
       apply Z.leb_gt in Hdue; lia ]).
Qed.

(** The sample deposit pays out monthly and started forty days ago: a payout
    is due, and it is not paid. *)
Lemma due_payout_is_not_paid :
  let s := (loaded_doc Sample.fixed false, Sample.world_with_fixed Sample.fixed) in
  fixedDepositSchema.processInterestPayout s
  = (s, Thrown "Transaction validation failed: transactionId: Path `transactionId` is required.").
Proof.
  cbv zeta.
  destruct (interest_is_never_paid_out (loaded_doc Sample.fixed false)
              (Sample.world_with_fixed Sample.fixed)) as (o & E & _).
  rewrite E.
  assert (E' : (fixedDepositSchema.processInterestPayout
                  (loaded_doc Sample.fixed false,
                   Sample.world_with_fixed Sample.fixed)).2
               = Thrown "Transaction validation failed: transactionId: Path `transactionId` is required.")
    by (vm_compute; reflexivity).
  rewrite E in E'. cbn [snd] in E'. now rewrite E'.
Defined.

(** * Creating a recurring deposit and a fixed deposit *)

Section Creation.



End Creation.





(** * Deactivating an account *)

Lemma deactivated_not_found (store : Store) (number user : string)
    (a : Account.t) :
  Account.accountNumber a = number ->
  accountSchema.findOne
    (accountSchema.put
       (Account.set_freezeReason Account.customer_request
          (Account.set_isActive false a)) store)
    number user = None.
Proof.
  intros <-. unfold accountSchema.findOne, accountSchema.put.
  cbn [accounts].
  replace (Account.accountNumber
             (Account.set_freezeReason Account.customer_request
                (Account.set_isActive false a)))
    with (Account.accountNumber a) by now destruct a.
  rewrite lookup_insert_eq. cbn.
  replace (Account.isActive
             (Account.set_freezeReason Account.customer_request
                (Account.set_isActive false a)))
    with false by now destruct a.
  now rewrite !andb_false_r.
Qed.

(** [deactivateAccount] on an account of the user whose balance is not above
    the minimum always answers 500 "Failed to deactivate account", and never
    200. It marks the account inactive with the freeze reason
    [customer_request] and saves it, which validates the loaded balance as
    well: when the balance does not pass its validators nothing is stored,
    and the same when storage refuses the write; otherwise the deactivation
    is stored, and the account is no longer found as an active one. The
    record of the deactivation is then built with the amount 0 and no
    [transactionId]; its save is rejected, so no record is written and the
    [catch] answers 500 although the account has been deactivated. No
    uncommitted write is involved. *)
Theorem deactivation_is_answered_500
    (req : accountController.deactivate_request) (w : World) (a : Account.t)
    (Hfound : accountSchema.findOne (committed w)
                (accountController.accountNumber req)
                (accountController.userId req) = Some a)
    (Hbalance : (Account.balance a <= Account.minimumBalance a)%Q) :
  let after := accountController.deactivateAccount req w in
  let deactivated :=
    Account.set_freezeReason Account.customer_request
      (Account.set_isActive false a) in
  after.2
  = Returned (accountController.mkDeactivateResponse 500 false
                "Failed to deactivate account" None)
  /\ uncommitted after.1 = uncommitted w
  /\ transactions (committed after.1) = transactions (committed w)
  /\ match accountSchema.validate_balance a with
     | Some _ => committed after.1 = committed w
     | None =>
         if Run.refused w then committed after.1 = committed w
         else committed after.1 = accountSchema.put deactivated (committed w)
              /\ accountSchema.findOne (committed after.1)
                   (accountController.accountNumber req)
                   (accountController.userId req) = None
     end.
Proof.
  cbv zeta.
  remember (accountController.deactivateAccount req w) as after eqn:E.
  revert E. unfold accountController.deactivateAccount.
  unfold try_catch. unfold bind at 1, gets at 1. rewrite Hfound.
  assert (Hle : Qgtb (Account.balance a) (Account.minimumBalance a) = false).
  { unfold Qgtb, Qltb. apply negb_false_iff. now apply Qle_bool_iff. }
  rewrite Hle.
  unfold bind at 1. unfold call at 1.
  rewrite !bind_assign. rewrite save_account_run.
  unfold Run.save_account.
  cbn [loaded_doc this session isNew modifiedPaths].
  replace (accountSchema.validate_balance
             (Account.set_freezeReason Account.customer_request
                (Account.set_isActive false a)))
    with (accountSchema.validate_balance a) by now destruct a.
  pose proof (findOne_number _ _ _ _ Hfound) as Hnumber.
  destruct (accountSchema.validate_balance a) as [message|].
  { cbn [fst snd]. intros ->. cbn [fst snd]. now repeat split. }
  unfold Run.write.
  destruct (Run.refused w) eqn:Hw.
  - cbn [fst snd]. intros ->. cbn [fst snd]. now repeat split.
  - cbn [fst snd Run.saved this session].
    unfold bind at 1, gets at 1. cbn [fst snd].
    unfold bind at 1. rewrite call_save_new by reflexivity.
    cbn [fst snd]. intros ->. cbn [fst snd].
    split; [reflexivity|]. split; [reflexivity|]. split; [reflexivity|].
    split; [reflexivity|].
    now apply deactivated_not_found.
Qed.

(** Erin, whose account holds exactly its minimum, asks for it to be closed:
    the account is deactivated, and she is told that it failed. *)
Lemma deactivation_of_erin_is_stored_and_answered_500 :
  let req := accountController.mkDeactivateRequest "1000000005" None "u5" in
  let w := Sample.world_of [Sample.erin] in
  let after := accountController.deactivateAccount req w in
  after.2
  = Returned (accountController.mkDeactivateResponse 500 false
                "Failed to deactivate account" None)
  /\ Account.isActive <$> (accounts (committed after.1) !! "1000000005")
     = Some false
  /\ Account.freezeReason <$> (accounts (committed after.1) !! "1000000005")
     = Some Account.customer_request
  /\ transactions (committed after.1) = ∅.
Proof.
  cbv zeta.
  assert (Hfound : accountSchema.findOne
                     (committed (Sample.world_of [Sample.erin]))
                     "1000000005" "u5" = Some Sample.erin)
    by (vm_compute; reflexivity).
  assert (Hbalance : (Account.balance Sample.erin
                      <= Account.minimumBalance Sample.erin)%Q)
    by (vm_compute; discriminate).
  pose proof (deactivation_is_answered_500
                (accountController.mkDeactivateRequest "1000000005" None "u5")
                (Sample.world_of [Sample.erin]) Sample.erin Hfound Hbalance)
    as T.
  cbv zeta in T. destruct T as (Hout & _ & Hrecords & T).
  change (accountSchema.validate_balance Sample.erin) with (@None string) in T.
  change (Run.refused (Sample.world_of [Sample.erin])) with false in T.
  destruct T as (Hcommitted & _).
  rewrite Hout, Hcommitted.
  repeat apply conj; vm_compute; reflexivity.
Defined.

(** * [canTransact] in binary floating point *)

Section LocalTime.

Local Open Scope Z_scope.

(** No reset fires at the instant of the last reset, in any time zone. *)
Lemma no_new_day (zone now : Z) :
  (now <? Binary64.make zone (Date.getFullYear (now + zone))
            (Date.getMonth (now + zone)) (Date.getDate (now + zone))) = false.
Proof.
  unfold Binary64.make.
  pose proof (new_day_iff (now + zone) (now + zone)) as H.
  rewrite Z.ltb_irrefl in H.
  apply Z.ltb_ge in H. apply Z.ltb_ge. lia.
Qed.

Lemma no_new_month (zone now : Z) :
  (now <? Binary64.make zone (Date.getFullYear (now + zone))
            (Date.getMonth (now + zone)) 1) = false.
Proof.
  unfold Binary64.make.
  pose proof (new_month_iff (now + zone) (now + zone)) as H.
  rewrite Z.ltb_irrefl in H.
  apply Z.ltb_ge in H. apply Z.ltb_ge. lia.
Qed.

End LocalTime.

#[local] Set Warnings "-inexact-float".

(** C4. The floor check of [canTransact] refuses a debit that leaves exactly
    the minimum balance. A savings account holds 8618.97 with a minimum
    balance of 1000, nothing counted against its limits, and its counters
    reset at this very instant, so that no window is reset in any time zone.
    For the amount 7618.97 the specification has the daily and the monthly
    check pass and then [balance - amount >= minimumBalance], which holds,
    since 8618.97 - 7618.97 = 1000: the debit is allowed. The code computes the
    difference in binary floating point, gets 999.9999999999991, finds it
    below 1000 and answers "Insufficient balance. Minimum balance
    requirement not met". *)
Theorem floor_check_refuses_a_debit_down_to_the_minimum (zone now : Z) :
  let account :=
    Binary64.mkAccount Account.savings 8618.97 1000 0 50000 500000 0 0
      now now in
  let exact :=
    Account.mk "1000000001" "u1" Account.savings (861897 # 100) 1000 0 4 now
      true Account.none 50000 500000 0 0 now now in
  Binary64.canTransact zone now 7618.97 account
  = (account,
     accountSchema.mkCanTransact false
       (Some "Insufficient balance. Minimum balance requirement not met"))
  /\ PrimFloat.sub 8618.97 7618.97 = 999.9999999999991%float
  /\ (Account.balance exact - (761897 # 100) == Account.minimumBalance exact)%Q
  /\ Spec.canTransact now (761897 # 100) exact
     = (exact, accountSchema.mkCanTransact true None).
Proof.
  cbv zeta. split; [|split; [|split]].
  - unfold Binary64.canTransact.
    cbn [Binary64.lastTransactionReset Binary64.lastMonthlyReset].
    rewrite no_new_day.
    cbn [Binary64.lastTransactionReset Binary64.lastMonthlyReset].
    rewrite no_new_month. reflexivity.
  - reflexivity.
  - reflexivity.
  - unfold Spec.canTransact, Spec.reset_windows.
    cbn [Account.lastTransactionReset Account.lastMonthlyReset].
    rewrite !Z.ltb_irrefl. reflexivity.
Qed.
